(** * LangSmith tool functions: a shallow embedding and its properties

    The development embeds the two tool modules of the repository,
    [services/tools/traces.py] and [services/tools/datasets.py], as Rocq
    functions over a small universe of Python values, a client that answers
    (or raises) on every call, and an error monad that also records the calls
    made on the client. *)

From Stdlib Require Import List String Ascii ZArith Bool Lia.
From Stdlib Require Import Sorted Permutation DecimalString.
Import ListNotations.
Local Open Scope string_scope.
Local Open Scope list_scope.

Set Warnings "-register-all".

(** ** Python values *)

(** A naive [datetime.datetime]. *)
Record datetime : Type := Datetime {
  dt_year : nat; dt_month : nat; dt_day : nat;
  dt_hour : nat; dt_minute : nat; dt_second : nat;
  dt_microsecond : nat
}.

(** The values the tools handle. [VObj cls text attrs] is an instance of a
    class named [cls] whose [str()] is [text] and whose attributes are
    [attrs] (a run, a dataset, an example, a UUID); its attributes hold
    data, not callables. Dictionaries keep insertion order and have text
    keys. *)
Inductive value : Type :=
| VNone
| VBool (b : bool)
| VInt (z : Z)
| VStr (s : string)
| VDatetime (d : datetime)
| VList (items : list value)
| VDict (entries : list (string * value))
| VObj (cls text : string) (attrs : list (string * value)).

(** Exceptions, all of them instances of [Exception]. [Raised msg] is an
    exception coming out of the client whose [str()] is [msg]. *)
Inductive exn : Type :=
| Raised (msg : string)
| AttributeError (cls attr : string)
| TypeError (msg : string)
| KeyError (key : string)
| IndexError (msg : string).

Definition result (A : Type) : Type := (exn + A)%type.

Definition type_name (v : value) : string :=
  match v with
  | VNone => "NoneType"
  | VBool _ => "bool"
  | VInt _ => "int"
  | VStr _ => "str"
  | VDatetime _ => "datetime.datetime"
  | VList _ => "list"
  | VDict _ => "dict"
  | VObj cls _ _ => cls
  end.

(** [str(e)] *)
Definition exn_str (e : exn) : string :=
  match e with
  | Raised msg => msg
  | AttributeError cls attr =>
      "'" ++ cls ++ "' object has no attribute '" ++ attr ++ "'"
  | TypeError msg => msg
  | KeyError key => "'" ++ key ++ "'"
  | IndexError msg => msg
  end.

(** ** Dictionaries as insertion-ordered association lists *)

Module Dict.

Definition t : Type := list (string * value).

Fixpoint get (k : string) (d : t) : option value :=
  match d with
  | [] => None
  | (k', v) :: d' => if String.eqb k k' then Some v else get k d'
  end.

Definition has (k : string) (d : t) : bool :=
  match get k d with Some _ => true | None => false end.

(** [d[k] = v]: an existing key keeps its place, a new one goes last. *)
Fixpoint set (k : string) (v : value) (d : t) : t :=
  match d with
  | [] => [(k, v)]
  | (k', v') :: d' =>
      if String.eqb k k' then (k, v) :: d' else (k', v') :: set k v d'
  end.

(** [d.pop(k, None)], result discarded. *)
Fixpoint pop (k : string) (d : t) : t :=
  match d with
  | [] => []
  | (k', v') :: d' =>
      if String.eqb k k' then pop k d' else (k', v') :: pop k d'
  end.

Definition keys (d : t) : list string := map fst d.

End Dict.

(** ** Text *)

Definition dec (n : nat) : string := NilZero.string_of_uint (Nat.to_uint n).

Fixpoint zeros (n : nat) : string :=
  match n with O => "" | S n' => String "0" (zeros n') end.

(** [f"{n:0{width}d}"] *)
Definition pad (width n : nat) : string :=
  let s := dec n in zeros (width - String.length s) ++ s.

(** [d.isoformat(sep)] of a naive datetime: the fraction is printed only
    when the microsecond is not zero. *)
Definition dt_format (sep : string) (d : datetime) : string :=
  pad 4 (dt_year d) ++ "-" ++ pad 2 (dt_month d) ++ "-" ++ pad 2 (dt_day d)
  ++ sep
  ++ pad 2 (dt_hour d) ++ ":" ++ pad 2 (dt_minute d) ++ ":" ++ pad 2 (dt_second d)
  ++ (if Nat.eqb (dt_microsecond d) 0 then ""
      else "." ++ pad 6 (dt_microsecond d)).

Definition isoformat (d : datetime) : string := dt_format "T" d.

Definition dt_fields (d : datetime) : list nat :=
  [dt_year d; dt_month d; dt_day d; dt_hour d; dt_minute d; dt_second d;
   dt_microsecond d].

Fixpoint lex_ltb (a b : list nat) : bool :=
  match a, b with
  | [], [] => false
  | [], _ :: _ => true
  | _ :: _, [] => false
  | x :: a', y :: b' =>
      if Nat.ltb x y then true
      else if Nat.eqb x y then lex_ltb a' b' else false
  end.

Definition dt_ltb (a b : datetime) : bool := lex_ltb (dt_fields a) (dt_fields b).

(** [s.split(sep)] for a one-character separator. *)
Fixpoint split_on (sep : ascii) (s : string) : list string :=
  match s with
  | EmptyString => [""]
  | String c rest =>
      if Ascii.eqb c sep then "" :: split_on sep rest
      else match split_on sep rest with
           | [] => [String c ""]
           | w :: ws => String c w :: ws
           end
  end.

(** [sub in s] on text. *)
Definition is_substring (sub s : string) : bool :=
  match String.index 0 sub s with Some _ => true | None => false end.

Definition dquote : string := String (ascii_of_nat 34) "".

Fixpoint chars (s : string) : list string :=
  match s with
  | EmptyString => []
  | String c rest => String c "" :: chars rest
  end.

(** ** Calls on the client, and the monad of the tools *)

(** A call of a method of the client with its positional and keyword
    arguments. *)
Inductive call : Type :=
| Call (method : string) (args : list value) (kwargs : list (string * value)).

(** A client answers every call with a value or raises. *)
Definition client : Type := call -> result value.

(** A computation may raise, and records the calls it makes on the client. *)
Definition M (A : Type) : Type := list call -> list call * result A.

Definition ret {A : Type} (x : A) : M A := fun log => (log, inr x).

Definition raise {A : Type} (e : exn) : M A := fun log => (log, inl e).

Definition bind {A B : Type} (m : M A) (k : A -> M B) : M B :=
  fun log =>
    match m log with
    | (log', inr x) => k x log'
    | (log', inl e) => (log', inl e)
    end.

Definition lift {A : Type} (r : result A) : M A := fun log => (log, r).

Definition invoke (c : client) (q : call) : M value :=
  fun log => (log ++ [q], c q).

(** [try: body except Exception as e: handler(e)] *)
Definition try_except {A : Type} (body : M A) (handler : exn -> M A) : M A :=
  fun log =>
    match body log with
    | (log', inr x) => (log', inr x)
    | (log', inl e) => handler e log'
    end.

Notation "x <- m ;; k" := (bind m (fun x => k))
  (at level 61, m at next level, right associativity).

Definition rbind {A B : Type} (r : result A) (k : A -> result B) : result B :=
  match r with inr x => k x | inl e => inl e end.

Notation "x <-? r ;; k" := (rbind r (fun x => k))
  (at level 61, r at next level, right associativity).

(** What a tool hands back: the mapping of a normal return, or the message
    of one of its [return {"error": message}] statements. *)
Inductive outcome : Type :=
| Success (v : value)
| Failure (msg : string).

Definition payload (o : outcome) : value :=
  match o with
  | Success v => v
  | Failure msg => VDict [("error", VStr msg)]
  end.

(** ** The operations of the language the tools use *)

Section Tools.

(** What the model leaves to the interpreter: the text of a list or a
    dictionary ([repr] of its elements), and [<] between operands whose
    ordering belongs to a class or to the elements of two lists. *)
Variable container_str : value -> string.
Variable rich_lt : value -> value -> result bool.

(** [str(v)] *)
Definition py_str (v : value) : string :=
  match v with
  | VNone => "None"
  | VBool true => "True"
  | VBool false => "False"
  | VInt z => NilZero.string_of_int (Z.to_int z)
  | VStr s => s
  | VDatetime d => dt_format " " d
  | VList _ | VDict _ => container_str v
  | VObj _ text _ => text
  end.

(** Truth value of [v], as [if v] and [not v] take it. *)
Definition truthy (v : value) : bool :=
  match v with
  | VNone => false
  | VBool b => b
  | VInt z => negb (Z.eqb z 0)
  | VStr s => negb (String.eqb s "")
  | VDatetime _ => true
  | VList l => match l with [] => false | _ => true end
  | VDict d => match d with [] => false | _ => true end
  | VObj _ _ _ => true
  end.

(** [v == "lit"] for a text literal. *)
Definition eq_str (v : value) (lit : string) : bool :=
  match v with VStr s => String.eqb s lit | _ => false end.

Definition is_none (v : value) : bool :=
  match v with VNone => true | _ => false end.

(** [hasattr(v, name)] for the data attributes the tools probe; the
    built-in types have none of them. *)
Definition hasattr (v : value) (name : string) : bool :=
  match v with VObj _ _ attrs => Dict.has name attrs | _ => false end.

(** [v.name] *)
Definition getattr (v : value) (name : string) : result value :=
  match v with
  | VObj cls _ attrs =>
      match Dict.get name attrs with
      | Some x => inr x
      | None => inl (AttributeError cls name)
      end
  | _ => inl (AttributeError (type_name v) name)
  end.

(** [getattr(v, name, None)] *)
Definition getattr_default (v : value) (name : string) : value :=
  match getattr v name with inr x => x | inl _ => VNone end.

(** What [v.name(...)] raises when [v] has no method [name]: the
    attribute is missing, or it is data and cannot be called. *)
Definition no_method (v : value) (name : string) : exn :=
  match getattr v name with
  | inr x => TypeError ("'" ++ type_name x ++ "' object is not callable")
  | inl e => e
  end.

(** [key in v] for a text key. *)
Definition contains (v : value) (key : string) : result bool :=
  match v with
  | VDict d => inr (Dict.has key d)
  | VList l => inr (existsb (fun x => eq_str x key) l)
  | VStr s => inr (is_substring key s)
  | _ => inl (TypeError ("argument of type '" ++ type_name v
                         ++ "' is not iterable"))
  end.

(** [v[key]] for a text key. *)
Definition getitem (v : value) (key : string) : result value :=
  match v with
  | VDict d =>
      match Dict.get key d with
      | Some x => inr x
      | None => inl (KeyError key)
      end
  | VList _ => inl (TypeError "list indices must be integers or slices, not str")
  | VStr _ => inl (TypeError "string indices must be integers, not 'str'")
  | _ => inl (TypeError ("'" ++ type_name v ++ "' object is not subscriptable"))
  end.

(** The elements [list(v)] and [for x in v] go through. *)
Definition iterate (v : value) : result (list value) :=
  match v with
  | VList l => inr l
  | VDict d => inr (map VStr (Dict.keys d))
  | VStr s => inr (map VStr (chars s))
  | _ => inl (TypeError ("'" ++ type_name v ++ "' object is not iterable"))
  end.

Definition not_ordered (a b : value) : exn :=
  TypeError ("'<' not supported between instances of '" ++ type_name a
             ++ "' and '" ++ type_name b ++ "'").

Definition as_number (v : value) : option Z :=
  match v with
  | VBool b => Some (if b then 1%Z else 0%Z)
  | VInt z => Some z
  | _ => None
  end.

(** [a < b] *)
Definition py_lt (a b : value) : result bool :=
  match a, b with
  | VObj _ _ _, _ | _, VObj _ _ _ | VList _, VList _ => rich_lt a b
  | VStr s, VStr t => inr (String.ltb s t)
  | VDatetime d, VDatetime e => inr (dt_ltb d e)
  | _, _ =>
      match as_number a, as_number b with
      | Some x, Some y => inr (Z.ltb x y)
      | _, _ => inl (not_ordered a b)
      end
  end.

(** *** Sorting *)

(** [list.sort(key=...)] and [sorted(..., key=...)]: the keys are computed
    first, the items are then ordered with [<] on the keys alone, equal
    keys keeping their order; a comparison that raises ends the sort.
    The result of a sort that succeeds does not depend on the order in
    which the pairs are compared; the model compares them as an insertion
    from the right does, which is not the order of CPython for three items
    or more. Which pair a [TypeError] names, and the order a failed
    [list.sort] leaves behind, are therefore left open by the properties
    below. *)
Fixpoint insert_by {A : Type} (x : value * A) (l : list (value * A))
  : result (list (value * A)) :=
  match l with
  | [] => inr [x]
  | y :: l' =>
      b <-? py_lt (fst y) (fst x) ;;
      if b then (r <-? insert_by x l' ;; inr (y :: r)) else inr (x :: l)
  end.

Fixpoint sort_keyed {A : Type} (l : list (value * A))
  : result (list (value * A)) :=
  match l with
  | [] => inr []
  | x :: l' => s <-? sort_keyed l' ;; insert_by x s
  end.

Fixpoint with_keys {A : Type} (key : A -> result value) (l : list A)
  : result (list (value * A)) :=
  match l with
  | [] => inr []
  | x :: l' => k <-? key x ;; r <-? with_keys key l' ;; inr ((k, x) :: r)
  end.

Definition py_sorted {A : Type} (key : A -> result value) (reverse : bool)
    (l : list A) : result (list A) :=
  keyed <-? with_keys key l ;;
  if reverse
  then (s <-? sort_keyed (rev keyed) ;; inr (map snd (rev s)))
  else (s <-? sort_keyed keyed ;; inr (map snd s)).

(** *** Method calls and small idioms *)

(** [v.split("/")] *)
Definition split_slash (v : value) : result (list string) :=
  match v with
  | VStr s => inr (split_on "/" s)
  | _ => inl (no_method v "split")
  end.

(** [v.pop(key, None)], for the mapping it leaves behind. *)
Definition pop_key (v : value) (key : string) : result value :=
  match v with
  | VDict d => inr (VDict (Dict.pop key d))
  | VList _ => inl (TypeError "pop expected at most 1 argument, got 2")
  | _ => inl (no_method v "pop")
  end.

(** [v[key] = x], for the mapping it leaves behind. *)
Definition setitem (v : value) (key : string) (x : value) : result value :=
  match v with
  | VDict d => inr (VDict (Dict.set key x d))
  | VList _ => inl (TypeError "list indices must be integers or slices, not str")
  | _ => inl (TypeError ("'" ++ type_name v
                         ++ "' object does not support item assignment"))
  end.

(** [v.isoformat()] *)
Definition isoformat_of (v : value) : result value :=
  match v with
  | VDatetime d => inr (VStr (isoformat d))
  | _ => inl (no_method v "isoformat")
  end.

(** [isinstance(v, dict) and key in v] *)
Definition dict_has (v : value) (key : string) : bool :=
  match v with VDict d => Dict.has key d | _ => false end.

(** [v.name if hasattr(v, name) else default] *)
Definition attr_or (v : value) (name : string) (default : value) : value :=
  if hasattr v name then getattr_default v name else default.

(** [str(v.name) if hasattr(v, name) else None] *)
Definition str_attr_or_none (v : value) (name : string) : value :=
  if hasattr v name then VStr (py_str (getattr_default v name)) else VNone.

(** The ["null"] text a host may send for an absent argument. *)
Definition null_to_none (v : value) : value :=
  if eq_str v "null" then VNone else v.

Definition strs (l : list string) : value := VList (map VStr l).

(** [len(l)] *)
Definition count {A : Type} (l : list A) : value :=
  VInt (Z.of_nat (List.length l)).

(** ** traces.py *)

Definition fetch_trace_select : list string :=
  ["inputs"; "outputs"; "run_type"; "id"; "error"; "total_tokens";
   "total_cost"; "feedback_stats"; "app_path"; "thread_id"].

Definition fetch_trace (c : client) (project_name trace_id : value)
  : M outcome :=
  let project_name := null_to_none project_name in
  let trace_id := null_to_none trace_id in
  if negb (truthy project_name) && negb (truthy trace_id) then
    ret (Failure "Error: Either project_name or trace_id must be provided.")
  else
    try_except
      (listed <- invoke c (Call "list_runs" []
         [("project_name", if truthy project_name then project_name else VNone);
          ("id", if truthy trace_id then VList [trace_id] else VNone);
          ("select", strs fetch_trace_select);
          ("is_root", VBool true);
          ("limit", VInt 1)]) ;;
       runs <- lift (iterate listed) ;;
       match runs with
       | [] =>
           ret (Failure ("No runs found for project_name: "
                         ++ py_str project_name))
       | run :: _ =>
           id <- lift (getattr run "id") ;;
           run_type <- lift (getattr run "run_type") ;;
           id' <- lift (getattr run "id") ;;
           error <- lift (getattr run "error") ;;
           inputs <- lift (getattr run "inputs") ;;
           outputs <- lift (getattr run "outputs") ;;
           total_tokens <- lift (getattr run "total_tokens") ;;
           total_cost <- lift (getattr run "total_cost") ;;
           feedback_stats <- lift (getattr run "feedback_stats") ;;
           app_path <- lift (getattr run "app_path") ;;
           ret (Success (VDict
             [("trace_id", VStr (py_str id));
              ("run_type", run_type);
              ("id", VStr (py_str id'));
              ("error", error);
              ("inputs", inputs);
              ("outputs", outputs);
              ("total_tokens", total_tokens);
              ("total_cost", VStr (py_str total_cost));
              ("feedback_stats", feedback_stats);
              ("app_path", app_path);
              ("thread_id", str_attr_or_none run "thread_id")]))
       end)
      (fun e => ret (Failure ("Error fetching last trace: " ++ exn_str e))).

Definition fetch_trace_tool (c : client) (project_name trace_id : value)
  : M value :=
  o <- fetch_trace c project_name trace_id ;; ret (payload o).

Definition thread_filter (thread_id : value) : string :=
  "and(in(metadata_key, [" ++ dquote ++ "session_id" ++ dquote ++ ","
  ++ dquote ++ "conversation_id" ++ dquote ++ ","
  ++ dquote ++ "thread_id" ++ dquote ++ "]), "
  ++ "eq(metadata_value, " ++ dquote ++ py_str thread_id ++ dquote ++ "))".

(** The messages of the inputs of the latest run, added to [messages]. *)
Definition add_input_messages (latest_run : value) (messages : list value)
  : result (list value) :=
  if hasattr latest_run "inputs" then
    inputs <-? getattr latest_run "inputs" ;;
    found <-? contains inputs "messages" ;;
    if found then
      listed <-? getitem inputs "messages" ;;
      items <-? iterate listed ;;
      inr (messages ++ items)
    else inr messages
  else inr messages.

(** The message of the outputs of the latest run, added to [messages]. *)
Definition add_output_message (latest_run : value) (messages : list value)
  : result (list value) :=
  if hasattr latest_run "outputs" then
    outputs <-? getattr latest_run "outputs" ;;
    if dict_has outputs "choices" then
      choices <-? getitem outputs "choices" ;;
      match choices with
      | VList (first :: _) =>
          found <-? contains first "message" ;;
          if found then
            message <-? getitem first "message" ;;
            inr (messages ++ [message])
          else inr messages
      | _ => inr messages
      end
    else if dict_has outputs "message" then
      message <-? getitem outputs "message" ;;
      inr (messages ++ [message])
    else inr messages
  else inr messages.

(** The listing of the LLM runs of the thread. *)
Definition history_call (thread_id project_name : value) : call :=
  let filter_string := thread_filter thread_id in
  Call "list_runs" []
    [("project_name", project_name);
     ("filter", VStr filter_string);
     ("run_type", VStr "llm")].

Definition get_thread_history (c : client) (thread_id project_name : value)
  : M outcome :=
  try_except
    (listed <- invoke c (history_call thread_id project_name) ;;
     runs <- lift (iterate listed) ;;
     match runs with
     | [] =>
         ret (Failure ("No runs found for thread " ++ py_str thread_id
                       ++ " in project " ++ py_str project_name))
     | _ :: _ =>
         runs <- lift (py_sorted (fun run => getattr run "start_time")
                                 true runs) ;;
         match runs with
         | [] => raise (IndexError "list index out of range")
         | latest_run :: _ =>
             messages <- lift (add_input_messages latest_run []) ;;
             messages <- lift (add_output_message latest_run messages) ;;
             match messages with
             | [] =>
                 ret (Failure ("No messages found in the run for thread "
                               ++ py_str thread_id))
             | _ :: _ => ret (Success (VDict [("result", VList messages)]))
             end
         end
     end)
    (fun e => ret (Failure ("Error fetching thread history: " ++ exn_str e))).

Definition get_thread_history_tool (c : client)
    (thread_id project_name : value) : M value :=
  o <- get_thread_history c thread_id project_name ;; ret (payload o).

Definition child_select : list string :=
  ["id"; "name"; "run_type"; "status"; "start_time"; "end_time"; "latency";
   "error"; "parent_run_id"; "inputs"; "outputs"; "total_tokens";
   "total_cost"].

(** [hasattr(c, "parent_run_id") and c.parent_run_id
     and str(c.parent_run_id) == run_id] *)
Definition is_child_of (run_id c : value) : bool :=
  hasattr c "parent_run_id"
  && truthy (getattr_default c "parent_run_id")
  && eq_str run_id (py_str (getattr_default c "parent_run_id")).

(** The mapping built for one child run. *)
Definition child_info (c : value) : result Dict.t :=
  id <-? getattr c "id" ;;
  name <-? getattr c "name" ;;
  run_type <-? getattr c "run_type" ;;
  error <-? getattr c "error" ;;
  inputs <-? getattr c "inputs" ;;
  outputs <-? getattr c "outputs" ;;
  inr [("id", VStr (py_str id));
       ("name", name);
       ("run_type", run_type);
       ("status", attr_or c "status" VNone);
       ("start_time", str_attr_or_none c "start_time");
       ("end_time", str_attr_or_none c "end_time");
       ("latency_ms", attr_or c "latency" VNone);
       ("error", error);
       ("inputs", inputs);
       ("outputs", outputs);
       ("total_tokens", attr_or c "total_tokens" VNone);
       ("total_cost", str_attr_or_none c "total_cost")].

(** The comprehension over the listed runs. *)
Fixpoint select_children (run_id : value) (children : list value)
  : result (list Dict.t) :=
  match children with
  | [] => inr []
  | c :: rest =>
      if is_child_of run_id c then
        info <-? child_info c ;;
        more <-? select_children run_id rest ;;
        inr (info :: more)
      else select_children run_id rest
  end.

(** [x.get("start_time", "")] *)
Definition start_time_key (x : Dict.t) : result value :=
  inr (match Dict.get "start_time" x with Some v => v | None => VStr "" end).

(** The listing of the runs of the trace of [run]. *)
Definition children_call (run : value) : call :=
  Call "list_runs" []
    [("trace_id", str_attr_or_none run "trace_id");
     ("select", strs child_select)].

Definition read_call (run_id : value) : call := Call "read_run" [run_id] [].

(** The inner [try] of [fetch_run_tool]: the child runs and, when it fell
    into its [except] clause, the exception. [child_runs] is bound before
    it is sorted, so a sort that raises leaves the selected runs in it
    (the model keeps them in the order of the listing). *)
Definition fetch_child_runs (c : client) (run run_id : value)
  : M (list Dict.t * option exn) :=
  try_except
    (listed <- invoke c (children_call run) ;;
     children <- lift (iterate listed) ;;
     child_runs <- lift (select_children run_id children) ;;
     match py_sorted start_time_key false child_runs with
     | inr sorted => ret (sorted, None)
     | inl e => ret (child_runs, Some e)
     end)
    (fun e => ret ([], Some e)).

(** The mapping built for the run itself. *)
Definition run_info_of (run : value) : result Dict.t :=
  id <-? getattr run "id" ;;
  name <-? getattr run "name" ;;
  run_type <-? getattr run "run_type" ;;
  inputs <-? getattr run "inputs" ;;
  outputs <-? getattr run "outputs" ;;
  error <-? getattr run "error" ;;
  inr [("id", VStr (py_str id));
       ("name", name);
       ("run_type", run_type);
       ("status", attr_or run "status" VNone);
       ("start_time", str_attr_or_none run "start_time");
       ("end_time", str_attr_or_none run "end_time");
       ("latency_ms", attr_or run "latency" VNone);
       ("inputs", inputs);
       ("outputs", outputs);
       ("error", error);
       ("total_tokens", attr_or run "total_tokens" VNone);
       ("prompt_tokens", attr_or run "prompt_tokens" VNone);
       ("completion_tokens", attr_or run "completion_tokens" VNone);
       ("total_cost", str_attr_or_none run "total_cost");
       ("prompt_cost", str_attr_or_none run "prompt_cost");
       ("completion_cost", str_attr_or_none run "completion_cost");
       ("tags", attr_or run "tags" (VList []));
       ("trace_id", str_attr_or_none run "trace_id");
       ("parent_run_id",
        if hasattr run "parent_run_id"
           && truthy (getattr_default run "parent_run_id")
        then VStr (py_str (getattr_default run "parent_run_id"))
        else VNone)].

(** What follows the inner [try]: the note of its failure, then the child
    runs and their number. *)
Definition attach_children (run_info : Dict.t)
    (fetched : list Dict.t * option exn) : Dict.t :=
  let child_runs := fst fetched in
  let run_info :=
    match snd fetched with
    | Some e =>
        Dict.set "child_runs_error"
          (VStr ("Could not fetch child runs: " ++ exn_str e)) run_info
    | None => run_info
    end in
  let run_info :=
    Dict.set "child_runs" (VList (map VDict child_runs)) run_info in
  let run_info := Dict.set "child_run_count" (count child_runs) run_info in
  run_info.

Definition fetch_run (c : client) (run_id : value) : M outcome :=
  if eq_str run_id "null" || negb (truthy run_id) then
    ret (Failure "Error: run_id must be provided.")
  else
    try_except
      (run <- invoke c (read_call run_id) ;;
       if negb (truthy run) then
         ret (Failure ("No run found with ID: " ++ py_str run_id))
       else
         run_info <- lift (run_info_of run) ;;
         fetched <- fetch_child_runs c run run_id ;;
         ret (Success (VDict (attach_children run_info fetched))))
      (fun e => ret (Failure ("Error fetching run: " ++ exn_str e))).

Definition fetch_run_tool (c : client) (run_id : value) : M value :=
  o <- fetch_run c run_id ;; ret (payload o).

Definition get_project_runs_stats (c : client) (project_name trace_id : value)
  : M outcome :=
  let project_name := null_to_none project_name in
  let trace_id := null_to_none trace_id in
  if negb (truthy project_name) && negb (truthy trace_id) then
    ret (Failure "Error: Either project_name or trace_id must be provided.")
  else
    try_except
      (parts <- lift (split_slash project_name) ;;
       let is_qualified := Nat.eqb (List.length parts) 2 in
       let actual_project_name :=
         if is_qualified then VStr (nth 1 parts "") else project_name in
       project_runs_stats <- invoke c (Call "get_run_stats" []
         [("project_names",
           if truthy project_name then VList [actual_project_name] else VNone);
          ("trace", if truthy trace_id then trace_id else VNone)]) ;;
       project_runs_stats <- lift (pop_key project_runs_stats "run_facets") ;;
       project_runs_stats <-
         lift (setitem project_runs_stats "project_name" actual_project_name) ;;
       ret (Success project_runs_stats))
      (fun e =>
         ret (Failure ("Error getting project runs stats: " ++ exn_str e))).

Definition get_project_runs_stats_tool (c : client)
    (project_name trace_id : value) : M value :=
  o <- get_project_runs_stats c project_name trace_id ;; ret (payload o).

(** ** datasets.py *)

(** [kwargs[name] = v] under [if v is not None]. *)
Definition add_kwarg (name : string) (v : value) (kwargs : Dict.t) : Dict.t :=
  if is_none v then kwargs else Dict.set name v kwargs.

Definition dataset_attrs : list string :=
  ["id"; "name"; "inputs_schema_definition"; "outputs_schema_definition";
   "description"; "data_type"; "example_count"; "session_count";
   "created_at"; "modified_at"; "last_session_start_time"].

Definition example_attrs : list string :=
  ["id"; "inputs"; "outputs"; "metadata"; "created_at"; "modified_at";
   "dataset_id"].

Definition is_timestamp_attr (attr : string) : bool :=
  String.eqb attr "created_at" || String.eqb attr "modified_at".

(** One turn of the loop over [attrs]. *)
Definition format_attr (obj : value) (attr : string) : result value :=
  let value := getattr_default obj attr in
  if is_timestamp_attr attr && negb (is_none value)
  then isoformat_of value
  else inr value.

Fixpoint format_attrs (attrs : list string) (obj : value) (acc : Dict.t)
  : result Dict.t :=
  match attrs with
  | [] => inr acc
  | attr :: rest =>
      value <-? format_attr obj attr ;;
      format_attrs rest obj (Dict.set attr value acc)
  end.

(** The loop over the listed objects. *)
Fixpoint format_all (attrs : list string) (objs : list value)
  : result (list Dict.t) :=
  match objs with
  | [] => inr []
  | obj :: rest =>
      d <-? format_attrs attrs obj [] ;;
      more <-? format_all attrs rest ;;
      inr (d :: more)
  end.

(** The keyword arguments of the listing: a parameter left at [None] is
    not passed on. *)
Definition list_datasets_kwargs
    (dataset_ids data_type dataset_name dataset_name_contains metadata
     limit : value) : Dict.t :=
  let kwargs : Dict.t := [] in
  let kwargs := add_kwarg "dataset_ids" dataset_ids kwargs in
  let kwargs := add_kwarg "data_type" data_type kwargs in
  let kwargs := add_kwarg "dataset_name" dataset_name kwargs in
  let kwargs :=
    add_kwarg "dataset_name_contains" dataset_name_contains kwargs in
  let kwargs := add_kwarg "metadata" metadata kwargs in
  let kwargs := add_kwarg "limit" limit kwargs in
  kwargs.

Definition list_datasets (c : client)
    (dataset_ids data_type dataset_name dataset_name_contains metadata
     limit : value) : M outcome :=
  try_except
    (let kwargs := list_datasets_kwargs dataset_ids data_type dataset_name
                     dataset_name_contains metadata limit in
     listed <- invoke c (Call "list_datasets" [] kwargs) ;;
     datasets <- lift (iterate listed) ;;
     formatted_datasets <- lift (format_all dataset_attrs datasets) ;;
     ret (Success (VDict
       [("datasets", VList (map VDict formatted_datasets));
        ("total_count", count formatted_datasets)])))
    (fun e => ret (Failure ("Error fetching datasets: " ++ exn_str e))).

Definition list_datasets_tool (c : client)
    (dataset_ids data_type dataset_name dataset_name_contains metadata
     limit : value) : M value :=
  o <- list_datasets c dataset_ids data_type dataset_name
         dataset_name_contains metadata limit ;;
  ret (payload o).

Definition list_examples_kwargs (dataset_id dataset_name limit offset : value)
  : Dict.t :=
  let kwargs : Dict.t := [] in
  let kwargs := add_kwarg "dataset_id" dataset_id kwargs in
  let kwargs := add_kwarg "dataset_name" dataset_name kwargs in
  let kwargs := add_kwarg "limit" limit kwargs in
  let kwargs := add_kwarg "offset" offset kwargs in
  kwargs.

Definition list_examples (c : client)
    (dataset_id dataset_name limit offset : value) : M outcome :=
  try_except
    (let kwargs := list_examples_kwargs dataset_id dataset_name limit offset in
     listed <- invoke c (Call "list_examples" [] kwargs) ;;
     examples <- lift (iterate listed) ;;
     formatted_examples <- lift (format_all example_attrs examples) ;;
     ret (Success (VDict
       [("examples", VList (map VDict formatted_examples));
        ("total_count", count formatted_examples)])))
    (fun e => ret (Failure ("Error fetching examples: " ++ exn_str e))).

Definition list_examples_tool (c : client)
    (dataset_id dataset_name limit offset : value) : M value :=
  o <- list_examples c dataset_id dataset_name limit offset ;;
  ret (payload o).

(** ** examples/test_rules.py *)

(** The script talks to the service through [requests] and prints on the
    console. Both are events of the same log as the calls on the client:
    [requests.get(url, **kwargs)] is the call "requests.get", answered by
    the service with a response object or an exception; [resp.json()] is the
    call "json" on the response; [print(line)] is the event "print". An
    exception the script raises itself is recorded by its text. *)

(** [json.dumps(v, indent=2)] is left to the interpreter: the functions that
    print JSON take it as [json_dumps]. *)
Definition dumper : Type := value -> result string.

Definition newline : string := String (ascii_of_nat 10) "".

Definition print (line : string) : M unit :=
  fun log => (log ++ [Call "print" [VStr line] []], inr tt).

(** [v != n] for an integer literal. *)
Definition ne_int (v : value) (n : Z) : bool :=
  match as_number v with
  | Some z => negb (Z.eqb z n)
  | None => true
  end.

(** [v[0]] *)
Definition first_item (v : value) : result value :=
  match v with
  | VList (x :: _) => inr x
  | VList [] => inl (IndexError "list index out of range")
  | VStr (String ch _) => inr (VStr (String ch ""))
  | VStr EmptyString => inl (IndexError "string index out of range")
  | VDict _ => inl (Raised "0")
  | _ => inl (TypeError ("'" ++ type_name v ++ "' object is not subscriptable"))
  end.

(** [v.get(key)] *)
Definition get_method (v : value) (key : string) : result value :=
  match v with
  | VDict d => inr (match Dict.get key d with Some x => x | None => VNone end)
  | _ => inl (no_method v "get")
  end.

Definition BASE_URL : string := "https://api.smith.langchain.com".

Definition auth_headers (api_key : value) : value :=
  VDict [("X-API-Key", api_key)].

Definition rules_request (api_key params : value) : call :=
  let url := (BASE_URL ++ "/api/v1/runs/rules")%string in
  Call "requests.get" [VStr url]
    [("headers", auth_headers api_key);
     ("params", if truthy params then params else VDict []);
     ("timeout", VInt 30)].

Definition list_rules (c : client) (api_key params : value) : M value :=
  resp <- invoke c (rules_request api_key params) ;;
  status <- lift (getattr resp "status_code") ;;
  if ne_int status 200 then
    status <- lift (getattr resp "status_code") ;;
    text <- lift (getattr resp "text") ;;
    raise (Raised ("List rules failed: " ++ py_str status ++ " "
                   ++ py_str text))
  else invoke c (Call "json" [resp] []).

Definition get_rule_by_id (json_dumps : dumper) (c : client)
    (api_key rule_id : value) : M value :=
  rules <- list_rules c api_key (VDict [("id", VList [rule_id])]) ;;
  if negb (truthy rules) then
    _ <- print ("No rule found with id: " ++ py_str rule_id) ;;
    ret VNone
  else
    rule <- lift (first_item rules) ;;
    dumped <- lift (json_dumps rule) ;;
    _ <- print ("Rule details:" ++ newline ++ dumped) ;;
    ret rule.

(** The loop of the script over the listed rules: each is printed, and [r]
    stays bound to the last one. *)
Fixpoint print_rules (rules : list value) (r : option value)
  : M (option value) :=
  match rules with
  | [] => ret r
  | rule :: rest =>
      id <- lift (getitem rule "id") ;;
      name <- lift (get_method rule "display_name") ;;
      _ <- print (py_str id ++ " :: " ++ py_str name)%string ;;
      print_rules rest (Some rule)
  end.

(** The body of the script under [if __name__ == "__main__"]. *)
Definition rules_main (json_dumps : dumper) (c : client) (api_key : value)
  : M unit :=
  _ <- print "=== All rules (id :: name) ===" ;;
  let params := VDict [("name_contains", VStr "prompt-injection")] in
  listed <- list_rules c api_key params ;;
  rules <- lift (iterate listed) ;;
  r <- print_rules rules None ;;
  match r with
  | None => raise (Raised "name 'r' is not defined")
  | Some r =>
      rule_id <- lift (getitem r "id") ;;
      _ <- print (newline ++ "=== Selected rule ===")%string ;;
      _ <- get_rule_by_id json_dumps c api_key rule_id ;;
      print (newline ++ "=== Creating prompt-injection-2 ===")%string
  end.

(** ** examples/datasets_annotation.py *)

(** A computation of the test functions: it may raise, records its calls
    and prints like the others, and fills the inner mapping of [results]
    as it goes, which stays filled when it raises. *)
Definition R (A : Type) : Type :=
  Dict.t -> list call -> Dict.t * list call * result A.

Definition rret {A : Type} (x : A) : R A := fun d log => (d, log, inr x).

Definition rthen {A B : Type} (m : R A) (k : A -> R B) : R B :=
  fun d log =>
    match m d log with
    | (d', log', inr x) => k x d' log'
    | (d', log', inl e) => (d', log', inl e)
    end.

(** A computation that leaves [results] alone. *)
Definition run {A : Type} (m : M A) : R A :=
  fun d log => let (log', r) := m log in (d, log', r).

(** [results[section][key] = v] *)
Definition record (key : string) (v : value) : R unit :=
  fun d log => (Dict.set key v d, log, inr tt).

Definition rtry {A : Type} (body : R A) (handler : exn -> R A) : R A :=
  fun d log =>
    match body d log with
    | (d', log', inr x) => (d', log', inr x)
    | (d', log', inl e) => handler e d' log'
    end.

Notation "x <~ m ;; k" := (rthen m (fun x => k))
  (at level 61, m at next level, right associativity).

(** [[x.name for x in items]] *)
Fixpoint attrs_of (name : string) (items : list value) : result (list value) :=
  match items with
  | [] => inr []
  | x :: rest =>
      v <-? getattr x name ;;
      more <-? attrs_of name rest ;;
      inr (v :: more)
  end.

(** [[str(x.name) for x in items]] *)
Fixpoint attr_texts (name : string) (items : list value)
  : result (list value) :=
  match items with
  | [] => inr []
  | x :: rest =>
      v <-? getattr x name ;;
      more <-? attr_texts name rest ;;
      inr (VStr (py_str v) :: more)
  end.

Definition success_only : value := VDict [("success", VBool true)].

(** [test_datasets_operations], with what it draws from outside as
    parameters: the hexadecimal text of the fresh UUID, [DataType.kv] and
    the current time. *)
Definition test_datasets_body (c : client) (hex : string) (kv now : value)
  : R unit :=
  _ <~ run (print "Testing dataset listing...") ;;
  listed <~ run (invoke c (Call "list_datasets" [] [("limit", VInt 5)])) ;;
  datasets <~ run (lift (iterate listed)) ;;
  names <~ run (lift (if truthy (VList datasets)
                      then attrs_of "name" datasets else inr [])) ;;
  _ <~ record "list_existing"
         (VDict [("count", count datasets); ("dataset_names", VList names)]) ;;
  _ <~ run (print ("Found " ++ py_str (count datasets)
                   ++ " existing datasets")) ;;
  _ <~ run (print "Testing dataset creation...") ;;
  let dataset_name := ("test-dataset-" ++ String.substring 0 8 hex)%string in
  new_dataset <~ run (invoke c (Call "create_dataset" []
    [("dataset_name", VStr dataset_name);
     ("description", VStr "Test dataset created by API testing script");
     ("data_type", kv)])) ;;
  id <~ run (lift (getattr new_dataset "id")) ;;
  name <~ run (lift (getattr new_dataset "name")) ;;
  data_type <~ run (lift (getattr new_dataset "data_type")) ;;
  _ <~ record "create"
         (VDict [("success", VBool true); ("dataset_id", VStr (py_str id));
                 ("dataset_name", name); ("data_type", data_type)]) ;;
  _ <~ run (print ("Created dataset: " ++ py_str name ++ " (ID: "
                   ++ py_str id ++ ")")) ;;
  _ <~ run (print "Testing dataset reading...") ;;
  read_dataset <~ run (invoke c (Call "read_dataset" []
                                   [("dataset_id", id)])) ;;
  read_id <~ run (lift (getattr read_dataset "id")) ;;
  read_name <~ run (lift (getattr read_dataset "name")) ;;
  description <~ run (lift (getattr read_dataset "description")) ;;
  read_type <~ run (lift (getattr read_dataset "data_type")) ;;
  created_at <~ run (lift (getattr read_dataset "created_at")) ;;
  _ <~ record "read"
         (VDict [("success", VBool true); ("dataset_id", VStr (py_str read_id));
                 ("dataset_name", read_name); ("description", description);
                 ("data_type", read_type);
                 ("created_at", VStr (py_str created_at))]) ;;
  _ <~ run (print ("Read dataset: " ++ py_str read_name)) ;;
  _ <~ run (print "Testing dataset existence check...") ;;
  exists_ <~ run (invoke c (Call "has_dataset" []
                              [("dataset_name", VStr dataset_name)])) ;;
  _ <~ record "exists"
         (VDict [("success", VBool true); ("dataset_name", VStr dataset_name);
                 ("exists", exists_)]) ;;
  _ <~ run (print ("Dataset " ++ dataset_name ++ " exists: "
                   ++ py_str exists_)) ;;
  _ <~ run (print "Testing dataset versions...") ;;
  listed <~ run (invoke c (Call "list_dataset_versions" []
                             [("dataset_id", id)])) ;;
  versions <~ run (lift (iterate listed)) ;;
  version_ids <~ run (lift (if truthy (VList versions)
                            then attr_texts "id" versions else inr [])) ;;
  _ <~ record "versions"
         (VDict [("count", count versions);
                 ("version_ids", VList version_ids)]) ;;
  _ <~ run (print ("Found " ++ py_str (count versions)
                   ++ " versions for dataset")) ;;
  _ <~ run (print "Testing dataset splits...") ;;
  listed <~ run (invoke c (Call "list_dataset_splits" []
                             [("dataset_id", id)])) ;;
  splits <~ run (lift (iterate listed)) ;;
  split_names <~ run (lift (if truthy (VList splits)
                            then attrs_of "name" splits else inr [])) ;;
  _ <~ record "splits"
         (VDict [("count", count splits); ("split_names", VList split_names)]) ;;
  _ <~ run (print ("Found " ++ py_str (count splits)
                   ++ " splits for dataset")) ;;
  _ <~ run (print "Testing dataset tag update...") ;;
  _ <~ run (invoke c (Call "update_dataset_tag" []
                        [("dataset_id", id); ("tag", VStr "test-tag");
                         ("as_of", now)])) ;;
  _ <~ record "update_tag" success_only ;;
  _ <~ run (print "Updated dataset tag") ;;
  _ <~ run (print "Testing dataset deletion...") ;;
  _ <~ run (invoke c (Call "delete_dataset" [] [("dataset_id", id)])) ;;
  _ <~ record "delete" success_only ;;
  run (print ("Deleted dataset: " ++ dataset_name)).

Definition test_datasets_operations (c : client) (hex : string)
    (kv now : value) : M value :=
  fun log =>
    match rtry (test_datasets_body c hex kv now)
               (fun e =>
                  _ <~ record "error"
                         (VStr ("Dataset operations failed: " ++ exn_str e)) ;;
                  run (print ("Dataset operations error: " ++ exn_str e)))
               [] log with
    | (datasets, log', _) => (log', inr (VDict [("datasets", VDict datasets)]))
    end.

(** The two numbers of a line of the summary [main] prints for one
    section of the results. *)
Definition is_success (v : value) : bool :=
  match v with
  | VDict d =>
      truthy (match Dict.get "success" d with
              | Some x => x
              | None => VBool false
              end)
  | _ => false
  end.

Definition has_success (v : value) : bool := dict_has v "success".

Definition success_count (results : Dict.t) : nat :=
  List.length (filter (fun kv => is_success (snd kv)) results).

Definition total_count (results : Dict.t) : nat :=
  List.length (filter (fun kv => has_success (snd kv)) results).

(** ** Vocabulary of the properties *)

Definition scope_error : value :=
  VDict [("error",
          VStr "Error: Either project_name or trace_id must be provided.")].

Definition absent (v : value) : Prop := v = VNone \/ v = VStr "null".

Definition stats_call (project_names trace : value) : call :=
  Call "get_run_stats" [] [("project_names", project_names); ("trace", trace)].

Definition trace_argument (trace_id : value) : value :=
  if truthy (null_to_none trace_id) then null_to_none trace_id else VNone.

Definition widgets_stats (d : Dict.t) : Dict.t :=
  Dict.set "project_name" (VStr "widgets") (Dict.pop "run_facets" d).

(** Every normal end of a computation satisfies [P]. *)
Definition post {A : Type} (P : A -> Prop) (m : M A) : Prop :=
  forall log log' x, m log = (log', inr x) -> P x.

(** The computation ends normally from every log. *)
Definition no_raise {A : Type} (m : M A) : Prop :=
  forall log, exists log' x, m log = (log', inr x).

Definition returns_mapping (m : M value) : Prop :=
  exists log d, m [] = (log, inr (VDict d)).

Definition mapping_outcome (o : outcome) : Prop :=
  exists d, payload o = VDict d.

(** The returned mapping has an "error" key only when the tool failed. *)
Definition error_key_means_failure (o : outcome) : Prop :=
  dict_has (payload o) "error" = true -> exists msg, o = Failure msg.

Definition error_key_only_on_failure (m : M outcome) : Prop :=
  post error_key_means_failure m.

(** A normal return carries an "error" entry of its own. *)
Definition success_has_error_entry (o : outcome) : Prop :=
  forall v, o = Success v -> dict_has v "error" = true.

(** A normal return of the statistics is the mapping of the client, less
    [run_facets] and with [project_name]. *)
Definition success_from_client (c : client) (o : outcome) : Prop :=
  forall v, o = Success v ->
    exists q d name,
      c q = inr (VDict d)
      /\ v = VDict (Dict.set "project_name" name (Dict.pop "run_facets" d)).

(** The creation and modification times of [obj] are absent, [None] or
    datetimes. *)
Definition timestamps_ok (obj : value) : Prop :=
  forall attr, is_timestamp_attr attr = true ->
    getattr_default obj attr = VNone
    \/ exists d, getattr_default obj attr = VDatetime d.

(** The entry of [attr] in the mapping made for [obj]. *)
Definition projected (obj : value) (attr : string) : value :=
  match getattr_default obj attr with
  | VDatetime d =>
      if is_timestamp_attr attr then VStr (isoformat d) else VDatetime d
  | v => v
  end.

(** [d] has, for every attribute of [attrs], the entry projected from
    [obj]: [None] where [obj] lacks the attribute. *)
Definition projects (attrs : list string) (obj : value) (d : Dict.t) : Prop :=
  forall attr, In attr attrs ->
    Dict.get attr d = Some (projected obj attr)
    /\ (hasattr obj attr = false -> Dict.get attr d = Some VNone).

(** A normal return is the sequence under [key] with its length. *)
Definition counted (key : string) (o : outcome) : Prop :=
  forall v, o = Success v ->
    exists items,
      v = VDict [(key, VList items);
                 ("total_count", VInt (Z.of_nat (List.length items)))].

(** The text of a sort key that is text. *)
Definition key_text (v : value) : string :=
  match v with VStr s => s | _ => "" end.

Definition text_key {A : Type} (kx : value * A) : Prop :=
  exists s, fst kx = VStr s.

Definition none_key {A : Type} (kx : value * A) : Prop := fst kx = VNone.

Definition key_le {A : Type} (a b : value * A) : Prop :=
  String.leb (key_text (fst a)) (key_text (fst b)) = true.

(** The start time of a child mapping, as text. *)
Definition start_text (x : Dict.t) : string :=
  match Dict.get "start_time" x with Some (VStr s) => s | _ => "" end.

Definition by_start_time (a b : Dict.t) : Prop :=
  String.leb (start_text a) (start_text b) = true.

Definition has_start_text (x : Dict.t) : Prop :=
  exists s, Dict.get "start_time" x = Some (VStr s).

Definition lacks_start_time (x : Dict.t) : Prop :=
  Dict.get "start_time" x = Some VNone.

Definition keyed_by_start (x : Dict.t) : value * Dict.t :=
  (match Dict.get "start_time" x with Some v => v | None => VStr "" end, x).

(** The run identifier passes the guard of [fetch_run_tool]. *)
Definition given (run_id : value) : Prop :=
  eq_str run_id "null" = false /\ truthy run_id = true.

(** The client hands out [run] for [run_id] and [info] is the mapping of
    its fields. *)
Definition main_run (c : client) (run_id run : value) (info : Dict.t) : Prop :=
  given run_id
  /\ c (read_call run_id) = inr run
  /\ truthy run = true
  /\ run_info_of run = inr info.

Definition child_runs_note (e : exn) : value :=
  VStr ("Could not fetch child runs: " ++ exn_str e).

(** What C5 says of a failing listing of the child runs, with its last
    clause: no "error" key in the result. *)
Definition listing_failure_claim (c : client) (run_id : value) : Prop :=
  forall run info e,
    main_run c run_id run info ->
    c (children_call run) = inl e ->
    exists log d,
      fetch_run_tool c run_id [] = (log, inr (VDict d))
      /\ (forall k, Dict.has k info = true -> Dict.get k d = Dict.get k info)
      /\ Dict.get "child_runs" d = Some (VList [])
      /\ Dict.get "child_run_count" d = Some (VInt 0)
      /\ Dict.has "child_runs_error" d = true
      /\ Dict.has "error" d = false.

(** [c] is a run with a parent whose text is the requested identifier. *)
Definition parent_is (run_id c : value) : Prop :=
  exists cls text attrs parent,
    c = VObj cls text attrs
    /\ Dict.get "parent_run_id" attrs = Some parent
    /\ truthy parent = true
    /\ run_id = VStr (py_str parent).

(** The child mappings are the mappings of the listed runs, in order. *)
Definition infos_of (runs : list value) (infos : list Dict.t) : Prop :=
  Forall2 (fun c x => child_info c = inr x) runs infos.

(** [latest] is the first run once the runs are sorted by start time, the
    most recent first. *)
Definition latest_of (runs : list value) (latest : value) : Prop :=
  exists rest,
    py_sorted (fun run => getattr run "start_time") true runs
    = inr (latest :: rest).

Definition message (role content : string) : value :=
  VDict [("role", VStr role); ("content", VStr content)].

(** The inputs of the run bring no message. *)
Definition no_input_messages (run : value) : Prop :=
  hasattr run "inputs" = false
  \/ exists inputs, getattr run "inputs" = inr inputs
                    /\ contains inputs "messages" = inr false.

(** The [choices] of the outputs bring no message: they are no list, an
    empty list, or a list whose first choice has no "message". *)
Definition no_choice_message (choices : value) : Prop :=
  match choices with
  | VList (first :: _) => contains first "message" = inr false
  | _ => True
  end.

Definition no_messages_error (thread_id : value) : value :=
  VDict [("error",
          VStr ("No messages found in the run for thread "
                ++ py_str thread_id))].

(** ** Sample clients *)

(** An interpreter that renders containers as an ellipsis and orders no
    object. *)
Definition plain_str (v : value) : string := "...".

Definition unordered (a b : value) : result bool := inl (not_ordered a b).

Definition uuid (text : string) : value := VObj "UUID" text [].

Definition at_hour (h : nat) : value := VDatetime (Datetime 2024 5 17 h 30 0 0).

(** A run of the trace "T". *)
Definition sample_run (id name : string) (parent : value)
    (start_time : list (string * value)) : value :=
  VObj "Run" name
    ([("id", uuid id); ("name", VStr name); ("run_type", VStr "chain");
      ("inputs", VDict [("question", VStr "why")]); ("outputs", VNone);
      ("error", VNone); ("trace_id", uuid "T"); ("parent_run_id", parent)]
     ++ start_time).

Definition root_run : value :=
  sample_run "R" "agent" VNone [("start_time", at_hour 9)].

Definition answers (read_run list_runs : result value) : client :=
  fun q =>
    match q with
    | Call method _ _ =>
        if String.eqb method "read_run" then read_run
        else if String.eqb method "list_runs" then list_runs
        else inl (Raised "no such method")
    end.

(** The listing of the child runs times out. *)
Definition failing_listing : client :=
  answers (inr root_run) (inl (Raised "timed out")).

(** Three runs under the trace: two children of "R", the later one listed
    first, and a child of "X". *)
Definition three_runs : client :=
  answers (inr root_run)
    (inr (VList
      [sample_run "B" "search" (uuid "R") [("start_time", at_hour 11)];
       sample_run "A" "plan" (uuid "R") [("start_time", at_hour 10)];
       sample_run "C" "other" (uuid "X") [("start_time", at_hour 10)]])).

(** Two children of "R", the first without a start time. *)
Definition missing_start_time : client :=
  answers (inr root_run)
    (inr (VList
      [sample_run "A" "plan" (uuid "R") [];
       sample_run "B" "search" (uuid "R") [("start_time", at_hour 11)]])).

(** A root run with every field [fetch_trace_tool] reads. *)
Definition trace_run : value :=
  VObj "Run" "agent"
    [("id", uuid "T"); ("run_type", VStr "chain"); ("error", VNone);
     ("inputs", VDict [("question", VStr "why")]);
     ("outputs", VDict [("answer", VStr "because")]);
     ("total_tokens", VInt 42); ("total_cost", VNone);
     ("feedback_stats", VNone); ("app_path", VStr "/o/1/projects/p/2")].

Definition one_trace : client := answers (inr root_run) (inr (VList [trace_run])).

Definition llm_run (start_time inputs outputs : value) : value :=
  VObj "Run" "ChatOpenAI"
    [("start_time", start_time); ("inputs", inputs); ("outputs", outputs)].

Definition hello_run : value :=
  llm_run (at_hour 12)
    (VDict [("messages", VList [message "user" "hello"])])
    (VDict [("choices",
             VList [VDict [("message", message "assistant" "hi")]])]).

Definition older_run : value :=
  llm_run (at_hour 8) (VDict [("messages", VList [])]) (VDict []).

Definition chat_thread : client :=
  answers (inr VNone) (inr (VList [older_run; hello_run])).

(** The latest run has an empty "choices" next to a "message". *)
Definition hidden_message_run : value :=
  llm_run (at_hour 12) (VDict [("prompt", VStr "hello")])
    (VDict [("choices", VList []); ("message", message "assistant" "hi")]).

Definition hidden_message_thread : client :=
  answers (inr VNone) (inr (VList [older_run; hidden_message_run])).

Definition sample_stats : Dict.t :=
  [("run_count", VInt 3); ("run_facets", VList [VDict []]);
   ("error_rate", VInt 0)].

Definition stats_client : client := fun _ => inr (VDict sample_stats).

(** A dataset without [modified_at], an example without [metadata]. *)
Definition sample_dataset : value :=
  VObj "Dataset" "qa"
    [("id", uuid "D"); ("name", VStr "qa"); ("created_at", at_hour 7)].

Definition sample_example : value :=
  VObj "Example" "e1"
    [("id", uuid "E"); ("inputs", VDict []); ("dataset_id", uuid "D")].

Definition dataset_client : client :=
  fun q =>
    match q with
    | Call method _ _ =>
        if String.eqb method "list_datasets" then inr (VList [sample_dataset])
        else inr (VList [sample_example])
    end.

(** [r] started before [d]. *)
Definition older_than (d : datetime) (r : value) : Prop :=
  exists e, getattr r "start_time" = inr (VDatetime e) /\ dt_ltb e d = true.

(** [x] may come before [y] in a list sorted with [ltb] on the keys. *)
Definition may_precede {A : Type} (ltb : value -> value -> bool)
    (x y : value * A) : Prop :=
  ltb (fst y) (fst x) = false.

(** [<] on two texts. *)
Definition text_ltb (a b : value) : bool :=
  String.ltb (key_text a) (key_text b).

Definition is_text (v : value) : Prop := exists s, v = VStr s.

Definition is_datetime (v : value) : Prop := exists d, v = VDatetime d.

(** [<] on two datetimes. *)
Definition datetime_ltb (a b : value) : bool :=
  match a, b with
  | VDatetime d, VDatetime e => dt_ltb d e
  | _, _ => false
  end.

(** ** Vocabulary of the further properties *)

Definition error_payload (msg : string) : value := VDict [("error", VStr msg)].

(** One of [project_name] and [trace_id] is given. *)
Definition scoped (project_name trace_id : value) : Prop :=
  truthy (null_to_none project_name) || truthy (null_to_none trace_id) = true.

(** The listing [fetch_trace_tool] asks for. *)
Definition trace_call (project_name trace_id : value) : call :=
  let project_name := null_to_none project_name in
  let trace_id := null_to_none trace_id in
  Call "list_runs" []
    [("project_name", if truthy project_name then project_name else VNone);
     ("id", if truthy trace_id then VList [trace_id] else VNone);
     ("select", strs fetch_trace_select);
     ("is_root", VBool true);
     ("limit", VInt 1)].

(** The attributes [fetch_trace_tool] reads without probing for them. *)
Definition fetch_trace_required : list string :=
  ["id"; "run_type"; "error"; "inputs"; "outputs"; "total_tokens";
   "total_cost"; "feedback_stats"; "app_path"].

(** The attributes [fetch_run_tool] reads without probing for them. *)
Definition fetch_run_required : list string :=
  ["id"; "name"; "run_type"; "inputs"; "outputs"; "error"].

(** The attributes read without probing for each child run. *)
Definition child_required : list string :=
  ["id"; "name"; "run_type"; "error"; "inputs"; "outputs"].

Definition lacks (attrs : list (string * value)) (name : string) : Prop :=
  Dict.get name attrs = None.

(** The project name the statistics are asked for. *)
Definition resolved_name (s : string) : string :=
  match split_on "/" s with
  | [_; name] => name
  | _ => s
  end.

(** The call [get_project_runs_stats_tool] makes for a project name that is
    text. *)
Definition stats_call_for (s : string) (trace_id : value) : call :=
  stats_call
    (if truthy (VStr s) then VList [VStr (resolved_name s)] else VNone)
    (trace_argument trace_id).

(** A client that raises on every call. *)
Definition unreachable : client := fun _ => inl (Raised "connection refused").

(** The attributes [fetch_run_tool] probes for, each with the key it fills
    and the value the key takes when the attribute is absent. *)
Definition fetch_run_optional : list (string * string * value) :=
  [("status", "status", VNone);
   ("start_time", "start_time", VNone);
   ("end_time", "end_time", VNone);
   ("latency", "latency_ms", VNone);
   ("total_tokens", "total_tokens", VNone);
   ("prompt_tokens", "prompt_tokens", VNone);
   ("completion_tokens", "completion_tokens", VNone);
   ("total_cost", "total_cost", VNone);
   ("prompt_cost", "prompt_cost", VNone);
   ("completion_cost", "completion_cost", VNone);
   ("tags", "tags", VList []);
   ("trace_id", "trace_id", VNone);
   ("parent_run_id", "parent_run_id", VNone)].

Definition no_attribute (cls attr : string) : string :=
  "'" ++ cls ++ "' object has no attribute '" ++ attr ++ "'".

(** The key is the text [t]. *)
Definition text_is (t : string) (v : value) : bool := String.eqb (key_text v) t.

(** The child mapping started at the text [t]. *)
Definition started_at (t : string) (x : Dict.t) : bool :=
  String.eqb (start_text x) t.

(** The messages the inputs of the run bring. *)
Definition input_messages (run : value) (messages : list value) : Prop :=
  (no_input_messages run /\ messages = [])
  \/ exists inputs,
       getattr run "inputs" = inr (VDict inputs)
       /\ Dict.get "messages" inputs = Some (VList messages).

(** The message the outputs of the run bring: that of the first choice, or
    their own when they have no "choices" key. *)
Definition output_message (run message : value) : Prop :=
  exists outputs,
    getattr run "outputs" = inr (VDict outputs)
    /\ ((exists first rest,
           Dict.get "choices" outputs = Some (VList (VDict first :: rest))
           /\ Dict.get "message" first = Some message)
        \/ (Dict.has "choices" outputs = false
            /\ Dict.get "message" outputs = Some message)).

(** The number of "/" in a text. *)
Fixpoint slashes (s : string) : nat :=
  match s with
  | EmptyString => 0
  | String c rest => (if Ascii.eqb c "/" then 1 else 0) + slashes rest
  end.

(** The text after the first "/". *)
Fixpoint after_slash (s : string) : string :=
  match s with
  | EmptyString => ""
  | String c rest => if Ascii.eqb c "/" then rest else after_slash rest
  end.

(** A project name with exactly one "/" stands for the text after it. *)
Definition unqualified (s : string) : string :=
  if Nat.eqb (slashes s) 1 then after_slash s else s.

(** [v[key]] when [v] is a mapping. *)
Definition entry (v : value) (key : string) : option value :=
  match v with VDict d => Dict.get key d | _ => None end.

(** A normal return of the statistics passes on every entry of the client
    but [run_facets] and [project_name]. *)
Definition passes_statistics_on (c : client) (o : outcome) : Prop :=
  forall v, o = Success v ->
    exists q d,
      c q = inr (VDict d)
      /\ entry v "run_facets" = None
      /\ (exists name, entry v "project_name" = Some name)
      /\ forall k, k <> "run_facets" -> k <> "project_name" ->
                   entry v k = Dict.get k d.

(** What the keyword arguments hold for a parameter: nothing when it is
    [None]. *)
Definition passed (v : value) : option value :=
  if is_none v then None else Some v.

(** A normal return lists mappings that have exactly the keys [attrs], in
    that order. *)
Definition lists_records (key : string) (attrs : list string) (o : outcome)
  : Prop :=
  forall v, o = Success v ->
    exists ds,
      v = VDict [(key, VList (map VDict ds)); ("total_count", count ds)]
      /\ Forall (fun d => Dict.keys d = attrs) ds.

(** A creation or modification time that is neither [None] nor a datetime
    nor an object. *)
Definition bad_timestamp (obj : value) : Prop :=
  exists attr,
    (attr = "created_at" \/ attr = "modified_at")
    /\ match getattr_default obj attr with
       | VNone | VDatetime _ | VObj _ _ _ => False
       | _ => True
       end.

Definition method_of (q : call) : string :=
  match q with Call method _ _ => method end.

(** The methods of the client the tools call: all of them read. *)
Definition reading_methods : list string :=
  ["list_runs"; "read_run"; "get_run_stats"; "list_datasets"; "list_examples"].

(** From every log, the computation adds at most [n] calls, all of them
    calls of reading methods, whether it ends normally or raises. *)
Definition reads_at_most {A : Type} (n : nat) (m : M A) : Prop :=
  forall log log' r,
    m log = (log', r) ->
    exists added,
      log' = log ++ added
      /\ List.length added <= n
      /\ Forall (fun q => In (method_of q) reading_methods) added.

(** [run] is the run [fetch_trace_tool] reports: the first of the runs the
    client lists for the request. *)
Definition first_listed (c : client) (project_name trace_id run : value)
  : Prop :=
  exists listed rest,
    c (trace_call project_name trace_id) = inr listed
    /\ iterate listed = inr (run :: rest).

(** The entry of [v] under "error" is the error field of [run]. *)
Definition carries_error_of (run v : value) : Prop :=
  exists error,
    getattr run "error" = inr error /\ entry v "error" = Some error.

(** A normal return of [fetch_trace_tool] holds, under "error", the error
    field of the run it reports. *)
Definition trace_error_is_of_the_run (c : client)
    (project_name trace_id : value) (o : outcome) : Prop :=
  forall v, o = Success v ->
    exists run,
      first_listed c project_name trace_id run /\ carries_error_of run v.

(** A normal return of [fetch_run_tool] holds, under "error", the error
    field of the run the client read for [run_id]. *)
Definition run_error_is_of_the_run (c : client) (run_id : value)
    (o : outcome) : Prop :=
  forall v, o = Success v ->
    exists run,
      c (Call "read_run" [run_id] []) = inr run /\ carries_error_of run v.

Definition trace_keys : list string :=
  ["trace_id"; "run_type"; "id"; "error"; "inputs"; "outputs"; "total_tokens";
   "total_cost"; "feedback_stats"; "app_path"; "thread_id"].

Definition child_keys : list string :=
  ["id"; "name"; "run_type"; "status"; "start_time"; "end_time";
   "latency_ms"; "error"; "inputs"; "outputs"; "total_tokens"; "total_cost"].

(** A normal return of [fetch_trace_tool]: the eleven keys; under both
    "trace_id" and "id" the identifier of the first listed run, as the text
    [str] gives for it; under "total_cost" the cost of that run as text,
    which is "None" for a run whose cost is [None]. *)
Definition trace_record (c : client) (project_name trace_id : value)
    (o : outcome) : Prop :=
  forall v, o = Success v ->
    exists d run id cost,
      first_listed c project_name trace_id run
      /\ getattr run "id" = inr id
      /\ getattr run "total_cost" = inr cost
      /\ v = VDict d
      /\ Dict.keys d = trace_keys
      /\ Dict.get "trace_id" d = Some (VStr (py_str id))
      /\ Dict.get "id" d = Some (VStr (py_str id))
      /\ Dict.get "total_cost" d = Some (VStr (py_str cost))
      /\ (cost = VNone -> Dict.get "total_cost" d = Some (VStr "None")).

(** A normal return of [fetch_run_tool]: the child runs as mappings with
    the twelve keys, and their number. *)
Definition run_record (o : outcome) : Prop :=
  forall v, o = Success v ->
    exists children,
      entry v "child_runs" = Some (VList (map VDict children))
      /\ entry v "child_run_count" = Some (count children)
      /\ Forall (fun x => Dict.keys x = child_keys) children.

(** [r] started at [d] or before. *)
Definition not_newer_than (d : datetime) (r : value) : Prop :=
  exists e, getattr r "start_time" = inr (VDatetime e) /\ dt_ltb d e = false.

(** The key is the datetime [d]. *)
Definition datetime_is (d : datetime) (v : value) : bool :=
  match v with
  | VDatetime e =>
      if list_eq_dec Nat.eq_dec (dt_fields e) (dt_fields d) then true else false
  | _ => false
  end.

(** ** Further sample clients *)

(** No run to read, no run listed. *)
Definition nothing_found : client := answers (inr VNone) (inr (VList [])).

(** A run that has an identifier and a type only. *)
Definition bare_attrs : list (string * value) :=
  [("id", uuid "T"); ("run_type", VStr "chain")].

Definition bare_client : client :=
  answers (inr (VObj "Run" "bare" bare_attrs))
          (inr (VList [VObj "Run" "bare" bare_attrs])).

(** The six attributes [fetch_run_tool] reads without a probe. *)
Definition minimal_attrs : list (string * value) :=
  [("id", uuid "R"); ("name", VStr "agent"); ("run_type", VStr "chain");
   ("inputs", VNone); ("outputs", VNone); ("error", VNone)].



(** Three children of "R": two that started at the same time, listed
    first, and an earlier one. *)
Definition simultaneous : list value :=
  [sample_run "B" "search" (uuid "R") [("start_time", at_hour 10)];
   sample_run "A" "plan" (uuid "R") [("start_time", at_hour 10)];
   sample_run "D" "load" (uuid "R") [("start_time", at_hour 9)]].

Definition simultaneous_children : client :=
  answers (inr root_run) (inr (VList simultaneous)).

(** A run whose outputs have a "message" and no "choices". *)
Definition direct_run : value :=
  llm_run (at_hour 12)
    (VDict [("messages", VList [message "system" "be brief";
                                message "user" "hello"])])
    (VDict [("message", message "assistant" "hi")]).

Definition direct_thread : client :=
  answers (inr VNone) (inr (VList [older_run; direct_run])).

(** A single listed run without a start time. *)
Definition timeless_run : value :=
  VObj "Run" "ChatOpenAI" [("inputs", VDict []); ("outputs", VDict [])].

Definition timeless_thread : client :=
  answers (inr VNone) (inr (VList [timeless_run])).

(** Two runs that started at noon, after an older one. *)
Definition noon_first : value :=
  llm_run (at_hour 12) (VDict []) (VDict [("message", VStr "first")]).

Definition noon_second : value :=
  llm_run (at_hour 12) (VDict []) (VDict [("message", VStr "second")]).

(** A dataset whose creation time is text. *)
Definition text_dated : value :=
  VObj "Dataset" "old" [("id", uuid "O"); ("created_at", VStr "2024-05-17")].

Definition text_dated_client : client :=
  fun _ => inr (VList [sample_dataset; text_dated]).

(** The service answers the request with the status 200 and the decoded
    body [body]. *)
Definition answered (c : client) (request : call) (resp body : value) : Prop :=
  c request = inr resp
  /\ getattr resp "status_code" = inr (VInt 200)
  /\ c (Call "json" [resp] []) = inr body.

(** The request [list_rules] sends for the parameters [sent]: a GET on the
    rules endpoint of the service, the API key in its header, a timeout of
    30 seconds. *)
Definition rules_get (api_key sent : value) : call :=
  Call "requests.get"
    [VStr "https://api.smith.langchain.com/api/v1/runs/rules"]
    [("headers", VDict [("X-API-Key", api_key)]);
     ("params", sent);
     ("timeout", VInt 30)].

(** [sent] is what [params or {}] gives: [params] itself, or an empty
    mapping when [params] is [None] or empty. *)
Definition params_or_empty (params sent : value) : Prop :=
  (truthy params = true /\ sent = params)
  \/ (truthy params = false /\ sent = VDict []).

Definition printed (line : string) : call := Call "print" [VStr line] [].

Definition by_id (rule_id : value) : value := VDict [("id", VList [rule_id])].

Definition by_name : value := VDict [("name_contains", VStr "prompt-injection")].

(** The identifier of a rule, [None] when it has none. *)
Definition rule_id_of (d : Dict.t) : value :=
  match Dict.get "id" d with Some id => id | None => VNone end.

(** The line the script prints for a rule. *)
Definition rule_line (d : Dict.t) : call :=
  printed (py_str (rule_id_of d) ++ " :: "
           ++ py_str (match Dict.get "display_name" d with
                      | Some name => name
                      | None => VNone
                      end))%string.

(** What follows the look-up of the selected rule in the script. *)
Definition then_announce (looked_up : list call * result value)
  : list call * result unit :=
  match looked_up with
  | (log, inr _) =>
      (log ++ [printed (newline ++ "=== Creating prompt-injection-2 ===")],
       inr tt)
  | (log, inl e) => (log, inl e)
  end.

Definition plain_dumps : dumper := fun _ => inr "{}".

(** A service with two rules. *)
Definition ok_response : value :=
  VObj "Response" "<Response [200]>"
    [("status_code", VInt 200); ("text", VStr "[]")].

Definition forbidden_response : value :=
  VObj "Response" "<Response [403]>"
    [("status_code", VInt 403); ("text", VStr "Forbidden")].

Definition rule_one : Dict.t :=
  [("id", VStr "r-1"); ("display_name", VStr "prompt-injection")].

Definition rule_two : Dict.t := [("id", VStr "r-2")].

Definition two_rules : client :=
  fun q =>
    match q with
    | Call method _ _ =>
        if String.eqb method "requests.get" then inr ok_response
        else inr (VList [VDict rule_one; VDict rule_two])
    end.

Definition no_rules : client :=
  fun q =>
    match q with
    | Call method _ _ =>
        if String.eqb method "requests.get" then inr ok_response
        else inr (VList [])
    end.

Definition forbidden : client := fun _ => inr forbidden_response.

(** A method of that name was called. *)
Definition called (method : string) (log : list call) : bool :=
  existsb (fun q => String.eqb (method_of q) method) log.

(** Every entry that reports a "success" reports a true one. *)
Definition only_successes (results : Dict.t) : Prop :=
  Forall (fun kv => has_success (snd kv) = true -> is_success (snd kv) = true)
         results.

(** The entries of the results of [test_datasets_operations] and the
    methods it calls, when every step succeeds. *)
Definition dataset_test_steps : list string :=
  ["list_existing"; "create"; "read"; "exists"; "versions"; "splits";
   "update_tag"; "delete"].

Definition dataset_test_methods : list string :=
  ["list_datasets"; "create_dataset"; "read_dataset"; "has_dataset";
   "list_dataset_versions"; "list_dataset_splits"; "update_dataset_tag";
   "delete_dataset"].

(** The methods called, in order, the prints left out. *)
Definition methods_called (log : list call) : list string :=
  map method_of
      (filter (fun q => negb (String.eqb (method_of q) "print")) log).

(** A service on which every step of the dataset test succeeds. *)
Definition stored_dataset : value :=
  VObj "Dataset" "test-dataset-0123abcd"
    [("id", uuid "D"); ("name", VStr "test-dataset-0123abcd");
     ("description", VStr "Test dataset created by API testing script");
     ("data_type", VStr "kv"); ("created_at", at_hour 7)].

Definition dataset_service : client :=
  fun q =>
    match q with
    | Call method _ _ =>
        if String.eqb method "create_dataset" then inr stored_dataset
        else if String.eqb method "read_dataset" then inr stored_dataset
        else if String.eqb method "has_dataset" then inr (VBool true)
        else if String.eqb method "update_dataset_tag" then inr VNone
        else if String.eqb method "delete_dataset" then inr VNone
        else inr (VList [])
    end.

(** The same service, on which reading the dataset fails. *)
Definition unreadable_service : client :=
  fun q =>
    match q with
    | Call method _ _ =>
        if String.eqb method "read_dataset" then inl (Raised "not found")
        else dataset_service q
    end.

(** * Properties *)

(** ** Dictionaries *)

Lemma get_set_same (k : string) (v : value) (d : Dict.t) :
  Dict.get k (Dict.set k v d) = Some v.
Proof.
  induction d as [|[k' v'] d IH]; simpl.
  - now rewrite String.eqb_refl.
  - destruct (String.eqb k k') eqn:E; simpl.
    + now rewrite String.eqb_refl.
    + now rewrite E.
Qed.

Lemma get_set_other (k k' : string) (v : value) (d : Dict.t) :
  k <> k' -> Dict.get k (Dict.set k' v d) = Dict.get k d.
Proof.
  intros Hne. induction d as [|[k2 v2] d IH]; simpl.
  - apply String.eqb_neq in Hne. now rewrite Hne.
  - destruct (String.eqb k' k2) eqn:E; simpl.
    + apply String.eqb_eq in E. subst k2.
      apply String.eqb_neq in Hne. now rewrite Hne.
    + now rewrite IH.
Qed.

Lemma get_pop_same (k : string) (d : Dict.t) :
  Dict.get k (Dict.pop k d) = None.
Proof.
  induction d as [|[k' v'] d IH]; simpl; auto.
  destruct (String.eqb k k') eqn:E; simpl; auto. now rewrite E.
Qed.

Lemma get_pop_other (k k' : string) (d : Dict.t) :
  k <> k' -> Dict.get k (Dict.pop k' d) = Dict.get k d.
Proof.
  intros Hne. induction d as [|[k2 v2] d IH]; simpl; auto.
  destruct (String.eqb k' k2) eqn:E; simpl.
  - apply String.eqb_eq in E. subst k2.
    apply String.eqb_neq in Hne. now rewrite Hne.
  - now rewrite IH.
Qed.

(** ** The guard on [project_name] and [trace_id] *)

Lemma absent_falsy (v : value) : absent v -> truthy (null_to_none v) = false.
Proof. now intros [-> | ->]. Qed.

(** C2: when [project_name] and [trace_id] are both [None] or the text
    ["null"], [fetch_trace_tool] and [get_project_runs_stats_tool] return
    exactly the mapping holding the error "Either project_name or trace_id
    must be provided", and the client has received no call. *)
Theorem scope_guard_without_call (c : client) (project_name trace_id : value) :
  absent project_name -> absent trace_id ->
  fetch_trace_tool c project_name trace_id [] = ([], inr scope_error)
  /\ get_project_runs_stats_tool c project_name trace_id []
     = ([], inr scope_error).
Proof.
  intros Hp Ht.
  unfold fetch_trace_tool, fetch_trace, get_project_runs_stats_tool,
    get_project_runs_stats.
  rewrite (absent_falsy _ Hp), (absent_falsy _ Ht). simpl.
  split; reflexivity.
Qed.

(** ** Statistics of a project *)

(** C3: with only [trace_id] supplied, [get_project_runs_stats_tool] does
    not reach the client: splitting the absent project name raises, and the
    function returns an error payload whatever the client would answer. *)
Theorem stats_by_trace_alone_is_error (c : client)
    (project_name trace_id : value) :
  absent project_name -> truthy (null_to_none trace_id) = true ->
  get_project_runs_stats_tool c project_name trace_id []
  = ([], inr (VDict [("error",
       VStr ("Error getting project runs stats: "
             ++ "'NoneType' object has no attribute 'split'"))])).
Proof.
  intros Hp Ht.
  unfold get_project_runs_stats_tool, get_project_runs_stats.
  rewrite (absent_falsy _ Hp), Ht.
  destruct Hp as [-> | ->]; reflexivity.
Qed.

(** C7: for the project names "acme/widgets" and "widgets" alike the
    statistics are asked for the project "widgets", and when the client
    answers with a mapping the result is that mapping without [run_facets]
    and with [project_name] set to "widgets". *)
Theorem qualified_project_name (c : client) (trace_id : value) (d : Dict.t) :
  c (stats_call (VList [VStr "widgets"]) (trace_argument trace_id))
    = inr (VDict d) ->
  (forall project_name,
      project_name = "acme/widgets" \/ project_name = "widgets" ->
      get_project_runs_stats_tool c (VStr project_name) trace_id []
      = ([stats_call (VList [VStr "widgets"]) (trace_argument trace_id)],
         inr (VDict (widgets_stats d))))
  /\ Dict.get "project_name" (widgets_stats d) = Some (VStr "widgets")
  /\ Dict.has "run_facets" (widgets_stats d) = false.
Proof.
  intros Hc. split; [|split].
  - intros project_name [-> | ->];
      unfold get_project_runs_stats_tool, get_project_runs_stats;
      cbn -[Dict.set Dict.pop];
      unfold bind, try_except, lift, invoke, ret;
      cbn -[Dict.set Dict.pop];
      unfold stats_call, trace_argument in Hc; rewrite Hc;
      reflexivity.
  - apply get_set_same.
  - unfold Dict.has, widgets_stats.
    rewrite get_set_other by discriminate.
    now rewrite get_pop_same.
Qed.

(** ** Reasoning on computations *)

Lemma post_ret {A : Type} (P : A -> Prop) (x : A) : P x -> post P (ret x).
Proof. intros H log log' y E. inversion E. now subst. Qed.

Lemma post_raise {A : Type} (P : A -> Prop) (e : exn) : post P (raise e).
Proof. intros log log' y E. inversion E. Qed.

Lemma post_bind {A B : Type} (P : B -> Prop) (m : M A) (k : A -> M B) :
  (forall x, post P (k x)) -> post P (bind m k).
Proof.
  intros H log log' y. unfold bind.
  destruct (m log) as [l [e|x]]; intros E.
  - inversion E.
  - exact (H x _ _ _ E).
Qed.

Lemma post_bind_lift {A B : Type} (P : B -> Prop) (r : result A)
    (k : A -> M B) :
  (forall x, r = inr x -> post P (k x)) -> post P (bind (lift r) k).
Proof.
  intros H log log' y. unfold bind, lift.
  destruct r as [e|x]; intros E.
  - inversion E.
  - exact (H x eq_refl _ _ _ E).
Qed.

Lemma post_bind_invoke {B : Type} (P : B -> Prop) (c : client) (q : call)
    (k : value -> M B) :
  (forall x, c q = inr x -> post P (k x)) -> post P (bind (invoke c q) k).
Proof.
  intros H log log' y. unfold bind, invoke.
  destruct (c q) as [e|x]; intros E.
  - inversion E.
  - exact (H x eq_refl _ _ _ E).
Qed.

Lemma post_try {A : Type} (P : A -> Prop) (body : M A) (h : exn -> M A) :
  post P body -> (forall e, post P (h e)) -> post P (try_except body h).
Proof.
  intros Hb Hh log log' y. unfold try_except.
  destruct (body log) as [l [e|x]] eqn:Eb; intros E.
  - exact (Hh e _ _ _ E).
  - inversion E. subst. exact (Hb _ _ _ Eb).
Qed.

Lemma post_and {A : Type} (P Q : A -> Prop) (m : M A) :
  post P m -> post Q m -> post (fun x => P x /\ Q x) m.
Proof. intros HP HQ log log' x E. split; eauto. Qed.

Lemma no_raise_ret {A : Type} (x : A) : no_raise (ret x).
Proof. intros log. now exists log, x. Qed.

Lemma no_raise_try {A : Type} (body : M A) (h : exn -> M A) :
  (forall e, no_raise (h e)) -> no_raise (try_except body h).
Proof.
  intros Hh log. unfold try_except.
  destruct (body log) as [l [e|x]].
  - apply Hh.
  - now exists l, x.
Qed.

(** A tool that ends normally on an outcome that is a mapping returns a
    mapping. *)
Lemma tool_returns_mapping (m : M outcome) :
  no_raise m -> post mapping_outcome m ->
  returns_mapping (o <- m ;; ret (payload o)).
Proof.
  intros Hn Hp. destruct (Hn []) as (log & o & E).
  destruct (Hp _ _ _ E) as [d Hd].
  exists log, d. unfold bind, ret. now rewrite E, Hd.
Qed.

Lemma failure_is_mapping (msg : string) : mapping_outcome (Failure msg).
Proof. now eexists. Qed.

Lemma success_is_mapping (d : Dict.t) : mapping_outcome (Success (VDict d)).
Proof. now eexists. Qed.

Lemma failure_has_error (msg : string) : error_key_means_failure (Failure msg).
Proof. intros _. now exists msg. Qed.

Lemma setitem_mapping (v x y : value) (key : string) :
  setitem v key x = inr y -> exists d, y = VDict d.
Proof. destruct v; simpl; intros E; inversion E. now eexists. Qed.

Create HintDb tools.

#[local] Hint Resolve failure_is_mapping success_is_mapping failure_has_error
  no_raise_ret : tools.

(** One step through the body of a tool. *)
Ltac post_step :=
  lazymatch goal with
  | |- post _ (ret _) => apply post_ret
  | |- post _ (raise _) => apply post_raise
  | |- post _ (try_except _ _) => apply post_try; [|intros ?]
  | |- post _ (bind (lift _) _) => apply post_bind_lift; intros ? ?
  | |- post _ (bind (invoke _ _) _) => apply post_bind_invoke; intros ? ?
  | |- post _ (bind _ _) => apply post_bind; intros ?
  | |- post _ (match ?x with _ => _ end) => destruct x
  | |- post _ (let _ := _ in _) => cbv zeta
  end.

Ltac post_steps := repeat post_step.

(** ** Every tool returns a mapping *)

Lemma fetch_trace_no_raise (c : client) (project_name trace_id : value) :
  no_raise (fetch_trace c project_name trace_id).
Proof.
  unfold fetch_trace.
  destruct (negb (truthy (null_to_none project_name))
            && negb (truthy (null_to_none trace_id)));
    [|apply no_raise_try; intros e]; auto with tools.
Qed.

Lemma fetch_trace_post (c : client) (project_name trace_id : value) :
  post (fun o => mapping_outcome o /\ success_has_error_entry o)
       (fetch_trace c project_name trace_id).
Proof.
  unfold fetch_trace. post_steps;
    (split; [auto with tools | intros ? Hv; inversion Hv; reflexivity]).
Qed.

Lemma get_thread_history_no_raise (c : client) (thread_id project_name : value) :
  no_raise (get_thread_history c thread_id project_name).
Proof. apply no_raise_try; intros e; auto with tools. Qed.

Lemma get_thread_history_post (c : client) (thread_id project_name : value) :
  post (fun o => mapping_outcome o /\ error_key_means_failure o)
       (get_thread_history c thread_id project_name).
Proof.
  unfold get_thread_history. post_steps;
    (split; [auto with tools | first [now auto with tools | discriminate]]).
Qed.

Lemma fetch_run_no_raise (c : client) (run_id : value) :
  no_raise (fetch_run c run_id).
Proof.
  unfold fetch_run.
  destruct (eq_str run_id "null" || negb (truthy run_id));
    [|apply no_raise_try; intros e]; auto with tools.
Qed.

Lemma run_info_has_error (run : value) (d : Dict.t) :
  run_info_of run = inr d ->
  exists error, getattr run "error" = inr error
                /\ Dict.get "error" d = Some error.
Proof.
  unfold run_info_of, rbind.
  destruct (getattr run "id"); [discriminate|].
  destruct (getattr run "name"); [discriminate|].
  destruct (getattr run "run_type"); [discriminate|].
  destruct (getattr run "inputs"); [discriminate|].
  destruct (getattr run "outputs"); [discriminate|].
  destruct (getattr run "error") as [|error]; [discriminate|].
  intros E. inversion E. now exists error.
Qed.

Lemma fetch_run_post (c : client) (run_id : value) :
  post (fun o => mapping_outcome o /\ success_has_error_entry o)
       (fetch_run c run_id).
Proof.
  unfold fetch_run. post_steps;
    (split; [auto with tools | intros ? Hv; inversion Hv]).
  match goal with
  | Hinfo : run_info_of _ = inr _ |- _ =>
      destruct (run_info_has_error _ _ Hinfo) as (error & _ & Hget)
  end.
  unfold dict_has, Dict.has, attach_children.
  repeat rewrite get_set_other by discriminate.
  match goal with
  | |- context [snd ?f] =>
      destruct (snd f); [rewrite get_set_other by discriminate|]
  end; now rewrite Hget.
Qed.

Lemma fetch_trace_error_entry (c : client) (project_name trace_id : value) :
  post (trace_error_is_of_the_run c project_name trace_id)
       (fetch_trace c project_name trace_id).
Proof.
  unfold fetch_trace. post_steps; intros ? Hv; inversion Hv.
  eexists. split.
  - eexists _, _. split; [unfold trace_call; cbv zeta|]; eassumption.
  - eexists. split; [eassumption | reflexivity].
Qed.

Lemma attach_children_error (info : Dict.t)
    (fetched : list Dict.t * option exn) :
  Dict.get "error" (attach_children info fetched) = Dict.get "error" info.
Proof.
  unfold attach_children.
  repeat rewrite get_set_other by discriminate.
  destruct (snd fetched); [rewrite get_set_other by discriminate|];
    reflexivity.
Qed.

Lemma fetch_run_error_entry (c : client) (run_id : value) :
  post (run_error_is_of_the_run c run_id) (fetch_run c run_id).
Proof.
  unfold fetch_run. post_steps; intros ? Hv; inversion Hv.
  match goal with
  | Hinfo : run_info_of _ = inr _ |- _ =>
      destruct (run_info_has_error _ _ Hinfo) as (error & Herror & Hget)
  end.
  eexists. split; [unfold read_call in *; eassumption|].
  exists error. split; [exact Herror|].
  simpl. now rewrite attach_children_error.
Qed.

Lemma get_project_runs_stats_no_raise (c : client)
    (project_name trace_id : value) :
  no_raise (get_project_runs_stats c project_name trace_id).
Proof.
  unfold get_project_runs_stats.
  destruct (negb (truthy (null_to_none project_name))
            && negb (truthy (null_to_none trace_id)));
    [|apply no_raise_try; intros e]; auto with tools.
Qed.

Lemma pop_key_mapping (v y : value) (key : string) :
  pop_key v key = inr y -> exists d, v = VDict d /\ y = VDict (Dict.pop key d).
Proof.
  destruct v; simpl; intros E; inversion E; try now eexists.
  all: unfold no_method in *; simpl in *;
    repeat match goal with
           | H : context [match ?x with _ => _ end] |- _ => destruct x
           end; discriminate.
Qed.

Lemma get_project_runs_stats_post (c : client)
    (project_name trace_id : value) :
  post (fun o => mapping_outcome o /\ success_from_client c o)
       (get_project_runs_stats c project_name trace_id).
Proof.
  unfold get_project_runs_stats. post_steps;
    try (split; [auto with tools | intros ? Hv; discriminate Hv]).
  match goal with
  | Hpop : pop_key _ _ = inr _ |- _ =>
      destruct (pop_key_mapping _ _ _ Hpop) as (d & -> & ->)
  end.
  match goal with
  | Hset : setitem _ _ _ = inr _ |- _ => simpl in Hset; inversion Hset; subst
  end.
  split; [auto with tools|].
  intros ? Hv. inversion Hv. eauto.
Qed.

Lemma list_datasets_no_raise (c : client)
    (dataset_ids data_type dataset_name dataset_name_contains metadata
     limit : value) :
  no_raise (list_datasets c dataset_ids data_type dataset_name
              dataset_name_contains metadata limit).
Proof. apply no_raise_try; intros e; auto with tools. Qed.

Lemma list_datasets_post (c : client)
    (dataset_ids data_type dataset_name dataset_name_contains metadata
     limit : value) :
  post (fun o => mapping_outcome o /\ error_key_means_failure o)
       (list_datasets c dataset_ids data_type dataset_name
          dataset_name_contains metadata limit).
Proof.
  unfold list_datasets. post_steps;
    (split; [auto with tools | first [now auto with tools | discriminate]]).
Qed.

Lemma list_examples_no_raise (c : client)
    (dataset_id dataset_name limit offset : value) :
  no_raise (list_examples c dataset_id dataset_name limit offset).
Proof. apply no_raise_try; intros e; auto with tools. Qed.

Lemma list_examples_post (c : client)
    (dataset_id dataset_name limit offset : value) :
  post (fun o => mapping_outcome o /\ error_key_means_failure o)
       (list_examples c dataset_id dataset_name limit offset).
Proof.
  unfold list_examples. post_steps;
    (split; [auto with tools | first [now auto with tools | discriminate]]).
Qed.

Lemma post_weaken {A : Type} (P Q : A -> Prop) (m : M A) :
  (forall x, P x -> Q x) -> post P m -> post Q m.
Proof. intros I H log log' x E. eauto. Qed.

(** C1, as the code has it: the six tools return a mapping for every input
    and every answer or exception of the client; for [list_datasets_tool],
    [list_examples_tool] and [get_thread_history_tool] that mapping has an
    "error" key only when the tool failed; a normal return of
    [fetch_trace_tool] and [fetch_run_tool] has an "error" entry too, and
    that entry is the error field of the run: of the first run the client
    lists for [fetch_trace_tool], of the run the client reads for
    [fetch_run_tool]; a normal return of
    [get_project_runs_stats_tool] is the mapping of the client less
    [run_facets], with [project_name]. *)
Theorem tools_return_mappings (c : client) :
  (forall a1 a2 a3 a4 a5 a6,
      returns_mapping (list_datasets_tool c a1 a2 a3 a4 a5 a6)
      /\ error_key_only_on_failure (list_datasets c a1 a2 a3 a4 a5 a6))
  /\ (forall a1 a2 a3 a4,
      returns_mapping (list_examples_tool c a1 a2 a3 a4)
      /\ error_key_only_on_failure (list_examples c a1 a2 a3 a4))
  /\ (forall thread_id project_name,
      returns_mapping (get_thread_history_tool c thread_id project_name)
      /\ error_key_only_on_failure
           (get_thread_history c thread_id project_name))
  /\ (forall project_name trace_id,
      returns_mapping (fetch_trace_tool c project_name trace_id)
      /\ post success_has_error_entry (fetch_trace c project_name trace_id)
      /\ post (trace_error_is_of_the_run c project_name trace_id)
           (fetch_trace c project_name trace_id))
  /\ (forall run_id,
      returns_mapping (fetch_run_tool c run_id)
      /\ post success_has_error_entry (fetch_run c run_id)
      /\ post (run_error_is_of_the_run c run_id) (fetch_run c run_id))
  /\ (forall project_name trace_id,
      returns_mapping (get_project_runs_stats_tool c project_name trace_id)
      /\ post (success_from_client c)
           (get_project_runs_stats c project_name trace_id)).
Proof.
  repeat split; intros.
  - apply tool_returns_mapping; [apply list_datasets_no_raise|].
    eapply post_weaken; [|apply list_datasets_post]. now intros ? [? _].
  - eapply post_weaken; [|apply list_datasets_post]. now intros ? [_ ?].
  - apply tool_returns_mapping; [apply list_examples_no_raise|].
    eapply post_weaken; [|apply list_examples_post]. now intros ? [? _].
  - eapply post_weaken; [|apply list_examples_post]. now intros ? [_ ?].
  - apply tool_returns_mapping; [apply get_thread_history_no_raise|].
    eapply post_weaken; [|apply get_thread_history_post]. now intros ? [? _].
  - eapply post_weaken; [|apply get_thread_history_post]. now intros ? [_ ?].
  - apply tool_returns_mapping; [apply fetch_trace_no_raise|].
    eapply post_weaken; [|apply fetch_trace_post]. now intros ? [? _].
  - eapply post_weaken; [|apply fetch_trace_post]. now intros ? [_ ?].
  - apply fetch_trace_error_entry.
  - apply tool_returns_mapping; [apply fetch_run_no_raise|].
    eapply post_weaken; [|apply fetch_run_post]. now intros ? [? _].
  - eapply post_weaken; [|apply fetch_run_post]. now intros ? [_ ?].
  - apply fetch_run_error_entry.
  - apply tool_returns_mapping; [apply get_project_runs_stats_no_raise|].
    eapply post_weaken; [|apply get_project_runs_stats_post].
    now intros ? [? _].
  - eapply post_weaken; [|apply get_project_runs_stats_post].
    now intros ? [_ ?].
Qed.

(** ** datasets.py: projection of the listed objects *)

Lemma hasattr_false_default (obj : value) (attr : string) :
  hasattr obj attr = false -> getattr_default obj attr = VNone.
Proof.
  destruct obj; try reflexivity.
  unfold hasattr, getattr_default, getattr, Dict.has.
  now destruct (Dict.get attr attrs).
Qed.

Lemma format_attr_ok (obj : value) (attr : string) :
  timestamps_ok obj -> format_attr obj attr = inr (projected obj attr).
Proof.
  intros Hok. unfold format_attr, projected.
  destruct (is_timestamp_attr attr) eqn:Et; simpl.
  - destruct (Hok attr Et) as [-> | [d ->]]; reflexivity.
  - now destruct (getattr_default obj attr).
Qed.

Lemma format_attrs_ok (obj : value) (attrs : list string) :
  timestamps_ok obj ->
  forall acc, exists d,
    format_attrs attrs obj acc = inr d
    /\ (forall attr, In attr attrs ->
          Dict.get attr d = Some (projected obj attr))
    /\ (forall attr, ~ In attr attrs -> Dict.get attr d = Dict.get attr acc).
Proof.
  intros Hok. induction attrs as [|a attrs IH]; intros acc.
  - exists acc. repeat split; auto. intros ? [].
  - simpl. rewrite (format_attr_ok _ _ Hok). simpl.
    destruct (IH (Dict.set a (projected obj a) acc)) as (d & E & Hin & Hout).
    exists d. split; [exact E|]. split.
    + intros attr [<- | Hattr].
      * destruct (in_dec string_dec a attrs) as [Hi|Hn]; auto.
        rewrite (Hout _ Hn). apply get_set_same.
      * auto.
    + intros attr Hn.
      rewrite Hout by (intros Hi; apply Hn; now right).
      apply get_set_other. intros ->. apply Hn. now left.
Qed.

Lemma projected_missing (obj : value) (attr : string) :
  hasattr obj attr = false -> projected obj attr = VNone.
Proof.
  intros H. unfold projected. now rewrite (hasattr_false_default _ _ H).
Qed.

Lemma format_all_ok (attrs : list string) (objs : list value) :
  Forall timestamps_ok objs ->
  exists ds, format_all attrs objs = inr ds
             /\ Forall2 (projects attrs) objs ds.
Proof.
  induction 1 as [|obj objs Hok _ IH].
  - exists []. split; [reflexivity | constructor].
  - destruct IH as (ds & E & HF).
    destruct (format_attrs_ok obj attrs Hok []) as (d & Ed & Hin & _).
    exists (d :: ds). simpl. rewrite Ed. simpl. rewrite E. simpl.
    split; [reflexivity|]. constructor; [|exact HF].
    intros attr Hattr. split; [now apply Hin|].
    intros Hmiss. rewrite (Hin _ Hattr). now rewrite projected_missing.
Qed.

Lemma list_datasets_counted (c : client) (a1 a2 a3 a4 a5 a6 : value) :
  post (counted "datasets") (list_datasets c a1 a2 a3 a4 a5 a6).
Proof.
  unfold list_datasets. post_steps; intros ? Hv; inversion Hv.
  eexists. unfold count. now rewrite length_map.
Qed.

Lemma list_examples_counted (c : client) (a1 a2 a3 a4 : value) :
  post (counted "examples") (list_examples c a1 a2 a3 a4).
Proof.
  unfold list_examples. post_steps; intros ? Hv; inversion Hv.
  eexists. unfold count. now rewrite length_map.
Qed.

(** C9: when the client lists objects whose creation and modification
    times are absent, [None] or datetimes, [list_datasets_tool] and
    [list_examples_tool] succeed, every returned mapping has each projected
    attribute, with [None] where the object lacks it, and [total_count] is
    the number of objects; and in every normal return [total_count] is the
    length of the returned sequence. *)
Theorem missing_attributes_are_none (c : client) :
  (forall obj attr,
      hasattr obj attr = false -> format_attr obj attr = inr VNone)
  /\ (forall a1 a2 a3 a4 a5 a6 listed objs,
      c (Call "list_datasets" [] (list_datasets_kwargs a1 a2 a3 a4 a5 a6))
        = inr listed ->
      iterate listed = inr objs ->
      Forall timestamps_ok objs ->
      exists ds,
        list_datasets_tool c a1 a2 a3 a4 a5 a6 []
        = ([Call "list_datasets" [] (list_datasets_kwargs a1 a2 a3 a4 a5 a6)],
           inr (VDict [("datasets", VList (map VDict ds));
                       ("total_count", count objs)]))
        /\ Forall2 (projects dataset_attrs) objs ds)
  /\ (forall a1 a2 a3 a4 listed objs,
      c (Call "list_examples" [] (list_examples_kwargs a1 a2 a3 a4))
        = inr listed ->
      iterate listed = inr objs ->
      Forall timestamps_ok objs ->
      exists ds,
        list_examples_tool c a1 a2 a3 a4 []
        = ([Call "list_examples" [] (list_examples_kwargs a1 a2 a3 a4)],
           inr (VDict [("examples", VList (map VDict ds));
                       ("total_count", count objs)]))
        /\ Forall2 (projects example_attrs) objs ds)
  /\ (forall a1 a2 a3 a4 a5 a6,
      post (counted "datasets") (list_datasets c a1 a2 a3 a4 a5 a6))
  /\ (forall a1 a2 a3 a4,
      post (counted "examples") (list_examples c a1 a2 a3 a4)).
Proof.
  split; [|split; [|split; [|split]]].
  - intros obj attr Hmiss. unfold format_attr.
    rewrite (hasattr_false_default _ _ Hmiss). simpl.
    now rewrite andb_false_r.
  - intros a1 a2 a3 a4 a5 a6 listed objs Hc Hit Hok.
    destruct (format_all_ok dataset_attrs objs Hok) as (ds & E & HF).
    exists ds. split; [|exact HF].
    unfold list_datasets_tool, list_datasets, bind, try_except, invoke, lift,
      ret.
    cbv zeta. rewrite Hc, Hit, E. simpl. unfold count.
    now rewrite (Forall2_length HF).
  - intros a1 a2 a3 a4 listed objs Hc Hit Hok.
    destruct (format_all_ok example_attrs objs Hok) as (ds & E & HF).
    exists ds. split; [|exact HF].
    unfold list_examples_tool, list_examples, bind, try_except, invoke, lift,
      ret.
    cbv zeta. rewrite Hc, Hit, E. simpl. unfold count.
    now rewrite (Forall2_length HF).
  - intros. apply list_datasets_counted.
  - intros. apply list_examples_counted.
Qed.

(** ** Sorting *)

Lemma ltb_leb (s t : string) : String.ltb s t = true -> String.leb s t = true.
Proof.
  unfold String.ltb, String.leb. now destruct (String.compare s t).
Qed.

Lemma ltb_false_leb (s t : string) :
  String.ltb s t = false -> String.leb t s = true.
Proof.
  unfold String.ltb, String.leb. rewrite (String.compare_antisym s t).
  now destruct (String.compare t s).
Qed.

Lemma insert_by_perm {A : Type} (x : value * A) (l r : list (value * A)) :
  insert_by x l = inr r -> Permutation (x :: l) r.
Proof.
  revert r. induction l as [|y l IH]; simpl; intros r E.
  - inversion E. apply Permutation_refl.
  - unfold rbind in E. destruct (py_lt (fst y) (fst x)) as [e|[|]];
      [discriminate| |].
    + destruct (insert_by x l) as [e|r']; [discriminate|].
      inversion E. subst.
      apply perm_trans with (y :: x :: l); [apply perm_swap|].
      apply perm_skip. now apply IH.
    + inversion E. apply Permutation_refl.
Qed.

Lemma sort_keyed_perm {A : Type} (l s : list (value * A)) :
  sort_keyed l = inr s -> Permutation l s.
Proof.
  revert s. induction l as [|x l IH]; simpl; intros s E.
  - inversion E. apply perm_nil.
  - unfold rbind in E. destruct (sort_keyed l) as [e|s']; [discriminate|].
    apply perm_trans with (x :: s'); [apply perm_skip; now apply IH|].
    now apply insert_by_perm.
Qed.

(** ** Sorting on keys of one ordered class *)

Section OrderedKeys.

Variable A : Type.
Variable K : value -> Prop.
Variable ltb : value -> value -> bool.
Hypothesis py_lt_K : forall a b, K a -> K b -> py_lt a b = inr (ltb a b).
Hypothesis ltb_asym : forall a b, K a -> K b -> ltb a b = true -> ltb b a = false.

Abbreviation not_after := (may_precede ltb).

Lemma insert_by_ordered (x : value * A) (l : list (value * A)) :
  K (fst x) -> Forall (fun kx => K (fst kx)) l ->
  exists r, insert_by x l = inr r
            /\ (forall a, not_after a x -> HdRel not_after a l ->
                          HdRel not_after a r)
            /\ (Sorted not_after l -> Sorted not_after r).
Proof.
  intros Hx. induction 1 as [|y l Hy Hl IH]; simpl.
  - exists [x]. repeat split; auto.
  - rewrite (py_lt_K _ _ Hy Hx). simpl.
    destruct (ltb (fst y) (fst x)) eqn:Elt; simpl.
    + destruct IH as (r & -> & Hhd & Hsorted). simpl.
      exists (y :: r). split; [reflexivity|]. split.
      * intros a _ Ha. inversion Ha. now constructor.
      * intros Hs. inversion Hs. subst. constructor; [auto|].
        apply Hhd; [|assumption]. unfold not_after. now apply ltb_asym.
    + exists (x :: y :: l). split; [reflexivity|]. split.
      * intros a Ha _. now constructor.
      * intros Hs. constructor; [assumption|]. now constructor.
Qed.

Lemma sort_keyed_ordered (l : list (value * A)) :
  Forall (fun kx => K (fst kx)) l ->
  exists s, sort_keyed l = inr s /\ Permutation l s /\ Sorted not_after s.
Proof.
  induction 1 as [|x l Hx Hl IH]; simpl.
  - exists []. repeat split; constructor.
  - destruct IH as (s & Es & Hperm & Hsorted). rewrite Es. simpl.
    assert (Hs : Forall (fun kx => K (fst kx)) s)
      by (eapply Permutation_Forall; eauto).
    destruct (insert_by_ordered x s Hx Hs) as (r & Er & _ & Hr).
    exists r. split; [exact Er|]. split; [|auto].
    apply perm_trans with (x :: s); [now apply perm_skip|].
    now apply insert_by_perm.
Qed.

Hypothesis ltb_irrefl : forall a, K a -> ltb a a = false.
Hypothesis not_after_trans :
  forall a b c, K a -> K b -> K c ->
    ltb b a = false -> ltb c b = false -> ltb c a = false.

(** In a sorted list every item may come before the last one. *)
Lemma sorted_last (s : list (value * A)) (m : value * A) :
  Forall (fun kx => K (fst kx)) (s ++ [m]) ->
  Sorted not_after (s ++ [m]) ->
  Forall (fun x => not_after x m) (s ++ [m]).
Proof.
  induction s as [|x s IH]; simpl; intros HK Hs.
  - constructor; [|constructor]. apply ltb_irrefl. now inversion HK.
  - inversion HK as [|? ? Kx Ks]. inversion Hs as [|? ? Hs' Hhd]. subst.
    specialize (IH Ks Hs'). constructor; [|exact IH].
    destruct s as [|y s]; simpl in *.
    + now inversion Hhd.
    + inversion Hhd. inversion IH. inversion Ks. subst.
      apply (not_after_trans (fst x) (fst y) (fst m)); auto.
      apply (proj1 (Forall_forall _ _) Ks). apply in_cons, in_or_app.
      right. now left.
Qed.

(** Items whose keys [sel] picks out, none of them below another, keep
    their order. *)
Variable sel : value -> bool.
Hypothesis sel_unordered :
  forall a b, ltb a b = true -> sel a = true -> sel b = true -> False.

Lemma insert_by_filter (x : value * A) (l r : list (value * A)) :
  K (fst x) -> Forall (fun kx => K (fst kx)) l ->
  insert_by x l = inr r ->
  filter (fun kx => sel (fst kx)) r
  = if sel (fst x) then x :: filter (fun kx => sel (fst kx)) l
    else filter (fun kx => sel (fst kx)) l.
Proof.
  intros Hx Hl. revert r. induction Hl as [|y l Hy Hl IH]; simpl; intros r E.
  - inversion E. subst. simpl. now destruct (sel (fst x)).
  - rewrite (py_lt_K _ _ Hy Hx) in E. simpl in E.
    destruct (ltb (fst y) (fst x)) eqn:Elt.
    + unfold rbind in E. destruct (insert_by x l) as [|r']; [discriminate|].
      inversion E. subst. simpl. rewrite (IH r' eq_refl).
      destruct (sel (fst x)) eqn:Ex, (sel (fst y)) eqn:Ey; try reflexivity.
      exfalso. exact (sel_unordered _ _ Elt Ey Ex).
    + inversion E. subst. simpl. now destruct (sel (fst x)).
Qed.

Lemma sort_keyed_filter (l s : list (value * A)) :
  Forall (fun kx => K (fst kx)) l ->
  sort_keyed l = inr s ->
  filter (fun kx => sel (fst kx)) s = filter (fun kx => sel (fst kx)) l.
Proof.
  intros Hl. revert s. induction Hl as [|x l Hx Hl IH]; simpl; intros s E.
  - now inversion E.
  - unfold rbind in E. destruct (sort_keyed l) as [|s'] eqn:Es; [discriminate|].
    assert (Hs : Forall (fun kx => K (fst kx)) s').
    { eapply Permutation_Forall; [apply sort_keyed_perm; exact Es|exact Hl]. }
    rewrite (insert_by_filter x s' s Hx Hs E). rewrite (IH s' eq_refl).
    reflexivity.
Qed.

End OrderedKeys.

Lemma Sorted_weaken {A : Type} (R R' : A -> A -> Prop) (l : list A) :
  (forall a b, R a b -> R' a b) -> Sorted R l -> Sorted R' l.
Proof.
  intros HR. induction 1 as [|a l _ IH Hhd]; constructor; [exact IH|].
  destruct Hhd; constructor. now apply HR.
Qed.

Lemma py_lt_text (a b : value) :
  is_text a -> is_text b -> py_lt a b = inr (text_ltb a b).
Proof. now intros [s ->] [t ->]. Qed.

Lemma text_ltb_asym (a b : value) :
  is_text a -> is_text b -> text_ltb a b = true -> text_ltb b a = false.
Proof.
  intros _ _. unfold text_ltb, String.ltb.
  rewrite (String.compare_antisym (key_text a) (key_text b)).
  now destruct (String.compare (key_text b) (key_text a)).
Qed.

Lemma sort_keyed_text {A : Type} (l : list (value * A)) :
  Forall text_key l ->
  exists s, sort_keyed l = inr s /\ Permutation l s /\ Sorted key_le s.
Proof.
  intros Hl.
  destruct (sort_keyed_ordered A is_text text_ltb py_lt_text text_ltb_asym l Hl)
    as (s & Es & Hperm & Hsorted).
  exists s. repeat split; auto.
  eapply Sorted_weaken; [|exact Hsorted].
  intros a b. apply ltb_false_leb.
Qed.

(** With two items or more, a key that is [None] among keys that are text
    or [None] makes the sort raise. *)
Lemma sort_keyed_none {A : Type} (l : list (value * A)) :
  Forall (fun kx => none_key kx \/ text_key kx) l ->
  Exists none_key l -> 2 <= List.length l ->
  exists e, sort_keyed l = inl e.
Proof.
  induction l as [|x l IH]; intros Hall Hex Hlen; [inversion Hex|].
  inversion Hall as [|? ? Hx Hl]. subst. simpl.
  destruct (sort_keyed l) as [e|s] eqn:Es; [now exists e|]. simpl.
  assert (Hperm := sort_keyed_perm _ _ Es).
  assert (Hcmp : forall y : value * A, none_key y \/ text_key y ->
                 (none_key x \/ none_key y) ->
                 exists e, py_lt (fst y) (fst x) = inl e).
  { intros y Hy Hnone. unfold none_key, text_key in *.
    destruct Hx as [Hx | [sx Hx]], Hy as [Hy | [sy Hy]];
      rewrite Hx, Hy; simpl; eauto.
    destruct Hnone as [Hn | Hn]; congruence. }
  destruct s as [|y s].
  { apply Permutation_length in Hperm. simpl in *. lia. }
  assert (Hy : none_key y \/ text_key y).
  { apply (proj1 (Forall_forall _ _) Hl).
    eapply Permutation_in; [apply Permutation_sym; exact Hperm|now left]. }
  simpl.
  assert (Hnone : none_key x \/ none_key y).
  { inversion Hex as [? ? Hnx | ? ? Hnl]; subst; [now left|].
    right. destruct l as [|z l]; [inversion Hnl|].
    destruct l as [|z' l].
    - apply Permutation_length_1_inv in Hperm. inversion Hperm. subst.
      now inversion Hnl as [? ? Hz | ? ? Hz]; [|inversion Hz].
    - exfalso. destruct (IH Hl Hnl) as [e He]; [simpl; lia|].
      discriminate. }
  destruct (Hcmp y Hy Hnone) as [e ->]. now exists e.
Qed.

Lemma Sorted_map {A B : Type} (R : A -> A -> Prop) (R' : B -> B -> Prop)
    (f : A -> B) (l : list A) :
  (forall a b, In a l -> In b l -> R a b -> R' (f a) (f b)) ->
  Sorted R l -> Sorted R' (map f l).
Proof.
  intros Hf Hs. induction Hs as [|a l Hs IH Hhd]; simpl; constructor.
  - apply IH. intros. apply Hf; simpl; auto.
  - destruct Hhd; simpl; constructor. apply Hf; simpl; auto.
Qed.

Lemma with_keys_start (l : list Dict.t) :
  with_keys start_time_key l = inr (map keyed_by_start l).
Proof.
  induction l as [|x l IH]; simpl; [reflexivity|]. now rewrite IH.
Qed.

Lemma key_text_start (x : Dict.t) :
  key_text (fst (keyed_by_start x)) = start_text x.
Proof.
  unfold keyed_by_start, start_text. simpl.
  destruct (Dict.get "start_time" x) as [[]|]; reflexivity.
Qed.

Lemma perm_keyed_by_start (l : list Dict.t) (s : list (value * Dict.t)) :
  Permutation (map keyed_by_start l) s ->
  Forall (fun kx => kx = keyed_by_start (snd kx)) s
  /\ Permutation l (map snd s).
Proof.
  intros Hperm. split.
  - eapply Permutation_Forall; [exact Hperm|].
    apply Forall_forall. intros kx Hin. apply in_map_iff in Hin.
    now destruct Hin as (x & <- & _).
  - apply (Permutation_map snd) in Hperm. rewrite map_map in Hperm.
    simpl in Hperm. now rewrite map_id in Hperm.
Qed.

(** Child mappings that all have a start time as text are sorted by it. *)
Lemma sorted_by_start_time (l : list Dict.t) :
  Forall has_start_text l ->
  exists s, py_sorted start_time_key false l = inr s
            /\ Permutation l s /\ Sorted by_start_time s.
Proof.
  intros Hall. unfold py_sorted. rewrite with_keys_start. simpl.
  assert (Hkeys : Forall text_key (map keyed_by_start l)).
  { apply Forall_forall. intros kx Hin. apply in_map_iff in Hin.
    destruct Hin as (x & <- & Hx).
    destruct (proj1 (Forall_forall _ _) Hall x Hx) as [t Ht].
    exists t. unfold keyed_by_start. simpl. now rewrite Ht. }
  destruct (sort_keyed_text _ Hkeys) as (s & -> & Hperm & Hsorted). simpl.
  destruct (perm_keyed_by_start _ _ Hperm) as [Hs Hp].
  exists (map snd s). split; [reflexivity|]. split; [exact Hp|].
  eapply Sorted_map; [|exact Hsorted].
  intros a b Ha Hb.
  rewrite (proj1 (Forall_forall _ _) Hs a Ha).
  rewrite (proj1 (Forall_forall _ _) Hs b Hb).
  unfold key_le, by_start_time. now rewrite !key_text_start.
Qed.

(** Two child mappings or more, one of them without a start time: the
    sort raises. *)
Lemma sort_without_start_time (l : list Dict.t) :
  Forall (fun x => lacks_start_time x \/ has_start_text x) l ->
  Exists lacks_start_time l -> 2 <= List.length l ->
  exists e, py_sorted start_time_key false l = inl e.
Proof.
  intros Hall Hex Hlen. unfold py_sorted. rewrite with_keys_start. simpl.
  destruct (sort_keyed_none (map keyed_by_start l)) as [e He].
  - apply Forall_forall. intros kx Hin. apply in_map_iff in Hin.
    destruct Hin as (x & <- & Hx).
    destruct (proj1 (Forall_forall _ _) Hall x Hx) as [Hn | [t Ht]].
    + left. unfold none_key, keyed_by_start. simpl. now rewrite Hn.
    + right. exists t. unfold keyed_by_start. simpl. now rewrite Ht.
  - apply Exists_exists in Hex. destruct Hex as (x & Hx & Hn).
    apply Exists_exists. exists (keyed_by_start x). split.
    + now apply in_map.
    + unfold none_key, keyed_by_start. simpl. now rewrite Hn.
  - now rewrite length_map.
  - exists e. now rewrite He.
Qed.

(** ** fetch_run_tool *)

Lemma run_info_fresh (run : value) (info : Dict.t) :
  run_info_of run = inr info ->
  Dict.has "child_runs_error" info = false
  /\ Dict.has "child_runs" info = false
  /\ Dict.has "child_run_count" info = false.
Proof.
  unfold run_info_of, rbind.
  destruct (getattr run "id"); [discriminate|].
  destruct (getattr run "name"); [discriminate|].
  destruct (getattr run "run_type"); [discriminate|].
  destruct (getattr run "inputs"); [discriminate|].
  destruct (getattr run "outputs"); [discriminate|].
  destruct (getattr run "error"); [discriminate|].
  intros E. inversion E. repeat split.
Qed.

Lemma has_false_get (k : string) (d : Dict.t) :
  Dict.has k d = false -> Dict.get k d = None.
Proof. unfold Dict.has. now destruct (Dict.get k d). Qed.

Lemma attach_children_keeps (info : Dict.t)
    (fetched : list Dict.t * option exn) (k : string) :
  Dict.has "child_runs_error" info = false ->
  Dict.has "child_runs" info = false ->
  Dict.has "child_run_count" info = false ->
  Dict.has k info = true ->
  Dict.get k (attach_children info fetched) = Dict.get k info.
Proof.
  intros H1 H2 H3 Hk. unfold attach_children.
  assert (k <> "child_runs_error") by (intros ->; congruence).
  assert (k <> "child_runs") by (intros ->; congruence).
  assert (k <> "child_run_count") by (intros ->; congruence).
  rewrite !get_set_other by assumption.
  destruct (snd fetched); [now rewrite get_set_other|reflexivity].
Qed.

Lemma attach_children_runs (info : Dict.t)
    (fetched : list Dict.t * option exn) :
  Dict.get "child_runs" (attach_children info fetched)
    = Some (VList (map VDict (fst fetched)))
  /\ Dict.get "child_run_count" (attach_children info fetched)
     = Some (count (fst fetched)).
Proof.
  unfold attach_children. split.
  - rewrite get_set_other by discriminate. apply get_set_same.
  - apply get_set_same.
Qed.

Lemma attach_children_note (info : Dict.t) (child_runs : list Dict.t)
    (e : exn) :
  Dict.get "child_runs_error" (attach_children info (child_runs, Some e))
    = Some (child_runs_note e).
Proof.
  unfold attach_children. simpl.
  rewrite !get_set_other by discriminate. apply get_set_same.
Qed.

Lemma attach_children_no_note (info : Dict.t) (child_runs : list Dict.t) :
  Dict.has "child_runs_error" info = false ->
  Dict.has "child_runs_error" (attach_children info (child_runs, None))
    = false.
Proof.
  intros H. unfold attach_children, Dict.has. simpl.
  rewrite !get_set_other by discriminate. now rewrite (has_false_get _ _ H).
Qed.

(** The tool, once the run itself is fetched. *)
Lemma fetch_run_main (c : client) (run_id run : value) (info : Dict.t)
    (log : list call) (fetched : list Dict.t * option exn) :
  main_run c run_id run info ->
  fetch_child_runs c run run_id [read_call run_id] = (log, inr fetched) ->
  fetch_run_tool c run_id []
  = (log, inr (VDict (attach_children info fetched))).
Proof.
  intros ([Hnull Hid] & Hread & Hrun & Hinfo) Hchildren.
  unfold fetch_run_tool, fetch_run. rewrite Hnull, Hid. simpl.
  unfold bind, try_except, invoke, lift, ret. simpl.
  rewrite Hread, Hrun. simpl. rewrite Hinfo, Hchildren. reflexivity.
Qed.

Lemma fetch_child_runs_raise (c : client) (run run_id : value) (e : exn)
    (log : list call) :
  c (children_call run) = inl e ->
  fetch_child_runs c run run_id log
  = (log ++ [children_call run], inr ([], Some e)).
Proof.
  intros Hc. unfold fetch_child_runs, bind, try_except, invoke, ret.
  now rewrite Hc.
Qed.

Lemma fetch_child_runs_selected (c : client) (run run_id listed : value)
    (children : list value) (selected : list Dict.t) (log : list call) :
  c (children_call run) = inr listed ->
  iterate listed = inr children ->
  select_children run_id children = inr selected ->
  fetch_child_runs c run run_id log
  = (log ++ [children_call run],
     inr (match py_sorted start_time_key false selected with
          | inr sorted => (sorted, None)
          | inl e => (selected, Some e)
          end)).
Proof.
  intros Hc Hit Hsel.
  unfold fetch_child_runs, bind, try_except, invoke, lift, ret.
  rewrite Hc, Hit, Hsel.
  now destruct (py_sorted start_time_key false selected).
Qed.

Lemma is_child_of_spec (run_id c : value) :
  is_child_of run_id c = true <-> parent_is run_id c.
Proof.
  unfold is_child_of, parent_is, hasattr, getattr_default, getattr, Dict.has.
  split.
  - destruct c; try discriminate.
    destruct (Dict.get "parent_run_id" attrs) as [parent|] eqn:Hget;
      [|discriminate].
    simpl. intros H. apply andb_prop in H. destruct H as [Ht He].
    exists cls, text, attrs, parent. repeat split; auto.
    destruct run_id; try discriminate. simpl in He.
    apply String.eqb_eq in He. now subst.
  - intros (cls & text & attrs & parent & -> & Hget & Ht & ->).
    rewrite Hget. simpl. rewrite Ht. simpl. apply String.eqb_refl.
Qed.

Lemma select_children_spec (run_id : value) (children : list value)
    (selected : list Dict.t) :
  select_children run_id children = inr selected ->
  infos_of (filter (is_child_of run_id) children) selected.
Proof.
  revert selected. induction children as [|c children IH]; simpl;
    intros selected E.
  - inversion E. constructor.
  - destruct (is_child_of run_id c); [|now apply IH].
    unfold rbind in E. destruct (child_info c) as [|x] eqn:Ex; [discriminate|].
    destruct (select_children run_id children) as [|more]; [discriminate|].
    inversion E. constructor; [exact Ex|now apply IH].
Qed.

Lemma select_children_total (run_id : value) (children : list value) :
  Forall (fun c => is_child_of run_id c = true ->
                   exists x, child_info c = inr x) children ->
  exists selected, select_children run_id children = inr selected.
Proof.
  induction 1 as [|c children Hc _ IH]; simpl; [now eexists|].
  destruct IH as [more Emore].
  destruct (is_child_of run_id c); [|now exists more].
  destruct (Hc eq_refl) as [x Ex]. rewrite Ex, Emore. simpl. now eexists.
Qed.

Lemma child_info_start (c : value) (x : Dict.t) :
  child_info c = inr x ->
  Dict.get "start_time" x = Some (str_attr_or_none c "start_time").
Proof.
  unfold child_info, rbind.
  destruct (getattr c "id"); [discriminate|].
  destruct (getattr c "name"); [discriminate|].
  destruct (getattr c "run_type"); [discriminate|].
  destruct (getattr c "error"); [discriminate|].
  destruct (getattr c "inputs"); [discriminate|].
  destruct (getattr c "outputs"); [discriminate|].
  intros E. now inversion E.
Qed.

Lemma child_start_cases (c : value) (x : Dict.t) :
  child_info c = inr x ->
  (hasattr c "start_time" = false /\ lacks_start_time x)
  \/ (hasattr c "start_time" = true /\ has_start_text x).
Proof.
  intros E. apply child_info_start in E.
  unfold lacks_start_time, has_start_text. rewrite E.
  unfold str_attr_or_none. destruct (hasattr c "start_time"); eauto.
Qed.

Lemma infos_start_cases (runs : list value) (infos : list Dict.t) :
  infos_of runs infos ->
  Forall (fun x => lacks_start_time x \/ has_start_text x) infos.
Proof.
  induction 1 as [|c x runs infos Hx _ IH]; constructor; [|exact IH].
  destruct (child_start_cases _ _ Hx) as [[_ ?] | [_ ?]]; auto.
Qed.

(** C5, as the code has it: when the run is fetched and the listing of the
    child runs raises, the tool returns the fields of the run unchanged,
    with [child_runs] empty, [child_run_count] 0 and a [child_runs_error]
    note; the "error" entry of the result is the error field of the run,
    not the failure of the listing. *)
Theorem listing_failure_keeps_run (c : client) (run_id run : value)
    (info : Dict.t) (e : exn) :
  main_run c run_id run info ->
  c (children_call run) = inl e ->
  fetch_run_tool c run_id []
  = ([read_call run_id; children_call run],
     inr (VDict (attach_children info ([], Some e))))
  /\ (forall k, Dict.has k info = true ->
        Dict.get k (attach_children info ([], Some e)) = Dict.get k info)
  /\ Dict.get "child_runs" (attach_children info ([], Some e))
     = Some (VList [])
  /\ Dict.get "child_run_count" (attach_children info ([], Some e))
     = Some (VInt 0)
  /\ Dict.get "child_runs_error" (attach_children info ([], Some e))
     = Some (child_runs_note e)
  /\ exists error,
       getattr run "error" = inr error
       /\ Dict.get "error" (attach_children info ([], Some e)) = Some error.
Proof.
  intros Hmain Hc.
  assert (Hinfo : run_info_of run = inr info) by apply Hmain.
  destruct (run_info_fresh _ _ Hinfo) as (F1 & F2 & F3).
  split; [|split; [|split; [|split; [|split]]]].
  - apply (fetch_run_main c run_id run info); [exact Hmain|].
    now apply fetch_child_runs_raise.
  - intros k Hk. now apply attach_children_keeps.
  - apply attach_children_runs.
  - apply attach_children_runs.
  - apply attach_children_note.
  - destruct (run_info_has_error _ _ Hinfo) as (error & Herr & Hget).
    exists error. split; [exact Herr|].
    rewrite attach_children_keeps; auto.
    unfold Dict.has. now rewrite Hget.
Qed.

(** C4, where the code departs from it: with two selected child runs or
    more, one of them without a start time, the sort raises; the tool notes
    it in [child_runs_error] instead of returning the children sorted. *)
Theorem missing_start_time_fails_sort (c : client) (run_id run listed : value)
    (info : Dict.t) (children : list value) (selected : list Dict.t) :
  main_run c run_id run info ->
  c (children_call run) = inr listed ->
  iterate listed = inr children ->
  select_children run_id children = inr selected ->
  2 <= List.length selected ->
  Exists lacks_start_time selected ->
  exists e d,
    fetch_run_tool c run_id []
    = ([read_call run_id; children_call run], inr (VDict d))
    /\ Dict.get "child_runs_error" d = Some (child_runs_note e)
    /\ Dict.get "child_run_count" d = Some (count selected).
Proof.
  intros Hmain Hc Hit Hsel Hlen Hex.
  assert (Hcases := infos_start_cases _ _ (select_children_spec _ _ _ Hsel)).
  destruct (sort_without_start_time selected Hcases Hex Hlen) as [e He].
  exists e, (attach_children info (selected, Some e)).
  split; [|split].
  - apply (fetch_run_main c run_id run info); [exact Hmain|].
    rewrite (fetch_child_runs_selected _ _ _ _ _ _ _ Hc Hit Hsel).
    now rewrite He.
  - apply attach_children_note.
  - apply attach_children_runs.
Qed.

(** C6: the child runs are the listed runs that have a parent whose text is
    the requested identifier, each as its mapping, sorted by start time;
    the other runs, with another parent or none, are left out. *)
Theorem children_by_parent (c : client) (run_id run listed : value)
    (info : Dict.t) (children : list value) :
  main_run c run_id run info ->
  c (children_call run) = inr listed ->
  iterate listed = inr children ->
  Forall (fun r => is_child_of run_id r = true ->
                   exists x, child_info r = inr x /\ has_start_text x)
         children ->
  (forall r, is_child_of run_id r = true <-> parent_is run_id r)
  /\ exists selected sorted,
       infos_of (filter (is_child_of run_id) children) selected
       /\ Permutation selected sorted
       /\ Sorted by_start_time sorted
       /\ fetch_run_tool c run_id []
          = ([read_call run_id; children_call run],
             inr (VDict (attach_children info (sorted, None))))
       /\ Dict.get "child_runs" (attach_children info (sorted, None))
          = Some (VList (map VDict sorted))
       /\ Dict.get "child_run_count" (attach_children info (sorted, None))
          = Some (count sorted)
       /\ Dict.has "child_runs_error" (attach_children info (sorted, None))
          = false.
Proof.
  intros Hmain Hc Hit Hall. split; [apply is_child_of_spec|].
  assert (Hinfo : run_info_of run = inr info) by apply Hmain.
  destruct (select_children_total run_id children) as [selected Hsel].
  { eapply Forall_impl; [|exact Hall]. intros r Hr Hchild.
    destruct (Hr Hchild) as (x & Hx & _). now exists x. }
  assert (Hspec := select_children_spec _ _ _ Hsel).
  assert (Hstart : Forall has_start_text selected).
  { clear - Hall Hspec.
    assert (Hf : Forall (fun r => exists x, child_info r = inr x
                                            /\ has_start_text x)
                        (filter (is_child_of run_id) children)).
    { apply Forall_forall. intros r Hr. apply filter_In in Hr.
      destruct Hr as [Hin Hchild].
      exact (proj1 (Forall_forall _ _) Hall r Hin Hchild). }
    induction Hspec as [|r x runs infos Hx _ IH]; constructor.
    - inversion Hf as [|? ? (x' & Hx' & Hs) _]. subst. congruence.
    - apply IH. now inversion Hf. }
  destruct (sorted_by_start_time selected Hstart) as (sorted & Es & Hp & Hs).
  exists selected, sorted. repeat split; auto.
  - apply (fetch_run_main c run_id run info); [exact Hmain|].
    rewrite (fetch_child_runs_selected _ _ _ _ _ _ _ Hc Hit Hsel).
    now rewrite Es.
  - apply attach_children_runs.
  - apply attach_children_runs.
  - apply attach_children_no_note. apply (run_info_fresh _ _ Hinfo).
Qed.

(** ** The most recent run *)

Lemma lex_ltb_irrefl (a : list nat) : lex_ltb a a = false.
Proof.
  induction a as [|x a IH]; simpl; [reflexivity|].
  now rewrite Nat.ltb_irrefl, Nat.eqb_refl.
Qed.

Lemma lex_ltb_asym (a b : list nat) :
  lex_ltb a b = true -> lex_ltb b a = false.
Proof.
  revert b. induction a as [|x a IH]; intros [|y b]; simpl; auto.
  destruct (Nat.ltb_spec x y), (Nat.eqb_spec x y), (Nat.ltb_spec y x),
    (Nat.eqb_spec y x); try discriminate; try lia; auto.
Qed.

Lemma lex_ge_trans (a b c : list nat) :
  lex_ltb b a = false -> lex_ltb c b = false -> lex_ltb c a = false.
Proof.
  revert b c. induction a as [|x a IH]; intros [|y b] [|z c]; simpl; auto;
    try discriminate.
  destruct (Nat.ltb_spec y x), (Nat.eqb_spec y x), (Nat.ltb_spec z y),
    (Nat.eqb_spec z y), (Nat.ltb_spec z x), (Nat.eqb_spec z x);
    try discriminate; try lia; eauto.
Qed.

Lemma py_lt_datetime (a b : value) :
  is_datetime a -> is_datetime b -> py_lt a b = inr (datetime_ltb a b).
Proof. now intros [d ->] [e ->]. Qed.

Lemma datetime_ltb_asym (a b : value) :
  is_datetime a -> is_datetime b ->
  datetime_ltb a b = true -> datetime_ltb b a = false.
Proof. intros [d ->] [e ->]. apply lex_ltb_asym. Qed.

Lemma datetime_ltb_irrefl (a : value) : is_datetime a -> datetime_ltb a a = false.
Proof. intros [d ->]. apply lex_ltb_irrefl. Qed.

Lemma datetime_ge_trans (a b c : value) :
  is_datetime a -> is_datetime b -> is_datetime c ->
  datetime_ltb b a = false -> datetime_ltb c b = false ->
  datetime_ltb c a = false.
Proof. intros [d ->] [e ->] [f ->]. apply lex_ge_trans. Qed.

Lemma with_keys_getattr (name : string) (runs : list value) :
  Forall (fun r => exists v, getattr r name = inr v) runs ->
  with_keys (fun r => getattr r name) runs
  = inr (map (fun r => (getattr_default r name, r)) runs).
Proof.
  induction 1 as [|r runs [v Hv] _ IH]; simpl; [reflexivity|].
  unfold getattr_default. now rewrite Hv, IH.
Qed.

(** A run that started after all the others is the latest one. *)
Lemma most_recent_is_latest (pre post : list value) (latest : value)
    (d : datetime) :
  getattr latest "start_time" = inr (VDatetime d) ->
  Forall (older_than d) (pre ++ post) ->
  latest_of (pre ++ latest :: post) latest.
Proof.
  intros Hd Holder. unfold latest_of, py_sorted.
  set (key := fun r : value => (getattr_default r "start_time", r)).
  assert (Hrun : forall r, In r (pre ++ latest :: post) ->
                           r = latest \/ older_than d r).
  { intros r Hr. apply in_app_or in Hr. destruct Hr as [Hr | [Hr | Hr]];
      auto; right; apply (proj1 (Forall_forall _ _) Holder);
      apply in_or_app; auto. }
  assert (Hkey : forall r, In r (pre ++ latest :: post) ->
                           is_datetime (fst (key r))).
  { intros r Hr. unfold key, getattr_default. simpl.
    destruct (Hrun r Hr) as [-> | (e & He & _)].
    - rewrite Hd. now exists d.
    - rewrite He. now exists e. }
  rewrite with_keys_getattr.
  2:{ apply Forall_forall. intros r Hr.
      destruct (Hrun r Hr) as [-> | (e & He & _)]; eauto. }
  fold key. simpl.
  assert (HK : Forall (fun kx => is_datetime (fst kx))
                      (rev (map key (pre ++ latest :: post)))).
  { apply Forall_forall. intros kx Hin. apply in_rev, in_map_iff in Hin.
    destruct Hin as (r & <- & Hr). now apply Hkey. }
  destruct (sort_keyed_ordered _ is_datetime datetime_ltb py_lt_datetime
              datetime_ltb_asym _ HK) as (s & -> & Hperm & Hsorted).
  simpl.
  assert (Hin : In (key latest) s).
  { eapply Permutation_in; [exact Hperm|]. apply -> in_rev.
    apply in_map, in_or_app. right. now left. }
  destruct (rev s) as [|m rest] eqn:Erev.
  { apply in_rev in Hin. rewrite Erev in Hin. inversion Hin. }
  assert (Es : s = rev rest ++ [m]).
  { rewrite <- (rev_involutive s), Erev. reflexivity. }
  assert (Hs : Forall (fun kx => is_datetime (fst kx)) s)
    by (eapply Permutation_Forall; eauto).
  rewrite Es in Hs, Hsorted.
  assert (Hmax := sorted_last _ is_datetime datetime_ltb datetime_ltb_irrefl
                    datetime_ge_trans _ _ Hs Hsorted).
  rewrite <- Es in Hmax.
  assert (Hlatest := proj1 (Forall_forall _ _) Hmax _ Hin).
  assert (Hm : In m (map key (pre ++ latest :: post))).
  { apply in_rev. eapply Permutation_in;
      [apply Permutation_sym; exact Hperm|].
    rewrite Es. apply in_or_app. right. now left. }
  apply in_map_iff in Hm. destruct Hm as (r & <- & Hr).
  exists (map snd rest). simpl. f_equal. f_equal.
  destruct (Hrun r Hr) as [-> | (e & He & Hlt)]; [reflexivity|].
  exfalso. unfold may_precede, key, getattr_default in Hlatest.
  simpl in Hlatest. rewrite He, Hd in Hlatest. simpl in Hlatest. congruence.
Qed.

(** ** get_thread_history_tool *)

Lemma getattr_hasattr (v x : value) (name : string) :
  getattr v name = inr x -> hasattr v name = true.
Proof.
  destruct v; try discriminate. unfold getattr, hasattr, Dict.has.
  now destruct (Dict.get name attrs).
Qed.

(** The tool, once the runs are listed and the latest is known. *)
Lemma get_thread_history_latest (c : client)
    (thread_id project_name listed latest : value) (runs : list value) :
  c (history_call thread_id project_name) = inr listed ->
  iterate listed = inr runs ->
  latest_of runs latest ->
  get_thread_history_tool c thread_id project_name []
  = ([history_call thread_id project_name],
     inr (payload
       (match (messages <-? add_input_messages latest [] ;;
               add_output_message latest messages) with
        | inr [] =>
            Failure ("No messages found in the run for thread "
                     ++ py_str thread_id)
        | inr messages => Success (VDict [("result", VList messages)])
        | inl e => Failure ("Error fetching thread history: " ++ exn_str e)
        end))).
Proof.
  intros Hc Hit [rest Hsorted].
  unfold get_thread_history_tool, get_thread_history, bind, try_except,
    invoke, lift, ret.
  rewrite Hc, Hit. destruct runs as [|r runs]; [discriminate|].
  rewrite Hsorted. unfold rbind.
  destruct (add_input_messages latest []) as [|messages]; [reflexivity|].
  destruct (add_output_message latest messages) as [|[|]]; reflexivity.
Qed.

(** C8: when the latest run has the inputs
    [{"messages": [{"role": "user", "content": "hello"}]}] and the outputs
    [{"choices": [{"message": {"role": "assistant", "content": "hi"}}]}],
    the tool returns the input message followed by the assistant message
    under "result". *)
Theorem history_of_chat_completion (c : client)
    (thread_id project_name listed latest : value) (runs : list value) :
  c (history_call thread_id project_name) = inr listed ->
  iterate listed = inr runs ->
  latest_of runs latest ->
  getattr latest "inputs"
    = inr (VDict [("messages", VList [message "user" "hello"])]) ->
  getattr latest "outputs"
    = inr (VDict [("choices",
                   VList [VDict [("message", message "assistant" "hi")]])]) ->
  get_thread_history_tool c thread_id project_name []
  = ([history_call thread_id project_name],
     inr (VDict [("result", VList [message "user" "hello";
                                   message "assistant" "hi"])])).
Proof.
  intros Hc Hit Hlatest Hin Hout.
  rewrite (get_thread_history_latest _ _ _ _ _ _ Hc Hit Hlatest).
  unfold add_input_messages, add_output_message.
  rewrite (getattr_hasattr _ _ _ Hin), (getattr_hasattr _ _ _ Hout).
  rewrite Hin, Hout. reflexivity.
Qed.

Lemma no_input_messages_none (run : value) :
  no_input_messages run -> add_input_messages run [] = inr [].
Proof.
  unfold add_input_messages.
  intros [-> | (inputs & Hin & Hno)]; [reflexivity|].
  rewrite (getattr_hasattr _ _ _ Hin), Hin. simpl. now rewrite Hno.
Qed.

Lemma choices_without_message (run choices : value) (d : Dict.t)
    (messages : list value) :
  getattr run "outputs" = inr (VDict d) ->
  Dict.get "choices" d = Some choices ->
  no_choice_message choices ->
  add_output_message run messages = inr messages.
Proof.
  intros Hout Hget Hno. unfold add_output_message.
  rewrite (getattr_hasattr _ _ _ Hout), Hout. simpl.
  unfold Dict.has. rewrite Hget. simpl.
  destruct choices as [| | | | |[|first rest]| |]; try reflexivity.
  simpl in Hno. now rewrite Hno.
Qed.

(** C10: when the outputs of the latest run have a "choices" key that
    brings no message (an empty list, or a first choice without "message"),
    their own "message" entry is not read: nothing is added for the outputs
    and, without input messages, the tool returns the error "No messages
    found in the run for thread ...". *)
Theorem choices_key_hides_message (c : client)
    (thread_id project_name listed latest choices direct : value)
    (runs : list value) (d : Dict.t) :
  c (history_call thread_id project_name) = inr listed ->
  iterate listed = inr runs ->
  latest_of runs latest ->
  no_input_messages latest ->
  getattr latest "outputs" = inr (VDict d) ->
  Dict.get "choices" d = Some choices ->
  Dict.get "message" d = Some direct ->
  no_choice_message choices ->
  (forall messages, add_output_message latest messages = inr messages)
  /\ get_thread_history_tool c thread_id project_name []
     = ([history_call thread_id project_name],
        inr (no_messages_error thread_id)).
Proof.
  intros Hc Hit Hlatest Hin Hout Hchoices _ Hno. split.
  - intros messages. now apply (choices_without_message _ choices d).
  - rewrite (get_thread_history_latest _ _ _ _ _ _ Hc Hit Hlatest).
    rewrite (no_input_messages_none _ Hin). simpl.
    now rewrite (choices_without_message _ choices d).
Qed.

(** * Further properties of the tools *)

(** ** Guards and absent runs *)

(** X1: a run identifier that is [None], empty or the text "null" is
    refused before any call on the client. *)
Theorem run_id_guard_without_call (c : client) (run_id : value) :
  truthy run_id = false \/ run_id = VStr "null" ->
  fetch_run_tool c run_id []
  = ([], inr (error_payload "Error: run_id must be provided.")).
Proof.
  intros H. unfold fetch_run_tool, fetch_run.
  assert (E : eq_str run_id "null" || negb (truthy run_id) = true).
  { destruct H as [H | ->]; [rewrite H; apply orb_true_r | reflexivity]. }
  now rewrite E.
Qed.

(** X2: when the client hands out nothing for the identifier, the tool
    reports that no run was found and does not list the runs of a trace. *)
Theorem run_not_found (c : client) (run_id run : value) :
  given run_id ->
  c (read_call run_id) = inr run ->
  truthy run = false ->
  fetch_run_tool c run_id []
  = ([read_call run_id],
     inr (error_payload ("No run found with ID: " ++ py_str run_id))).
Proof.
  intros [Hnull Hid] Hread Hrun.
  unfold fetch_run_tool, fetch_run. rewrite Hnull, Hid. simpl.
  unfold bind, try_except, invoke, ret. simpl. rewrite Hread, Hrun.
  reflexivity.
Qed.

(** X3: when no run is listed, [fetch_trace_tool] names the project in its
    message, also when the trace was looked up by its identifier: the
    message then ends in "None". *)
Theorem no_runs_message_names_project (c : client)
    (project_name trace_id listed : value) :
  scoped project_name trace_id ->
  c (trace_call project_name trace_id) = inr listed ->
  iterate listed = inr [] ->
  fetch_trace_tool c project_name trace_id []
  = ([trace_call project_name trace_id],
     inr (error_payload ("No runs found for project_name: "
                         ++ py_str (null_to_none project_name))))
  /\ (null_to_none project_name = VNone ->
      fetch_trace_tool c project_name trace_id []
      = ([trace_call project_name trace_id],
         inr (error_payload "No runs found for project_name: None"))).
Proof.
  intros Hs Hc Hit.
  assert (E : fetch_trace_tool c project_name trace_id []
              = ([trace_call project_name trace_id],
                 inr (error_payload ("No runs found for project_name: "
                        ++ py_str (null_to_none project_name))))).
  { unfold fetch_trace_tool, fetch_trace. unfold scoped in Hs.
    apply orb_prop in Hs.
    assert (G : negb (truthy (null_to_none project_name))
                && negb (truthy (null_to_none trace_id)) = false).
    { destruct Hs as [-> | ->]; [reflexivity | apply andb_false_r]. }
    rewrite G. unfold bind, try_except, invoke, lift, ret.
    unfold trace_call in Hc. cbv zeta in Hc. rewrite Hc, Hit. reflexivity. }
  split; [exact E|]. intros Hnone. rewrite E. now rewrite Hnone.
Qed.

(** ** Exceptions of the client *)

Lemma resolved_name_split (s : string) :
  (if Nat.eqb (List.length (split_on "/" s)) 2
   then VStr (nth 1 (split_on "/" s) "") else VStr s)
  = VStr (resolved_name s).
Proof.
  unfold resolved_name.
  destruct (split_on "/" s) as [|a [|b [|]]]; reflexivity.
Qed.

Lemma scoped_guard (project_name trace_id : value) :
  scoped project_name trace_id ->
  negb (truthy (null_to_none project_name))
  && negb (truthy (null_to_none trace_id)) = false.
Proof.
  unfold scoped. intros H. apply orb_prop in H.
  destruct H as [-> | ->]; [reflexivity | apply andb_false_r].
Qed.

(** X4: an exception of the first call on the client comes back as the
    error payload of the tool, with the text of the exception after the
    prefix of the tool, and no further call is made. *)
Theorem client_exception_is_reported (c : client) (e : exn) :
  (forall project_name trace_id,
      scoped project_name trace_id ->
      c (trace_call project_name trace_id) = inl e ->
      fetch_trace_tool c project_name trace_id []
      = ([trace_call project_name trace_id],
         inr (error_payload ("Error fetching last trace: " ++ exn_str e))))
  /\ (forall thread_id project_name,
      c (history_call thread_id project_name) = inl e ->
      get_thread_history_tool c thread_id project_name []
      = ([history_call thread_id project_name],
         inr (error_payload ("Error fetching thread history: "
                             ++ exn_str e))))
  /\ (forall run_id,
      given run_id ->
      c (read_call run_id) = inl e ->
      fetch_run_tool c run_id []
      = ([read_call run_id],
         inr (error_payload ("Error fetching run: " ++ exn_str e))))
  /\ (forall s trace_id,
      s <> "null" ->
      scoped (VStr s) trace_id ->
      c (stats_call_for s trace_id) = inl e ->
      get_project_runs_stats_tool c (VStr s) trace_id []
      = ([stats_call_for s trace_id],
         inr (error_payload ("Error getting project runs stats: "
                             ++ exn_str e)))).
Proof.
  split; [|split; [|split]].
  - intros project_name trace_id Hs Hc.
    unfold fetch_trace_tool, fetch_trace. rewrite (scoped_guard _ _ Hs).
    unfold bind, try_except, invoke, lift, ret.
    unfold trace_call in Hc. cbv zeta in Hc. now rewrite Hc.
  - intros thread_id project_name Hc.
    unfold get_thread_history_tool, get_thread_history, bind, try_except,
      invoke, lift, ret.
    now rewrite Hc.
  - intros run_id [Hnull Hid] Hc.
    unfold fetch_run_tool, fetch_run. rewrite Hnull, Hid. simpl.
    unfold bind, try_except, invoke, lift, ret. now rewrite Hc.
  - intros s trace_id Hnull Hs Hc.
    assert (Hn : null_to_none (VStr s) = VStr s).
    { unfold null_to_none. simpl. apply String.eqb_neq in Hnull.
      now rewrite Hnull. }
    unfold get_project_runs_stats_tool, get_project_runs_stats.
    rewrite (scoped_guard _ _ Hs). rewrite Hn.
    unfold bind, try_except, invoke, lift, ret. simpl split_slash. cbv iota beta.
    cbv zeta. rewrite resolved_name_split.
    unfold stats_call_for, stats_call, trace_argument in Hc.
    now rewrite Hc.
Qed.

(** X5: the same for the two tools of datasets.py. *)
Theorem dataset_client_exception_is_reported (c : client) (e : exn) :
  (forall a1 a2 a3 a4 a5 a6,
      c (Call "list_datasets" [] (list_datasets_kwargs a1 a2 a3 a4 a5 a6))
        = inl e ->
      list_datasets_tool c a1 a2 a3 a4 a5 a6 []
      = ([Call "list_datasets" [] (list_datasets_kwargs a1 a2 a3 a4 a5 a6)],
         inr (error_payload ("Error fetching datasets: " ++ exn_str e))))
  /\ (forall a1 a2 a3 a4,
      c (Call "list_examples" [] (list_examples_kwargs a1 a2 a3 a4)) = inl e ->
      list_examples_tool c a1 a2 a3 a4 []
      = ([Call "list_examples" [] (list_examples_kwargs a1 a2 a3 a4)],
         inr (error_payload ("Error fetching examples: " ++ exn_str e)))).
Proof.
  split; intros;
    unfold list_datasets_tool, list_datasets, list_examples_tool,
      list_examples, bind, try_except, invoke, lift, ret; cbv zeta;
    match goal with H : c _ = inl _ |- _ => now rewrite H end.
Qed.

(** ** Attributes read without a probe *)

(** X6: [fetch_trace_tool] reads nine attributes of the first listed run
    without probing for them; when one of them is missing the tool returns
    an error payload naming a missing attribute, where [fetch_run_tool]
    would put [None]. *)
Theorem trace_requires_attributes (c : client)
    (project_name trace_id listed : value) (rest : list value)
    (cls text : string) (attrs : list (string * value)) (a : string) :
  scoped project_name trace_id ->
  c (trace_call project_name trace_id) = inr listed ->
  iterate listed = inr (VObj cls text attrs :: rest) ->
  In a fetch_trace_required ->
  lacks attrs a ->
  exists missing,
    In missing fetch_trace_required
    /\ lacks attrs missing
    /\ fetch_trace_tool c project_name trace_id []
       = ([trace_call project_name trace_id],
          inr (error_payload ("Error fetching last trace: "
                              ++ no_attribute cls missing))).
Proof.
  intros Hs Hc Hit Ha Hlack.
  unfold fetch_trace_tool, fetch_trace. rewrite (scoped_guard _ _ Hs).
  unfold bind, try_except, invoke, lift, ret.
  unfold trace_call in Hc. cbv zeta in Hc. rewrite Hc, Hit.
  unfold getattr, lacks in *.
  repeat match goal with
         | |- context [match Dict.get ?n attrs with _ => _ end] =>
             destruct (Dict.get n attrs) eqn:?;
             [|exists n; split; [simpl; tauto | split; [assumption|reflexivity]]]
         end.
  exfalso. simpl in Ha.
  repeat destruct Ha as [<- | Ha]; congruence || contradiction.
Qed.

(** X7: [fetch_run_tool] reads six attributes of the run without probing
    for them; when one of them is missing the tool returns an error payload
    naming a missing attribute and does not list the runs of the trace. *)
Theorem run_requires_attributes (c : client) (run_id : value)
    (cls text : string) (attrs : list (string * value)) (a : string) :
  given run_id ->
  c (read_call run_id) = inr (VObj cls text attrs) ->
  In a fetch_run_required ->
  lacks attrs a ->
  exists missing,
    In missing fetch_run_required
    /\ lacks attrs missing
    /\ fetch_run_tool c run_id []
       = ([read_call run_id],
          inr (error_payload ("Error fetching run: "
                              ++ no_attribute cls missing))).
Proof.
  intros [Hnull Hid] Hc Ha Hlack.
  unfold fetch_run_tool, fetch_run. rewrite Hnull, Hid. simpl.
  unfold bind, try_except, invoke, lift, ret. rewrite Hc. simpl.
  unfold run_info_of, rbind, getattr, lacks in *.
  repeat match goal with
         | |- context [match Dict.get ?n attrs with _ => _ end] =>
             destruct (Dict.get n attrs) eqn:?;
             [|exists n; split; [simpl; tauto | split; [assumption|reflexivity]]]
         end.
  exfalso. simpl in Ha.
  repeat destruct Ha as [<- | Ha]; congruence || contradiction.
Qed.

(** X8: the other attributes of the run are probed for: a run that has
    the six attributes above always gives its mapping, and each probed
    attribute that is absent leaves [None] under its key, an empty list
    under "tags". *)
Theorem optional_run_attributes (cls text : string)
    (attrs : list (string * value)) :
  (forall a, In a fetch_run_required -> exists v, Dict.get a attrs = Some v) ->
  exists info,
    run_info_of (VObj cls text attrs) = inr info
    /\ forall attr key default,
         In (attr, key, default) fetch_run_optional ->
         lacks attrs attr ->
         Dict.get key info = Some default.
Proof.
  intros Hreq. unfold run_info_of, rbind, getattr.
  destruct (Hreq "id") as [v1 ->]; [simpl; tauto|].
  destruct (Hreq "name") as [v2 ->]; [simpl; tauto|].
  destruct (Hreq "run_type") as [v3 ->]; [simpl; tauto|].
  destruct (Hreq "inputs") as [v4 ->]; [simpl; tauto|].
  destruct (Hreq "outputs") as [v5 ->]; [simpl; tauto|].
  destruct (Hreq "error") as [v6 ->]; [simpl; tauto|].
  eexists. split; [reflexivity|].
  intros attr key default Hin Hlack. unfold lacks in Hlack. simpl in Hin.
  repeat destruct Hin as [Hin | Hin]; try contradiction;
    inversion Hin; subst; simpl;
    unfold attr_or, str_attr_or_none, hasattr, Dict.has;
    now rewrite Hlack.
Qed.

(** ** A child run that cannot be projected *)



(** ** Children with the same start time *)

Lemma text_is_unordered (t : string) (a b : value) :
  text_ltb a b = true -> text_is t a = true -> text_is t b = true -> False.
Proof.
  unfold text_ltb, text_is, String.ltb. intros Hlt Ha Hb.
  apply String.eqb_eq in Ha, Hb. rewrite Ha, Hb in Hlt.
  pose proof (String.compare_antisym t t) as Hanti.
  destruct (String.compare t t); discriminate.
Qed.

Lemma filter_map_snd {A B : Type} (q : B -> bool) (l : list (A * B)) :
  filter q (map snd l) = map snd (filter (fun kx => q (snd kx)) l).
Proof.
  induction l as [|x l IH]; simpl; [reflexivity|].
  destruct (q (snd x)); simpl; now rewrite IH.
Qed.

Lemma filter_keyed_by_start (t : string) (l : list (value * Dict.t)) :
  Forall (fun kx => kx = keyed_by_start (snd kx)) l ->
  filter (fun kx => started_at t (snd kx)) l
  = filter (fun kx => text_is t (fst kx)) l.
Proof.
  intros H. apply filter_ext_in. intros kx Hin.
  rewrite (proj1 (Forall_forall _ _) H kx Hin) at 2.
  unfold started_at, text_is. now rewrite key_text_start.
Qed.

(** Sorting child mappings that all have a start time keeps the order of
    those that started at the same time. *)
Lemma sort_by_start_time_stable (l s : list Dict.t) (t : string) :
  Forall has_start_text l ->
  py_sorted start_time_key false l = inr s ->
  filter (started_at t) s = filter (started_at t) l.
Proof.
  intros Hall. unfold py_sorted. rewrite with_keys_start. simpl.
  assert (Hkeys : Forall (fun kx : value * Dict.t => is_text (fst kx))
                         (map keyed_by_start l)).
  { apply Forall_forall. intros kx Hin. apply in_map_iff in Hin.
    destruct Hin as (x & <- & Hx).
    destruct (proj1 (Forall_forall _ _) Hall x Hx) as [u Hu].
    exists u. unfold keyed_by_start. simpl. now rewrite Hu. }
  destruct (sort_keyed (map keyed_by_start l)) as [|ks] eqn:Es;
    [discriminate|].
  simpl. intros E. inversion E. subst s.
  destruct (perm_keyed_by_start _ _ (sort_keyed_perm _ _ Es)) as [Hks _].
  rewrite filter_map_snd, (filter_keyed_by_start t ks Hks).
  rewrite (sort_keyed_filter _ is_text text_ltb py_lt_text (text_is t)
             (text_is_unordered t) _ _ Hkeys Es).
  rewrite <- filter_keyed_by_start.
  2:{ apply Forall_forall. intros kx Hin. apply in_map_iff in Hin.
      now destruct Hin as (x & <- & _). }
  rewrite <- filter_map_snd, map_map. simpl. now rewrite map_id.
Qed.

(** X10: when the children of the run all have a start time, those that
    started at the same time are returned in the order of the listing. *)
Theorem children_sort_is_stable (c : client) (run_id run listed : value)
    (info : Dict.t) (children : list value) :
  main_run c run_id run info ->
  c (children_call run) = inr listed ->
  iterate listed = inr children ->
  Forall (fun r => is_child_of run_id r = true ->
                   exists x, child_info r = inr x /\ has_start_text x)
         children ->
  exists selected sorted,
    infos_of (filter (is_child_of run_id) children) selected
    /\ fetch_run_tool c run_id []
       = ([read_call run_id; children_call run],
          inr (VDict (attach_children info (sorted, None))))
    /\ forall t, filter (started_at t) sorted = filter (started_at t) selected.
Proof.
  intros Hmain Hc Hit Hall.
  destruct (select_children_total run_id children) as [selected Hsel].
  { eapply Forall_impl; [|exact Hall]. intros r Hr Hchild.
    destruct (Hr Hchild) as (x & Hx & _). now exists x. }
  assert (Hspec := select_children_spec _ _ _ Hsel).
  assert (Hstart : Forall has_start_text selected).
  { clear - Hall Hspec.
    assert (Hf : Forall (fun r => exists x, child_info r = inr x
                                            /\ has_start_text x)
                        (filter (is_child_of run_id) children)).
    { apply Forall_forall. intros r Hr. apply filter_In in Hr.
      destruct Hr as [Hin Hchild].
      exact (proj1 (Forall_forall _ _) Hall r Hin Hchild). }
    induction Hspec as [|r x runs infos Hx _ IH]; constructor.
    - inversion Hf as [|? ? (x' & Hx' & Hs) _]. subst. congruence.
    - apply IH. now inversion Hf. }
  destruct (sorted_by_start_time selected Hstart) as (sorted & Es & _ & _).
  exists selected, sorted. split; [exact Hspec|]. split.
  - apply (fetch_run_main c run_id run info); [exact Hmain|].
    rewrite (fetch_child_runs_selected _ _ _ _ _ _ _ Hc Hit Hsel).
    now rewrite Es.
  - intros t. now apply sort_by_start_time_stable.
Qed.

(** ** The history of a thread *)

(** X11: when no run is listed for the thread the tool says so, naming the
    thread and the project. *)
Theorem history_without_runs (c : client)
    (thread_id project_name listed : value) :
  c (history_call thread_id project_name) = inr listed ->
  iterate listed = inr [] ->
  get_thread_history_tool c thread_id project_name []
  = ([history_call thread_id project_name],
     inr (error_payload ("No runs found for thread " ++ py_str thread_id
                         ++ " in project " ++ py_str project_name))).
Proof.
  intros Hc Hit.
  unfold get_thread_history_tool, get_thread_history, bind, try_except,
    invoke, lift, ret.
  now rewrite Hc, Hit.
Qed.

Lemma input_messages_added (run : value) (messages : list value) :
  input_messages run messages -> add_input_messages run [] = inr messages.
Proof.
  intros [[Hno ->] | (inputs & Hin & Hget)].
  - now apply no_input_messages_none.
  - unfold add_input_messages.
    rewrite (getattr_hasattr _ _ _ Hin), Hin. simpl.
    unfold Dict.has. now rewrite Hget.
Qed.

Lemma output_message_added (run message : value) (messages : list value) :
  output_message run message ->
  add_output_message run messages = inr (messages ++ [message]).
Proof.
  intros (outputs & Hout & Hcase). unfold add_output_message.
  rewrite (getattr_hasattr _ _ _ Hout), Hout. simpl.
  destruct Hcase as [(first & rest & Hchoices & Hmsg) | (Hno & Hmsg)].
  - unfold Dict.has. rewrite Hchoices. simpl. unfold Dict.has.
    now rewrite Hmsg.
  - rewrite Hno. unfold Dict.has. now rewrite Hmsg.
Qed.

(** X12: the history is the input messages of the latest run, in order,
    followed by one message of its outputs: that of the first choice or,
    when the outputs have no "choices" key, their own "message". *)
Theorem history_is_inputs_then_output (c : client)
    (thread_id project_name listed latest message : value)
    (runs messages : list value) :
  c (history_call thread_id project_name) = inr listed ->
  iterate listed = inr runs ->
  latest_of runs latest ->
  input_messages latest messages ->
  output_message latest message ->
  get_thread_history_tool c thread_id project_name []
  = ([history_call thread_id project_name],
     inr (VDict [("result", VList (messages ++ [message]))])).
Proof.
  intros Hc Hit Hlatest Hin Hout.
  rewrite (get_thread_history_latest _ _ _ _ _ _ Hc Hit Hlatest).
  rewrite (input_messages_added _ _ Hin). simpl.
  rewrite (output_message_added _ _ _ Hout).
  now destruct messages.
Qed.

Lemma with_keys_fails {A : Type} (key : A -> result value) (l : list A)
    (bad : A) :
  In bad l -> (exists e, key bad = inl e) -> exists e, with_keys key l = inl e.
Proof.
  intros Hin [e He]. induction l as [|x l IH]; [inversion Hin|]. simpl.
  destruct Hin as [-> | Hin].
  - rewrite He. now exists e.
  - destruct (IH Hin) as [e' He']. unfold rbind.
    destruct (key x); [eauto|]. rewrite He'. eauto.
Qed.

(** X13: the start time is read from every listed run before they are
    sorted: one run without it, even a single listed run, makes the tool
    return an error payload. *)
Theorem history_requires_start_times (c : client)
    (thread_id project_name listed bad : value) (runs : list value) :
  c (history_call thread_id project_name) = inr listed ->
  iterate listed = inr runs ->
  In bad runs ->
  (exists e, getattr bad "start_time" = inl e) ->
  exists e,
    get_thread_history_tool c thread_id project_name []
    = ([history_call thread_id project_name],
       inr (error_payload ("Error fetching thread history: " ++ exn_str e))).
Proof.
  intros Hc Hit Hin Hbad.
  destruct (with_keys_fails (fun run => getattr run "start_time") runs bad
              Hin Hbad) as [e He].
  exists e.
  unfold get_thread_history_tool, get_thread_history, bind, try_except,
    invoke, lift, ret.
  rewrite Hc, Hit. destruct runs as [|r runs]; [inversion Hin|].
  unfold py_sorted. now rewrite He.
Qed.

(** ** The name of the project *)

Lemma split_on_no_slash (s : string) :
  slashes s = 0 -> split_on "/" s = [s].
Proof.
  induction s as [|ch s IH]; simpl; [reflexivity|].
  destruct (Ascii.eqb ch "/"); [discriminate|]. simpl. intros H.
  now rewrite (IH H).
Qed.

Lemma split_on_length (s : string) :
  List.length (split_on "/" s) = S (slashes s).
Proof.
  induction s as [|ch s IH]; simpl; [reflexivity|].
  destruct (Ascii.eqb ch "/"); simpl; [now rewrite IH|].
  destruct (split_on "/" s); simpl in *; [discriminate | exact IH].
Qed.

Lemma split_on_one_slash (s : string) :
  slashes s = 1 -> exists before, split_on "/" s = [before; after_slash s].
Proof.
  induction s as [|ch s IH]; simpl; [discriminate|].
  destruct (Ascii.eqb ch "/"); simpl; intros H.
  - exists "". injection H as H. now rewrite (split_on_no_slash _ H).
  - destruct (IH H) as [before ->]. now exists (String ch before).
Qed.

Lemma resolved_name_unqualified (s : string) :
  resolved_name s = unqualified s.
Proof.
  unfold resolved_name, unqualified.
  destruct (Nat.eqb_spec (slashes s) 1) as [H1 | H1].
  - destruct (split_on_one_slash s H1) as [before ->]. reflexivity.
  - pose proof (split_on_length s) as Hlen.
    destruct (split_on "/" s) as [|a [|b [|]]]; try reflexivity.
    simpl in Hlen. congruence.
Qed.

(** X14: a project name with exactly one "/" stands for the text after
    the slash, any other name for itself. The statistics are asked for that
    name, and the mapping of the client comes back without [run_facets] and
    with that name under [project_name]. *)
Theorem project_name_is_unqualified (c : client) (s : string)
    (trace_id : value) (d : Dict.t) :
  s <> "null" -> s <> "" ->
  c (stats_call (VList [VStr (unqualified s)]) (trace_argument trace_id))
    = inr (VDict d) ->
  get_project_runs_stats_tool c (VStr s) trace_id []
  = ([stats_call (VList [VStr (unqualified s)]) (trace_argument trace_id)],
     inr (VDict (Dict.set "project_name" (VStr (unqualified s))
                   (Dict.pop "run_facets" d)))).
Proof.
  intros Hnull Hempty Hc.
  apply String.eqb_neq in Hnull, Hempty.
  assert (Hn : null_to_none (VStr s) = VStr s).
  { unfold null_to_none. simpl. now rewrite Hnull. }
  assert (Ht : truthy (VStr s) = true) by (simpl; now rewrite Hempty).
  unfold get_project_runs_stats_tool, get_project_runs_stats.
  rewrite Hn, Ht. simpl negb. cbv iota beta. simpl andb. cbv iota.
  unfold bind, try_except, invoke, lift, ret. simpl split_slash.
  cbv iota beta zeta. rewrite resolved_name_split, resolved_name_unqualified.
  unfold stats_call, trace_argument in Hc. rewrite Hc. reflexivity.
Qed.

(** X15: whenever the statistics tool returns normally, the result is the
    mapping the client answered with: no [run_facets], a [project_name],
    and every other entry as the client gave it. *)
Theorem statistics_are_passed_on (c : client) (project_name trace_id : value) :
  post (passes_statistics_on c)
       (get_project_runs_stats c project_name trace_id).
Proof.
  eapply post_weaken; [|apply get_project_runs_stats_post].
  intros o [_ Hfrom] v Hv.
  destruct (Hfrom v Hv) as (q & d & name & Hq & ->).
  exists q, d. split; [exact Hq|]. simpl. split; [|split].
  - rewrite get_set_other by discriminate. apply get_pop_same.
  - exists name. apply get_set_same.
  - intros k Hf Hp. rewrite get_set_other by assumption.
    now apply get_pop_other.
Qed.

(** ** datasets.py: the arguments passed on *)

Lemma get_add_kwarg_same (name : string) (v : value) (kwargs : Dict.t) :
  Dict.get name kwargs = None ->
  Dict.get name (add_kwarg name v kwargs) = passed v.
Proof.
  intros H. unfold add_kwarg, passed.
  destruct (is_none v); [exact H | apply get_set_same].
Qed.

Lemma get_add_kwarg_other (name name' : string) (v : value)
    (kwargs : Dict.t) :
  name <> name' ->
  Dict.get name (add_kwarg name' v kwargs) = Dict.get name kwargs.
Proof.
  intros H. unfold add_kwarg.
  destruct (is_none v); [reflexivity | now apply get_set_other].
Qed.

(** X16: the listing is called with the parameters that are not [None],
    each under its own name and unchanged; a parameter that is [None] is
    not passed at all. *)
Theorem only_supplied_arguments_are_passed
    (dataset_ids data_type dataset_name dataset_name_contains metadata limit
     dataset_id offset : value) :
  (Dict.get "dataset_ids"
     (list_datasets_kwargs dataset_ids data_type dataset_name
        dataset_name_contains metadata limit) = passed dataset_ids
   /\ Dict.get "data_type"
        (list_datasets_kwargs dataset_ids data_type dataset_name
           dataset_name_contains metadata limit) = passed data_type
   /\ Dict.get "dataset_name"
        (list_datasets_kwargs dataset_ids data_type dataset_name
           dataset_name_contains metadata limit) = passed dataset_name
   /\ Dict.get "dataset_name_contains"
        (list_datasets_kwargs dataset_ids data_type dataset_name
           dataset_name_contains metadata limit)
      = passed dataset_name_contains
   /\ Dict.get "metadata"
        (list_datasets_kwargs dataset_ids data_type dataset_name
           dataset_name_contains metadata limit) = passed metadata
   /\ Dict.get "limit"
        (list_datasets_kwargs dataset_ids data_type dataset_name
           dataset_name_contains metadata limit) = passed limit)
  /\ (Dict.get "dataset_id"
        (list_examples_kwargs dataset_id dataset_name limit offset)
      = passed dataset_id
      /\ Dict.get "dataset_name"
           (list_examples_kwargs dataset_id dataset_name limit offset)
         = passed dataset_name
      /\ Dict.get "limit"
           (list_examples_kwargs dataset_id dataset_name limit offset)
         = passed limit
      /\ Dict.get "offset"
           (list_examples_kwargs dataset_id dataset_name limit offset)
         = passed offset)
  /\ (forall k, In k (Dict.keys
                        (list_datasets_kwargs dataset_ids data_type
                           dataset_name dataset_name_contains metadata limit))
                -> In k ["dataset_ids"; "data_type"; "dataset_name";
                         "dataset_name_contains"; "metadata"; "limit"])
  /\ (forall k, In k (Dict.keys
                        (list_examples_kwargs dataset_id dataset_name limit
                           offset))
                -> In k ["dataset_id"; "dataset_name"; "limit"; "offset"]).
Proof.
  unfold list_datasets_kwargs, list_examples_kwargs. cbv zeta.
  repeat split;
    try (repeat (first [ rewrite get_add_kwarg_same; [reflexivity|]
                       | rewrite get_add_kwarg_other by discriminate ]);
         reflexivity).
  - intros k. unfold add_kwarg.
    destruct (is_none dataset_ids), (is_none data_type),
      (is_none dataset_name), (is_none dataset_name_contains),
      (is_none metadata), (is_none limit); simpl; tauto.
  - intros k. unfold add_kwarg.
    destruct (is_none dataset_id), (is_none dataset_name),
      (is_none limit), (is_none offset); simpl; tauto.
Qed.

(** ** datasets.py: the mappings returned *)

Lemma keys_set_fresh (k : string) (v : value) (d : Dict.t) :
  ~ In k (Dict.keys d) -> Dict.keys (Dict.set k v d) = Dict.keys d ++ [k].
Proof.
  induction d as [|[k' v'] d IH]; simpl; intros H; [reflexivity|].
  destruct (String.eqb_spec k k') as [-> | Hne]; [tauto|].
  simpl. f_equal. apply IH. tauto.
Qed.

Lemma format_attrs_keys (obj : value) (attrs : list string) :
  NoDup attrs ->
  forall acc d,
    (forall a, In a attrs -> ~ In a (Dict.keys acc)) ->
    format_attrs attrs obj acc = inr d ->
    Dict.keys d = Dict.keys acc ++ attrs.
Proof.
  induction 1 as [|a attrs Ha _ IH]; simpl; intros acc d Hfresh E.
  - inversion E. now rewrite app_nil_r.
  - unfold rbind in E. destruct (format_attr obj a) as [|v]; [discriminate|].
    assert (Hfresh' : forall b, In b attrs ->
                                ~ In b (Dict.keys (Dict.set a v acc))).
    { intros b Hb. rewrite keys_set_fresh by (apply Hfresh; now left).
      intros Hin. apply in_app_or in Hin. destruct Hin as [Hin | [-> | []]].
      - apply (Hfresh b); [now right | exact Hin].
      - contradiction. }
    rewrite (IH _ _ Hfresh' E).
    rewrite keys_set_fresh by (apply Hfresh; now left).
    now rewrite <- app_assoc.
Qed.

Lemma format_all_keys (attrs : list string) (objs : list value)
    (ds : list Dict.t) :
  NoDup attrs ->
  format_all attrs objs = inr ds ->
  Forall (fun d => Dict.keys d = attrs) ds.
Proof.
  intros Hnd. revert ds. induction objs as [|obj objs IH]; simpl; intros ds E.
  - inversion E. constructor.
  - unfold rbind in E.
    destruct (format_attrs attrs obj []) as [|d] eqn:Ed; [discriminate|].
    destruct (format_all attrs objs) as [|more]; [discriminate|].
    inversion E. constructor; [|now apply IH].
    now apply (format_attrs_keys obj attrs Hnd [] d).
Qed.

Lemma dataset_attrs_nodup : NoDup dataset_attrs.
Proof.
  unfold dataset_attrs.
  repeat (constructor; [simpl; intuition discriminate|]). constructor.
Qed.

Lemma example_attrs_nodup : NoDup example_attrs.
Proof.
  unfold example_attrs.
  repeat (constructor; [simpl; intuition discriminate|]). constructor.
Qed.

(** X17: whatever attributes the listed objects have, a normal return
    holds, for each of them, a mapping with exactly the projected
    attributes as keys, in their fixed order. *)
Theorem records_have_the_projected_keys (c : client) :
  (forall a1 a2 a3 a4 a5 a6,
      post (lists_records "datasets" dataset_attrs)
           (list_datasets c a1 a2 a3 a4 a5 a6))
  /\ (forall a1 a2 a3 a4,
      post (lists_records "examples" example_attrs)
           (list_examples c a1 a2 a3 a4)).
Proof.
  split; intros.
  - unfold list_datasets. post_steps; intros ? Hv; inversion Hv.
    eexists. split; [reflexivity|].
    eapply format_all_keys; [apply dataset_attrs_nodup | eassumption].
  - unfold list_examples. post_steps; intros ? Hv; inversion Hv.
    eexists. split; [reflexivity|].
    eapply format_all_keys; [apply example_attrs_nodup | eassumption].
Qed.

(** ** datasets.py: a timestamp that is no datetime *)

Lemma format_attrs_fails (obj : value) (attrs : list string) (attr : string) :
  In attr attrs ->
  (exists e, format_attr obj attr = inl e) ->
  forall acc, exists e, format_attrs attrs obj acc = inl e.
Proof.
  intros Hin [e He]. induction attrs as [|a attrs IH]; [inversion Hin|].
  intros acc. simpl. destruct Hin as [-> | Hin].
  - rewrite He. now exists e.
  - unfold rbind. destruct (format_attr obj a); [eauto|]. now apply IH.
Qed.

Lemma format_all_fails (attrs : list string) (objs : list value)
    (bad : value) :
  In bad objs ->
  (exists e, format_attrs attrs bad [] = inl e) ->
  exists e, format_all attrs objs = inl e.
Proof.
  intros Hin [e He]. induction objs as [|obj objs IH]; [inversion Hin|].
  simpl. destruct Hin as [-> | Hin].
  - rewrite He. now exists e.
  - unfold rbind. destruct (format_attrs attrs obj []); [eauto|].
    destruct (IH Hin) as [e' ->]. eauto.
Qed.

Lemma bad_timestamp_fails (obj : value) :
  bad_timestamp obj ->
  exists attr e,
    (attr = "created_at" \/ attr = "modified_at")
    /\ format_attr obj attr = inl e.
Proof.
  intros (attr & Hattr & Hbad). exists attr. unfold format_attr.
  assert (Ht : is_timestamp_attr attr = true)
    by (destruct Hattr as [-> | ->]; reflexivity).
  rewrite Ht.
  destruct (getattr_default obj attr) eqn:Ev; try contradiction;
    simpl; eauto.
Qed.

(** X18: one listed object whose creation or modification time is
    neither [None] nor a datetime (a text, a number) makes the whole
    listing fail: the tool returns an error payload and no dataset or
    example at all. *)
Theorem bad_timestamp_fails_the_listing (c : client) :
  (forall a1 a2 a3 a4 a5 a6 listed objs bad,
      c (Call "list_datasets" [] (list_datasets_kwargs a1 a2 a3 a4 a5 a6))
        = inr listed ->
      iterate listed = inr objs ->
      In bad objs ->
      bad_timestamp bad ->
      exists e,
        list_datasets_tool c a1 a2 a3 a4 a5 a6 []
        = ([Call "list_datasets" [] (list_datasets_kwargs a1 a2 a3 a4 a5 a6)],
           inr (error_payload ("Error fetching datasets: " ++ exn_str e))))
  /\ (forall a1 a2 a3 a4 listed objs bad,
      c (Call "list_examples" [] (list_examples_kwargs a1 a2 a3 a4))
        = inr listed ->
      iterate listed = inr objs ->
      In bad objs ->
      bad_timestamp bad ->
      exists e,
        list_examples_tool c a1 a2 a3 a4 []
        = ([Call "list_examples" [] (list_examples_kwargs a1 a2 a3 a4)],
           inr (error_payload ("Error fetching examples: " ++ exn_str e)))).
Proof.
  split.
  - intros a1 a2 a3 a4 a5 a6 listed objs bad Hc Hit Hin Hbad.
    destruct (bad_timestamp_fails bad Hbad) as (attr & e0 & Hattr & He0).
    destruct (format_all_fails dataset_attrs objs bad Hin) as [e He].
    { apply (format_attrs_fails bad dataset_attrs attr); [|eauto].
      destruct Hattr as [-> | ->]; simpl; tauto. }
    exists e.
    unfold list_datasets_tool, list_datasets, bind, try_except, invoke, lift,
      ret.
    cbv zeta. now rewrite Hc, Hit, He.
  - intros a1 a2 a3 a4 listed objs bad Hc Hit Hin Hbad.
    destruct (bad_timestamp_fails bad Hbad) as (attr & e0 & Hattr & He0).
    destruct (format_all_fails example_attrs objs bad Hin) as [e He].
    { apply (format_attrs_fails bad example_attrs attr); [|eauto].
      destruct Hattr as [-> | ->]; simpl; tauto. }
    exists e.
    unfold list_examples_tool, list_examples, bind, try_except, invoke, lift,
      ret.
    cbv zeta. now rewrite Hc, Hit, He.
Qed.

(** ** What a normal return looks like *)

(** X19: every normal return of [fetch_trace_tool] has the same eleven
    keys; "trace_id" and "id" hold the same text, [str] of the identifier
    of the first run the client listed, and "total_cost" holds [str] of the
    cost of that run, so "None" for a run without a cost. *)
Theorem trace_record_shape (c : client) (project_name trace_id : value) :
  post (trace_record c project_name trace_id)
       (fetch_trace c project_name trace_id).
Proof.
  unfold fetch_trace. post_steps; intros ? Hv; inversion Hv.
  match goal with
  | H1 : getattr _ "id" = inr ?a, H2 : getattr _ "id" = inr ?b |- _ =>
      rewrite H1 in H2; inversion H2; subst
  end.
  eexists _, _, _, _. split.
  { eexists _, _. split; [unfold trace_call; cbv zeta|]; eassumption. }
  split; [eassumption|]. split; [eassumption|].
  repeat split. now intros ->.
Qed.

Lemma child_info_keys (r : value) (x : Dict.t) :
  child_info r = inr x -> Dict.keys x = child_keys.
Proof.
  unfold child_info, rbind.
  destruct (getattr r "id"); [discriminate|].
  destruct (getattr r "name"); [discriminate|].
  destruct (getattr r "run_type"); [discriminate|].
  destruct (getattr r "error"); [discriminate|].
  destruct (getattr r "inputs"); [discriminate|].
  destruct (getattr r "outputs"); [discriminate|].
  intros E. now inversion E.
Qed.

Lemma select_children_keys (run_id : value) (children : list value)
    (selected : list Dict.t) :
  select_children run_id children = inr selected ->
  Forall (fun x => Dict.keys x = child_keys) selected.
Proof.
  intros E. apply select_children_spec in E.
  induction E as [|r x runs infos Hx _ IH]; constructor; [|exact IH].
  exact (child_info_keys r x Hx).
Qed.

Lemma fetch_child_runs_keys (c : client) (run run_id : value) :
  post (fun fetched => Forall (fun x => Dict.keys x = child_keys)
                              (fst fetched))
       (fetch_child_runs c run run_id).
Proof.
  unfold fetch_child_runs.
  apply post_try; [|intros e; apply post_ret; constructor].
  apply post_bind_invoke. intros listed _.
  apply post_bind_lift. intros children _.
  apply post_bind_lift. intros selected Hsel.
  pose proof (select_children_keys _ _ _ Hsel) as Hkeys.
  destruct (py_sorted start_time_key false selected) as [|sorted] eqn:Es;
    apply post_ret; simpl; [exact Hkeys|].
  unfold py_sorted in Es. rewrite with_keys_start in Es. simpl in Es.
  destruct (sort_keyed (map keyed_by_start selected)) as [|ks] eqn:Eks;
    [discriminate|].
  inversion Es. subst sorted.
  destruct (perm_keyed_by_start _ _ (sort_keyed_perm _ _ Eks)) as [_ Hperm].
  eapply Permutation_Forall; eassumption.
Qed.

(** X20: in every normal return of [fetch_run_tool], [child_run_count] is
    the number of mappings under [child_runs], and each of them has the
    same twelve keys. *)
Theorem run_record_shape (c : client) (run_id : value) :
  post run_record (fetch_run c run_id).
Proof.
  unfold fetch_run.
  destruct (eq_str run_id "null" || negb (truthy run_id));
    [apply post_ret; intros ? Hv; discriminate Hv|].
  apply post_try; [|intros e; apply post_ret; intros ? Hv; discriminate Hv].
  apply post_bind_invoke. intros run _.
  destruct (negb (truthy run));
    [apply post_ret; intros ? Hv; discriminate Hv|].
  apply post_bind_lift. intros info _.
  intros log log' o E. unfold bind in E.
  destruct (fetch_child_runs c run run_id log) as [l [e|fetched]] eqn:Ef;
    [discriminate|].
  inversion E. subst. intros v Hv. inversion Hv. subst.
  exists (fst fetched). simpl.
  destruct (attach_children_runs info fetched) as [H1 H2].
  split; [exact H1|]. split; [exact H2|].
  exact (fetch_child_runs_keys c run run_id _ _ _ Ef).
Qed.

(** ** The calls made on the client *)

Lemma reads_ret {A : Type} (n : nat) (x : A) : reads_at_most n (ret x).
Proof.
  intros log log' r E. inversion E. exists []. rewrite app_nil_r.
  repeat split; [simpl; lia | constructor].
Qed.

Lemma reads_raise {A : Type} (n : nat) (e : exn) :
  reads_at_most n (@raise A e).
Proof.
  intros log log' r E. inversion E. exists []. rewrite app_nil_r.
  repeat split; [simpl; lia | constructor].
Qed.

Lemma reads_bind_lift {A B : Type} (n : nat) (r : result A) (k : A -> M B) :
  (forall x, reads_at_most n (k x)) -> reads_at_most n (bind (lift r) k).
Proof.
  intros H log log' y E. unfold bind, lift in E. destruct r as [e|x].
  - inversion E. exists []. rewrite app_nil_r.
    repeat split; [simpl; lia | constructor].
  - exact (H x _ _ _ E).
Qed.

Lemma reads_bind_invoke {B : Type} (n : nat) (c : client) (q : call)
    (k : value -> M B) :
  In (method_of q) reading_methods ->
  (forall x, reads_at_most n (k x)) ->
  reads_at_most (S n) (bind (invoke c q) k).
Proof.
  intros Hq H log log' y E. unfold bind, invoke in E.
  destruct (c q) as [e|x].
  - inversion E. exists [q]. repeat split; [simpl; lia|].
    constructor; [exact Hq | constructor].
  - destruct (H x _ _ _ E) as (added & -> & Hlen & Hall).
    exists (q :: added). rewrite <- app_assoc. repeat split.
    + simpl. lia.
    + constructor; assumption.
Qed.

Lemma reads_bind {A B : Type} (n k : nat) (m : M A) (f : A -> M B) :
  reads_at_most n m -> (forall x, reads_at_most k (f x)) ->
  reads_at_most (n + k) (bind m f).
Proof.
  intros Hm Hf log log' y E. unfold bind in E.
  destruct (m log) as [l [e|x]] eqn:Em.
  - inversion E. subst. destruct (Hm _ _ _ Em) as (added & -> & Hlen & Hall).
    exists added. repeat split; [lia | assumption].
  - destruct (Hm _ _ _ Em) as (a1 & -> & Hl1 & Ha1).
    destruct (Hf x _ _ _ E) as (a2 & -> & Hl2 & Ha2).
    exists (a1 ++ a2). rewrite <- app_assoc. repeat split.
    + rewrite length_app. lia.
    + apply Forall_app. now split.
Qed.

Lemma reads_try {A : Type} (n : nat) (body : M A) (h : exn -> M A) :
  reads_at_most n body -> (forall e, reads_at_most 0 (h e)) ->
  reads_at_most n (try_except body h).
Proof.
  intros Hb Hh log log' y E. unfold try_except in E.
  destruct (body log) as [l [e|x]] eqn:Eb.
  - destruct (Hb _ _ _ Eb) as (a1 & -> & Hl1 & Ha1).
    destruct (Hh e _ _ _ E) as (a2 & -> & Hl2 & Ha2).
    exists (a1 ++ a2). rewrite <- app_assoc. repeat split.
    + rewrite length_app. lia.
    + apply Forall_app. now split.
  - inversion E. subst. exact (Hb _ _ _ Eb).
Qed.

Lemma reads_weaken {A : Type} (n n' : nat) (m : M A) :
  n <= n' -> reads_at_most n m -> reads_at_most n' m.
Proof.
  intros Hle H log log' r E. destruct (H _ _ _ E) as (added & ? & ? & ?).
  exists added. repeat split; [assumption | lia | assumption].
Qed.

(** One step through the body of a tool, counting its calls. *)
Ltac reads_step :=
  lazymatch goal with
  | |- reads_at_most _ (ret _) => apply reads_ret
  | |- reads_at_most _ (raise _) => apply reads_raise
  | |- reads_at_most _ (try_except _ _) =>
      apply reads_try; [|intros ?; apply reads_ret]
  | |- reads_at_most _ (bind (lift _) _) => apply reads_bind_lift; intros ?
  | |- reads_at_most _ (bind (invoke _ _) _) =>
      apply reads_bind_invoke; [simpl; tauto | intros ?]
  | |- reads_at_most _ (match ?x with _ => _ end) => destruct x
  | |- reads_at_most _ (let _ := _ in _) => cbv zeta
  end.

Lemma reads_tool (n : nat) (m : M outcome) :
  reads_at_most n m -> reads_at_most n (o <- m ;; ret (payload o)).
Proof.
  intros H. replace n with (n + 0) by lia.
  apply reads_bind; [exact H | intros x; apply reads_ret].
Qed.

Lemma fetch_child_runs_reads (c : client) (run run_id : value) :
  reads_at_most 1 (fetch_child_runs c run run_id).
Proof. unfold fetch_child_runs, children_call. repeat reads_step. Qed.

(** X21: whatever the input and the client, a tool calls only reading
    methods of the client: one call at most, two for [fetch_run_tool] (the
    run, then the runs of its trace). *)
Theorem tools_only_read (c : client) :
  (forall project_name trace_id,
      reads_at_most 1 (fetch_trace_tool c project_name trace_id))
  /\ (forall thread_id project_name,
      reads_at_most 1 (get_thread_history_tool c thread_id project_name))
  /\ (forall run_id, reads_at_most 2 (fetch_run_tool c run_id))
  /\ (forall project_name trace_id,
      reads_at_most 1 (get_project_runs_stats_tool c project_name trace_id))
  /\ (forall a1 a2 a3 a4 a5 a6,
      reads_at_most 1 (list_datasets_tool c a1 a2 a3 a4 a5 a6))
  /\ (forall a1 a2 a3 a4,
      reads_at_most 1 (list_examples_tool c a1 a2 a3 a4)).
Proof.
  repeat split; intros; apply reads_tool.
  - unfold fetch_trace. repeat reads_step.
  - unfold get_thread_history, history_call. repeat reads_step.
  - unfold fetch_run, read_call. repeat reads_step.
    replace 1 with (1 + 0) by lia.
    apply reads_bind; [apply fetch_child_runs_reads|].
    intros; apply reads_ret.
  - unfold get_project_runs_stats. repeat reads_step.
  - unfold list_datasets. repeat reads_step.
  - unfold list_examples. repeat reads_step.
Qed.

(** ** Runs that started at the same time *)

Lemma lex_ltb_antisym (a b : list nat) :
  lex_ltb a b = false -> lex_ltb b a = false -> a = b.
Proof.
  revert b. induction a as [|x a IH]; intros [|y b]; simpl; auto;
    try discriminate.
  destruct (Nat.ltb_spec x y), (Nat.eqb_spec x y), (Nat.ltb_spec y x),
    (Nat.eqb_spec y x); try discriminate; try lia.
  intros Ha Hb. subst. f_equal. now apply IH.
Qed.

Lemma dt_fields_inj (d e : datetime) : dt_fields d = dt_fields e -> d = e.
Proof. destruct d, e. unfold dt_fields. simpl. intros H. now inversion H. Qed.

Lemma datetime_is_spec (d : datetime) (v : value) :
  datetime_is d v = true <-> v = VDatetime d.
Proof.
  unfold datetime_is. destruct v; try (split; [discriminate | intros H; inversion H]).
  destruct (list_eq_dec Nat.eq_dec (dt_fields d0) (dt_fields d)) as [E | N].
  - apply dt_fields_inj in E. subst. tauto.
  - split; [discriminate|]. intros H. inversion H. subst. contradiction.
Qed.

Lemma datetime_is_unordered (d : datetime) (a b : value) :
  datetime_ltb a b = true ->
  datetime_is d a = true -> datetime_is d b = true -> False.
Proof.
  intros Hlt Ha Hb. apply datetime_is_spec in Ha, Hb. subst.
  simpl in Hlt. unfold dt_ltb in Hlt. now rewrite lex_ltb_irrefl in Hlt.
Qed.

(** X22: among the listed runs with the latest start time the first one
    listed is the latest run: the runs before it are older, the runs after
    it are not newer. *)
Theorem first_of_the_most_recent (pre post : list value) (latest : value)
    (d : datetime) :
  getattr latest "start_time" = inr (VDatetime d) ->
  Forall (older_than d) pre ->
  Forall (not_newer_than d) post ->
  latest_of (pre ++ latest :: post) latest.
Proof.
  intros Hd Hpre Hpost. unfold latest_of, py_sorted.
  set (key := fun r : value => (getattr_default r "start_time", r)).
  set (sel := fun kx : value * value => datetime_is d (fst kx)).
  assert (Hstart : forall r, In r (pre ++ latest :: post) ->
            exists e, getattr r "start_time" = inr (VDatetime e)
                      /\ (dt_ltb d e = false)).
  { intros r Hr. apply in_app_or in Hr. destruct Hr as [Hr | [<- | Hr]].
    - destruct (proj1 (Forall_forall _ _) Hpre r Hr) as (e & He & Hlt).
      exists e. split; [exact He|]. now apply lex_ltb_asym.
    - exists d. split; [exact Hd|]. apply lex_ltb_irrefl.
    - exact (proj1 (Forall_forall _ _) Hpost r Hr). }
  rewrite with_keys_getattr.
  2:{ apply Forall_forall. intros r Hr.
      destruct (Hstart r Hr) as (e & He & _); eauto. }
  fold key. simpl.
  assert (HK : Forall (fun kx => is_datetime (fst kx))
                      (rev (map key (pre ++ latest :: post)))).
  { apply Forall_forall. intros kx Hin. apply in_rev, in_map_iff in Hin.
    destruct Hin as (r & <- & Hr). destruct (Hstart r Hr) as (e & He & _).
    unfold key, getattr_default. simpl. rewrite He. now exists e. }
  destruct (sort_keyed_ordered _ is_datetime datetime_ltb py_lt_datetime
              datetime_ltb_asym _ HK) as (s & Es & Hperm & Hsorted).
  rewrite Es. simpl.
  assert (Hkl : key latest = (VDatetime d, latest)).
  { unfold key, getattr_default. now rewrite Hd. }
  assert (Hin : In (key latest) s).
  { eapply Permutation_in; [exact Hperm|]. apply -> in_rev.
    apply in_map, in_or_app. right. now left. }
  destruct (rev s) as [|m rest] eqn:Erev.
  { apply in_rev in Hin. rewrite Erev in Hin. inversion Hin. }
  assert (Hs_eq : s = rev rest ++ [m]).
  { rewrite <- (rev_involutive s), Erev. reflexivity. }
  assert (Hs : Forall (fun kx => is_datetime (fst kx)) s)
    by (eapply Permutation_Forall; eauto).
  pose proof Hsorted as Hsorted'. rewrite Hs_eq in Hs, Hsorted'.
  assert (Hmax := sorted_last _ is_datetime datetime_ltb datetime_ltb_irrefl
                    datetime_ge_trans _ _ Hs Hsorted').
  rewrite <- Hs_eq in Hmax.
  assert (Hlatest := proj1 (Forall_forall _ _) Hmax _ Hin).
  assert (Hm : In m (map key (pre ++ latest :: post))).
  { apply in_rev. eapply Permutation_in;
      [apply Permutation_sym; exact Hperm|].
    rewrite Hs_eq. apply in_or_app. right. now left. }
  apply in_map_iff in Hm. destruct Hm as (r & Hr_eq & Hr).
  assert (Hsel_m : sel m = true).
  { destruct (Hstart r Hr) as (e & He & Hle).
    subst m. unfold sel, key, getattr_default. simpl. rewrite He.
    apply datetime_is_spec. f_equal. apply dt_fields_inj.
    apply lex_ltb_antisym; [|exact Hle].
    unfold may_precede, key, getattr_default in Hlatest. simpl in Hlatest.
    rewrite He, Hd in Hlatest. exact Hlatest. }
  assert (Hstable :
            filter sel s = filter sel (rev (map key (pre ++ latest :: post)))).
  { exact (sort_keyed_filter _ is_datetime datetime_ltb py_lt_datetime
             (datetime_is d) (datetime_is_unordered d) _ _ HK Es). }
  assert (Hpre_none : filter sel (map key pre) = []).
  { clear - Hpre. induction Hpre as [|r pre (e & He & Hlt) _ IH];
      simpl; [reflexivity|].
    unfold sel, key, getattr_default at 1. simpl. rewrite He.
    destruct (datetime_is d (VDatetime e)) eqn:Eis; [|exact IH].
    apply datetime_is_spec in Eis. inversion Eis. subst.
    unfold dt_ltb in Hlt. now rewrite lex_ltb_irrefl in Hlt. }
  assert (Hsel_l : sel (key latest) = true)
    by (rewrite Hkl; apply datetime_is_spec; reflexivity).
  rewrite Hs_eq in Hstable. rewrite filter_app in Hstable.
  rewrite !filter_rev, map_app, filter_app, Hpre_none in Hstable.
  cbn [map filter app] in Hstable.
  rewrite Hsel_m, Hsel_l in Hstable. cbn [rev app] in Hstable.
  apply app_inj_tail in Hstable. destruct Hstable as [_ Hm_eq].
  exists (map snd rest). rewrite Hm_eq, Hkl. reflexivity.
Qed.

(** * The rules script *)

Lemma list_rules_status (c : client) (api_key params resp status : value)
    (log : list call) :
  c (rules_request api_key params) = inr resp ->
  getattr resp "status_code" = inr status ->
  list_rules c api_key params log
  = if ne_int status 200
    then (log ++ [rules_request api_key params],
          match getattr resp "text" with
          | inr text =>
              inl (Raised ("List rules failed: " ++ py_str status ++ " "
                           ++ py_str text))
          | inl e => inl e
          end)
    else ((log ++ [rules_request api_key params]) ++ [Call "json" [resp] []],
          c (Call "json" [resp] [])).
Proof.
  intros Hc Hstatus. unfold list_rules, bind, invoke, lift, raise.
  rewrite Hc, Hstatus. destruct (ne_int status 200); [|reflexivity].
  now destruct (getattr resp "text").
Qed.

Lemma rules_request_sent (api_key params sent : value) :
  params_or_empty params sent ->
  rules_request api_key params = rules_get api_key sent.
Proof.
  unfold rules_request, rules_get, auth_headers, BASE_URL.
  now intros [[-> ->] | [-> ->]].
Qed.

(** X23: [list_rules] makes one GET request on
    https://api.smith.langchain.com/api/v1/runs/rules, with the API key
    under "X-API-Key" in the headers, the parameters it was given (an empty
    mapping when they are [None] or empty) and a timeout of 30. When the
    status of the response is not 200 it raises an exception whose text
    holds the status and the text of the response, and does not decode the
    body; when the status is 200 it returns what decoding the body
    returns. *)
Theorem list_rules_checks_the_status (c : client)
    (api_key params sent resp status : value) (log : list call) :
  params_or_empty params sent ->
  c (rules_get api_key sent) = inr resp ->
  getattr resp "status_code" = inr status ->
  (ne_int status 200 = true ->
   forall text,
     getattr resp "text" = inr text ->
     list_rules c api_key params log
     = (log ++ [rules_get api_key sent],
        inl (Raised ("List rules failed: " ++ py_str status ++ " "
                     ++ py_str text))))
  /\ (ne_int status 200 = false ->
      list_rules c api_key params log
      = ((log ++ [rules_get api_key sent]) ++ [Call "json" [resp] []],
         c (Call "json" [resp] []))).
Proof.
  intros Hsent Hc Hstatus.
  rewrite <- (rules_request_sent api_key params sent Hsent) in *.
  rewrite (list_rules_status _ _ _ _ _ _ Hc Hstatus).
  split; intros Hne; rewrite Hne; [|reflexivity].
  intros text Htext. now rewrite Htext.
Qed.

Lemma list_rules_answered (c : client) (api_key params resp body : value)
    (log : list call) :
  answered c (rules_request api_key params) resp body ->
  list_rules c api_key params log
  = ((log ++ [rules_request api_key params]) ++ [Call "json" [resp] []],
     inr body).
Proof.
  intros (Hc & Hstatus & Hbody).
  rewrite (list_rules_status _ _ _ _ _ _ Hc Hstatus). simpl.
  now rewrite Hbody.
Qed.

(** X24: [get_rule_by_id] asks the rules endpoint for the identifier as a
    one-element list. When the answer is empty it prints that no rule was
    found and returns [None]; when it is a list it prints and returns its
    first rule; and an exception of [list_rules] goes through it uncaught,
    with nothing printed. *)
Theorem get_rule_by_id_outcomes (json_dumps : dumper) (c : client)
    (api_key rule_id : value) (log : list call) :
  (forall resp body,
      answered c (rules_request api_key (by_id rule_id)) resp body ->
      truthy body = false ->
      get_rule_by_id json_dumps c api_key rule_id log
      = (((log ++ [rules_request api_key (by_id rule_id)])
          ++ [Call "json" [resp] []])
         ++ [printed ("No rule found with id: " ++ py_str rule_id)],
         inr VNone))
  /\ (forall resp rule rest dumped,
      answered c (rules_request api_key (by_id rule_id)) resp
               (VList (rule :: rest)) ->
      json_dumps rule = inr dumped ->
      get_rule_by_id json_dumps c api_key rule_id log
      = (((log ++ [rules_request api_key (by_id rule_id)])
          ++ [Call "json" [resp] []])
         ++ [printed ("Rule details:" ++ newline ++ dumped)],
         inr rule))
  /\ (forall log' e,
      list_rules c api_key (by_id rule_id) log = (log', inl e) ->
      get_rule_by_id json_dumps c api_key rule_id log = (log', inl e)).
Proof.
  split; [|split].
  - intros resp body Hans Hfalsy. unfold get_rule_by_id, bind.
    fold (by_id rule_id). rewrite (list_rules_answered _ _ _ _ _ _ Hans).
    now rewrite Hfalsy.
  - intros resp rule rest dumped Hans Hdump. unfold get_rule_by_id, bind.
    fold (by_id rule_id). rewrite (list_rules_answered _ _ _ _ _ _ Hans).
    simpl. unfold lift. now rewrite Hdump.
  - intros log' e He. unfold get_rule_by_id, bind. fold (by_id rule_id).
    now rewrite He.
Qed.

Lemma print_rules_last (ds : list Dict.t) (r : option value)
    (log : list call) :
  Forall (fun d => Dict.has "id" d = true) ds ->
  print_rules (map VDict ds) r log
  = (log ++ map rule_line ds,
     inr (match ds with [] => r | _ => Some (VDict (last ds [])) end)).
Proof.
  intros Hall. revert r log.
  induction Hall as [|d ds Hd _ IH]; intros r log; simpl.
  - unfold ret. now rewrite app_nil_r.
  - unfold bind, lift, print. simpl. unfold Dict.has in Hd.
    unfold rule_line, rule_id_of.
    destruct (Dict.get "id" d) as [id|]; [|discriminate].
    rewrite IH. rewrite <- app_assoc. simpl.
    now destruct ds.
Qed.

Lemma last_in {A : Type} (l : list A) (d : A) :
  l <> [] -> In (last l d) l.
Proof.
  induction l as [|x l IH]; [congruence|]. intros _.
  destruct l as [|y l]; [now left|].
  right. apply IH. discriminate.
Qed.

(** X25: the script prints every listed rule and then looks up the last
    one listed; when no rule is listed it raises "name 'r' is not defined"
    right after the listing. *)
Theorem rules_main_looks_up_the_last_rule (json_dumps : dumper) (c : client)
    (api_key resp : value) :
  (answered c (rules_request api_key by_name) resp (VList []) ->
   rules_main json_dumps c api_key []
   = ([printed "=== All rules (id :: name) ===";
       rules_request api_key by_name; Call "json" [resp] []],
      inl (Raised "name 'r' is not defined")))
  /\ (forall d ds,
      answered c (rules_request api_key by_name) resp
               (VList (map VDict (d :: ds))) ->
      Forall (fun d => Dict.has "id" d = true) (d :: ds) ->
      rules_main json_dumps c api_key []
      = then_announce
          (get_rule_by_id json_dumps c api_key (rule_id_of (last (d :: ds) []))
             ([printed "=== All rules (id :: name) ===";
               rules_request api_key by_name; Call "json" [resp] []]
              ++ map rule_line (d :: ds)
              ++ [printed (newline ++ "=== Selected rule ===")]))).
Proof.
  split.
  - intros Hans. unfold rules_main, bind at 1. simpl print.
    unfold print at 1. cbv zeta. unfold bind at 1. fold by_name.
    rewrite (list_rules_answered _ _ _ _ _ _ Hans). reflexivity.
  - intros d ds Hans Hall.
    remember (d :: ds) as rules eqn:Erules.
    assert (Hne : rules <> []) by (subst; discriminate).
    assert (Hlast : print_rules (map VDict rules) None
                      ([printed "=== All rules (id :: name) ==="]
                       ++ [rules_request api_key by_name]
                       ++ [Call "json" [resp] []])
                    = (([printed "=== All rules (id :: name) ==="]
                        ++ [rules_request api_key by_name]
                        ++ [Call "json" [resp] []]) ++ map rule_line rules,
                       inr (Some (VDict (last rules []))))).
    { rewrite (print_rules_last rules None _ Hall).
      destruct rules; [congruence | reflexivity]. }
    assert (Hid : exists id, Dict.get "id" (last rules []) = Some id).
    { pose proof (proj1 (Forall_forall _ _) Hall _ (last_in rules [] Hne))
        as H.
      unfold Dict.has in H.
      destruct (Dict.get "id" (last rules [])) as [id|];
        [now exists id | discriminate]. }
    destruct Hid as [id Hid].
    unfold rule_id_of. rewrite Hid.
    unfold rules_main, bind at 1. unfold print at 1. cbv zeta.
    unfold bind at 1. fold by_name.
    rewrite (list_rules_answered _ _ _ _ _ _ Hans).
    unfold bind at 1. unfold lift at 1. cbn [iterate].
    unfold bind at 1. simpl app in Hlast |- *. unfold printed in *.
    rewrite Hlast.
    unfold bind at 1. unfold lift at 1. cbn [getitem]. rewrite Hid.
    unfold bind at 1. unfold print at 1. unfold bind at 1.
    rewrite <- ?app_assoc. simpl app.
    destruct (get_rule_by_id json_dumps c api_key id _) as [log' [e|v]];
      reflexivity.
Qed.

(** * The dataset test script *)

Lemma is_success_has_success (v : value) :
  is_success v = true -> has_success v = true.
Proof.
  destruct v; try discriminate. unfold is_success, has_success, dict_has,
    Dict.has.
  now destruct (Dict.get "success" entries).
Qed.

Lemma success_count_le (results : Dict.t) :
  success_count results <= total_count results.
Proof.
  unfold success_count, total_count.
  induction results as [|kv results IH]; simpl; [lia|].
  destruct (is_success (snd kv)) eqn:Es.
  - rewrite (is_success_has_success _ Es). simpl. lia.
  - destruct (has_success (snd kv)); simpl; lia.
Qed.

Lemma only_successes_counts (results : Dict.t) :
  only_successes results -> success_count results = total_count results.
Proof.
  unfold success_count, total_count, only_successes.
  induction 1 as [|kv results Hkv _ IH]; simpl; [reflexivity|].
  destruct (has_success (snd kv)) eqn:Eh.
  - rewrite (Hkv eq_refl). simpl. now rewrite IH.
  - destruct (is_success (snd kv)) eqn:Es; [|exact IH].
    apply is_success_has_success in Es. congruence.
Qed.

(** X26: in a line of the summary, the number of successful operations
    is at most the number of operations, which counts the entries that are
    mappings with a "success" key; the two are equal when every such entry
    reports a true "success". Entries without that key, like an "error"
    text, count in neither. *)
Theorem summary_counts (results : Dict.t) :
  success_count results <= total_count results
  /\ (only_successes results -> success_count results = total_count results).
Proof.
  split; [apply success_count_le | apply only_successes_counts].
Qed.

Lemma dataset_test_paths (c : client) (hex : string) (kv now : value) :
  exists log d,
    test_datasets_operations c hex kv now []
    = (log, inr (VDict [("datasets", VDict d)]))
    /\ Dict.has "error" d = negb (Dict.has "delete" d)
    /\ (Dict.has "update_tag" d = false ->
        called "delete_dataset" log = false)
    /\ only_successes d
    /\ (Dict.has "error" d = false ->
        Dict.keys d = dataset_test_steps
        /\ methods_called log = dataset_test_methods).
Proof.
  unfold test_datasets_operations, rtry, test_datasets_body.
  unfold rthen, run, record, print, invoke, lift.
  repeat lazymatch goal with
    | |- context [match c ?q with _ => _ end] => destruct (c q)
    | |- context [match iterate ?v with _ => _ end] => destruct (iterate v)
    | |- context [match getattr ?v ?n with _ => _ end] =>
        destruct (getattr v n)
    | |- context [match (if ?b then ?x else ?y) with _ => _ end] =>
        destruct (if b then x else y)
    end.
  all: eexists _, _; split; [reflexivity|].
  all: split; [reflexivity|].
  all: split; [intros H; first [reflexivity | discriminate H]|].
  all: split;
    [repeat constructor; intros H; first [reflexivity | discriminate H]|].
  all: intros H; first [discriminate H | split; reflexivity].
Qed.

(** X27: whatever the client does, [test_datasets_operations] returns its
    results and never raises. The results end with either the "delete"
    entry or an "error" entry, never both. [delete_dataset] is called only
    after the tag update was recorded: when an earlier step fails, the
    dataset that was created is left behind. And every entry that reports
    a "success" reports a true one, so the summary shows n/n for this
    section whatever failed. *)
Theorem dataset_test_outcome (c : client) (hex : string) (kv now : value) :
  exists log d,
    test_datasets_operations c hex kv now []
    = (log, inr (VDict [("datasets", VDict d)]))
    /\ Dict.has "error" d = negb (Dict.has "delete" d)
    /\ (Dict.has "update_tag" d = false ->
        called "delete_dataset" log = false)
    /\ only_successes d
    /\ success_count d = total_count d.
Proof.
  destruct (dataset_test_paths c hex kv now)
    as (log & d & Hrun & Herr & Hdel & Hok & _).
  exists log, d. repeat split; try assumption.
  now apply only_successes_counts.
Qed.

(** X28: when the results of [test_datasets_operations] have no "error"
    entry, all eight steps ran: the results have their eight entries in the
    order of the steps, and the client was called once for each, in that
    order, the deletion last. *)
Theorem dataset_test_runs_all_steps (c : client) (hex : string)
    (kv now : value) (log : list call) (d : Dict.t) :
  test_datasets_operations c hex kv now []
  = (log, inr (VDict [("datasets", VDict d)])) ->
  Dict.has "error" d = false ->
  Dict.keys d = dataset_test_steps
  /\ methods_called log = dataset_test_methods.
Proof.
  intros Hrun Herr.
  destruct (dataset_test_paths c hex kv now)
    as (log' & d' & Hrun' & _ & _ & _ & Hall).
  rewrite Hrun in Hrun'. inversion Hrun'. subst. now apply Hall.
Qed.

End Tools.

(** * The properties at the sample clients *)

(** C2 at an absent project name and the text "null" for the trace. *)
Lemma scope_guard_sample :
  (absent VNone /\ absent (VStr "null"))
  /\ fetch_trace_tool plain_str stats_client VNone (VStr "null") []
     = ([], inr scope_error)
  /\ get_project_runs_stats_tool stats_client VNone (VStr "null") []
     = ([], inr scope_error).
Proof.
  split.
  - split; [left | right]; reflexivity.
  - apply (scope_guard_without_call plain_str stats_client VNone (VStr "null"));
      [left | right]; reflexivity.
Defined.

(** C3 at the trace "t-1" alone, with a client that would answer. *)
Lemma stats_by_trace_alone_sample :
  stats_client (stats_call VNone (VStr "t-1")) = inr (VDict sample_stats)
  /\ get_project_runs_stats_tool stats_client VNone (VStr "t-1") []
     = ([], inr (VDict [("error",
          VStr ("Error getting project runs stats: "
                ++ "'NoneType' object has no attribute 'split'"))])).
Proof.
  split; [reflexivity|].
  apply (stats_by_trace_alone_is_error stats_client VNone (VStr "t-1"));
    [left|]; reflexivity.
Defined.

(** C7 at a client whose statistics hold [run_facets]. *)
Lemma qualified_project_name_sample :
  get_project_runs_stats_tool stats_client (VStr "acme/widgets") VNone []
  = ([stats_call (VList [VStr "widgets"]) VNone],
     inr (VDict [("run_count", VInt 3); ("error_rate", VInt 0);
                 ("project_name", VStr "widgets")]))
  /\ get_project_runs_stats_tool stats_client (VStr "widgets") VNone []
     = ([stats_call (VList [VStr "widgets"]) VNone],
        inr (VDict [("run_count", VInt 3); ("error_rate", VInt 0);
                    ("project_name", VStr "widgets")])).
Proof.
  destruct (qualified_project_name stats_client VNone sample_stats eq_refl)
    as (Htool & _ & _).
  split; [apply (Htool "acme/widgets") | apply (Htool "widgets")];
    [left | right]; reflexivity.
Defined.

(** C1 as stated fails for [fetch_trace_tool]: the mapping of a trace that
    was fetched has an "error" key, the error field of the run. *)
Lemma fetched_trace_has_error_key :
  ~ error_key_only_on_failure
      (fetch_trace plain_str one_trace (VStr "proj") VNone).
Proof.
  intros H.
  destruct (H [] _ _ eq_refl eq_refl) as [msg Hmsg]. discriminate Hmsg.
Qed.

(** C5 as stated fails: the result has an "error" key, the error field of
    the run. *)
Lemma listing_failure_has_error_key :
  ~ listing_failure_claim plain_str unordered failing_listing (VStr "R").
Proof.
  intros H.
  destruct (H root_run
              (match run_info_of plain_str root_run with
               | inr info => info
               | inl _ => []
               end)
              (Raised "timed out"))
    as (log & d & Htool & _ & _ & _ & _ & Herr).
  - repeat split; reflexivity.
  - reflexivity.
  - vm_compute in Htool. inversion Htool. subst d.
    vm_compute in Herr. discriminate Herr.
Qed.

(** C5 at a listing that times out. *)
Lemma listing_failure_sample :
  exists info,
    main_run plain_str failing_listing (VStr "R") root_run info
    /\ fetch_run_tool plain_str unordered failing_listing (VStr "R") []
       = ([read_call (VStr "R"); children_call plain_str root_run],
          inr (VDict (attach_children info
                        ([], Some (Raised "timed out")))))
    /\ Dict.get "child_runs_error"
         (attach_children info ([], Some (Raised "timed out")))
       = Some (VStr "Could not fetch child runs: timed out")
    /\ Dict.get "error"
         (attach_children info ([], Some (Raised "timed out")))
       = Some VNone.
Proof.
  exists (match run_info_of plain_str root_run with
          | inr info => info
          | inl _ => []
          end).
  assert (Hm : main_run plain_str failing_listing (VStr "R") root_run
                 (match run_info_of plain_str root_run with
                  | inr info => info
                  | inl _ => []
                  end))
    by (repeat split; reflexivity).
  split; [exact Hm|].
  destruct (listing_failure_keeps_run plain_str unordered failing_listing
              (VStr "R") root_run _ (Raised "timed out") Hm eq_refl)
    as (Htool & _ & _ & _ & Hnote & _).
  split; [exact Htool|]. split; [exact Hnote | reflexivity].
Defined.

(** C4 at two children of "R", the first without a start time: the tool
    reports the failed comparison and no sorted children. *)
Lemma missing_start_time_sample :
  exists e d,
    fetch_run_tool plain_str unordered missing_start_time (VStr "R") []
    = ([read_call (VStr "R"); children_call plain_str root_run],
       inr (VDict d))
    /\ Dict.get "child_runs_error" d = Some (child_runs_note e)
    /\ Dict.get "child_run_count" d = Some (VInt 2).
Proof.
  destruct (missing_start_time_fails_sort plain_str unordered
              missing_start_time (VStr "R") root_run
              (VList [sample_run "A" "plan" (uuid "R") [];
                      sample_run "B" "search" (uuid "R")
                        [("start_time", at_hour 11)]])
              (match run_info_of plain_str root_run with
               | inr info => info
               | inl _ => []
               end)
              [sample_run "A" "plan" (uuid "R") [];
               sample_run "B" "search" (uuid "R")
                 [("start_time", at_hour 11)]]
              (match select_children plain_str (VStr "R")
                       [sample_run "A" "plan" (uuid "R") [];
                        sample_run "B" "search" (uuid "R")
                          [("start_time", at_hour 11)]] with
               | inr selected => selected
               | inl _ => []
               end))
    as (e & d & Htool & Hnote & Hcount).
  - repeat split; reflexivity.
  - reflexivity.
  - reflexivity.
  - reflexivity.
  - simpl. lia.
  - left. reflexivity.
  - exists e, d. split; [exact Htool|]. split; [exact Hnote | exact Hcount].
Defined.

(** C6 at three listed runs with the parents "R", "R" and "X": the two
    children of "R" are returned, the earlier one first. *)
Lemma children_by_parent_sample :
  exists info a b,
    fetch_run_tool plain_str unordered three_runs (VStr "R") []
    = ([read_call (VStr "R"); children_call plain_str root_run],
       inr (VDict (attach_children info ([a; b], None))))
    /\ Dict.get "id" a = Some (VStr "A")
    /\ Dict.get "id" b = Some (VStr "B")
    /\ start_text a = "2024-05-17 10:30:00"
    /\ start_text b = "2024-05-17 11:30:00".
Proof.
  destruct (children_by_parent plain_str unordered three_runs (VStr "R")
              root_run
              (VList
                 [sample_run "B" "search" (uuid "R")
                    [("start_time", at_hour 11)];
                  sample_run "A" "plan" (uuid "R")
                    [("start_time", at_hour 10)];
                  sample_run "C" "other" (uuid "X")
                    [("start_time", at_hour 10)]])
              (match run_info_of plain_str root_run with
               | inr info => info
               | inl _ => []
               end)
              [sample_run "B" "search" (uuid "R")
                 [("start_time", at_hour 11)];
               sample_run "A" "plan" (uuid "R")
                 [("start_time", at_hour 10)];
               sample_run "C" "other" (uuid "X")
                 [("start_time", at_hour 10)]])
    as (_ & selected & sorted & _ & _ & _ & Htool & Hruns & _).
  - repeat split; reflexivity.
  - reflexivity.
  - reflexivity.
  - repeat constructor; intros _; eexists; (split; [reflexivity|]);
      eexists; reflexivity.
  - assert (Hcomputed := Htool). vm_compute in Hcomputed.
    destruct sorted as [|a [|b [|]]]; try discriminate Hcomputed.
    exists (match run_info_of plain_str root_run with
            | inr info => info
            | inl _ => []
            end), a, b.
    split; [exact Htool|].
    inversion Hcomputed. repeat split; reflexivity.
Defined.

(** C8 at a thread of two runs, the later one a chat completion. *)
Lemma history_of_chat_completion_sample :
  get_thread_history_tool plain_str unordered chat_thread
    (VStr "th") (VStr "proj") []
  = ([history_call plain_str (VStr "th") (VStr "proj")],
     inr (VDict [("result", VList [message "user" "hello";
                                   message "assistant" "hi"])])).
Proof.
  apply (history_of_chat_completion plain_str unordered chat_thread
           (VStr "th") (VStr "proj") (VList [older_run; hello_run]) hello_run
           [older_run; hello_run]).
  - reflexivity.
  - reflexivity.
  - exists [older_run]. reflexivity.
  - reflexivity.
  - reflexivity.
Defined.

(** C10 at a latest run whose outputs have an empty "choices" list next to
    a "message". *)
Lemma choices_key_hides_message_sample :
  get_thread_history_tool plain_str unordered hidden_message_thread
    (VStr "th") (VStr "proj") []
  = ([history_call plain_str (VStr "th") (VStr "proj")],
     inr (VDict [("error",
                  VStr "No messages found in the run for thread th")])).
Proof.
  apply (choices_key_hides_message plain_str unordered hidden_message_thread
           (VStr "th") (VStr "proj")
           (VList [older_run; hidden_message_run]) hidden_message_run
           (VList []) (message "assistant" "hi")
           [older_run; hidden_message_run]
           [("choices", VList []); ("message", message "assistant" "hi")]).
  - reflexivity.
  - reflexivity.
  - exists [older_run]. reflexivity.
  - right. exists (VDict [("prompt", VStr "hello")]). split; reflexivity.
  - reflexivity.
  - reflexivity.
  - reflexivity.
  - exact I.
Defined.

(** C9 at a dataset without [modified_at] and an example without
    [metadata]. *)
Lemma missing_attributes_sample :
  exists d x,
    list_datasets_tool dataset_client VNone VNone VNone VNone VNone (VInt 20) []
    = ([Call "list_datasets" [] [("limit", VInt 20)]],
       inr (VDict [("datasets", VList [VDict d]); ("total_count", VInt 1)]))
    /\ Dict.get "modified_at" d = Some VNone
    /\ Dict.get "created_at" d = Some (VStr "2024-05-17T07:30:00")
    /\ list_examples_tool dataset_client (VStr "D") VNone VNone VNone []
       = ([Call "list_examples" [] [("dataset_id", VStr "D")]],
          inr (VDict [("examples", VList [VDict x]); ("total_count", VInt 1)]))
    /\ Dict.get "metadata" x = Some VNone.
Proof.
  destruct (missing_attributes_are_none dataset_client)
    as (_ & Hdatasets & Hexamples & _).
  assert (Hok : forall obj, obj = sample_dataset \/ obj = sample_example ->
                            timestamps_ok obj).
  { intros obj Hobj attr Hattr. unfold is_timestamp_attr in Hattr.
    apply orb_prop in Hattr.
    destruct Hattr as [Hattr | Hattr]; apply String.eqb_eq in Hattr;
      subst attr; destruct Hobj as [-> | ->]; vm_compute; eauto. }
  destruct (Hdatasets VNone VNone VNone VNone VNone (VInt 20)
              (VList [sample_dataset]) [sample_dataset] eq_refl eq_refl)
    as (ds & Hd & Hpd).
  { constructor; [apply Hok; now left | constructor]. }
  destruct (Hexamples (VStr "D") VNone VNone VNone
              (VList [sample_example]) [sample_example] eq_refl eq_refl)
    as (xs & Hx & Hpx).
  { constructor; [apply Hok; now right | constructor]. }
  inversion Hpd as [|? d ? ds' Hd1 Hd2]. subst. inversion Hd2. subst.
  inversion Hpx as [|? x ? xs' Hx1 Hx2]. subst. inversion Hx2. subst.
  exists d, x. split; [exact Hd|].
  split; [apply (Hd1 "modified_at"); [vm_compute; tauto | reflexivity]|].
  split; [apply (proj1 (Hd1 "created_at" ltac:(vm_compute; tauto)))|].
  split; [exact Hx|].
  apply (Hx1 "metadata"); [vm_compute; tauto | reflexivity].
Defined.

(** * The further properties at the sample clients *)

(** X1 at the empty text. *)
Lemma run_id_guard_sample :
  fetch_run_tool plain_str unordered three_runs (VStr "") []
  = ([], inr (error_payload "Error: run_id must be provided.")).
Proof.
  apply (run_id_guard_without_call plain_str unordered three_runs (VStr "")).
  left. reflexivity.
Defined.

(** X2 at a client that hands out [None]. *)
Lemma run_not_found_sample :
  fetch_run_tool plain_str unordered nothing_found (VStr "R") []
  = ([read_call (VStr "R")],
     inr (error_payload "No run found with ID: R")).
Proof.
  apply (run_not_found plain_str unordered nothing_found (VStr "R") VNone);
    [split| |]; reflexivity.
Defined.

(** X3 at a lookup by trace identifier alone. *)
Lemma no_runs_message_sample :
  fetch_trace_tool plain_str nothing_found VNone (VStr "T") []
  = ([trace_call VNone (VStr "T")],
     inr (error_payload "No runs found for project_name: None")).
Proof.
  apply (no_runs_message_names_project plain_str nothing_found VNone
           (VStr "T") (VList []));
    reflexivity.
Defined.

(** X4 at a client that cannot be reached. *)
Lemma client_exception_sample :
  fetch_trace_tool plain_str unreachable (VStr "proj") VNone []
  = ([trace_call (VStr "proj") VNone],
     inr (error_payload "Error fetching last trace: connection refused"))
  /\ get_project_runs_stats_tool unreachable (VStr "acme/widgets") VNone []
     = ([stats_call_for "acme/widgets" VNone],
        inr (error_payload
               "Error getting project runs stats: connection refused")).
Proof.
  destruct (client_exception_is_reported plain_str unordered unreachable
              (Raised "connection refused")) as (Htrace & _ & _ & Hstats).
  split.
  - apply Htrace; reflexivity.
  - apply Hstats; [discriminate | reflexivity | reflexivity].
Defined.

(** X5 at a client that cannot be reached. *)
Lemma dataset_client_exception_sample :
  list_datasets_tool unreachable VNone VNone VNone VNone VNone (VInt 20) []
  = ([Call "list_datasets" [] [("limit", VInt 20)]],
     inr (error_payload "Error fetching datasets: connection refused")).
Proof.
  apply (proj1 (dataset_client_exception_is_reported unreachable
                  (Raised "connection refused")));
    reflexivity.
Defined.

(** X6 at a run without token count. *)
Lemma trace_requires_attributes_sample :
  exists missing,
    In missing fetch_trace_required
    /\ lacks bare_attrs missing
    /\ fetch_trace_tool plain_str bare_client (VStr "proj") VNone []
       = ([trace_call (VStr "proj") VNone],
          inr (error_payload ("Error fetching last trace: "
                              ++ no_attribute "Run" missing))).
Proof.
  apply (trace_requires_attributes plain_str unordered bare_client
           (VStr "proj") VNone (VList [VObj "Run" "bare" bare_attrs]) []
           "Run" "bare" bare_attrs "total_tokens");
    try reflexivity.
  simpl. tauto.
Defined.

(** X7 at a run without a name. *)
Lemma run_requires_attributes_sample :
  exists missing,
    In missing fetch_run_required
    /\ lacks bare_attrs missing
    /\ fetch_run_tool plain_str unordered bare_client (VStr "T") []
       = ([read_call (VStr "T")],
          inr (error_payload ("Error fetching run: "
                              ++ no_attribute "Run" missing))).
Proof.
  apply (run_requires_attributes plain_str unordered bare_client (VStr "T")
           "Run" "bare" bare_attrs "name");
    try reflexivity.
  - split; reflexivity.
  - simpl. tauto.
Defined.

(** X8 at a run with the six attributes only. *)
Lemma optional_run_attributes_sample :
  exists info,
    run_info_of plain_str (VObj "Run" "agent" minimal_attrs) = inr info
    /\ Dict.get "latency_ms" info = Some VNone
    /\ Dict.get "tags" info = Some (VList []).
Proof.
  destruct (optional_run_attributes plain_str unordered "Run" "agent"
              minimal_attrs) as (info & Hinfo & Hopt).
  - intros a Ha. simpl in Ha.
    repeat destruct Ha as [<- | Ha]; try contradiction; eexists; reflexivity.
  - exists info. split; [exact Hinfo|]. split.
    + apply (Hopt "latency" "latency_ms" VNone); [simpl; tauto | reflexivity].
    + apply (Hopt "tags" "tags" (VList [])); [simpl; tauto | reflexivity].
Defined.


(** X10 at two children that started at the same time. *)
Lemma children_sort_is_stable_sample :
  exists selected sorted,
    infos_of plain_str (filter (is_child_of plain_str (VStr "R")) simultaneous)
      selected
    /\ filter (started_at "2024-05-17 10:30:00") sorted
       = filter (started_at "2024-05-17 10:30:00") selected.
Proof.
  destruct (children_sort_is_stable plain_str unordered simultaneous_children
              (VStr "R") root_run (VList simultaneous)
              (match run_info_of plain_str root_run with
               | inr info => info
               | inl _ => []
               end)
              simultaneous)
    as (selected & sorted & Hinfos & _ & Hstable).
  - repeat split; reflexivity.
  - reflexivity.
  - reflexivity.
  - repeat constructor; intros _; eexists; (split; [reflexivity|]);
      eexists; reflexivity.
  - exists selected, sorted. split; [exact Hinfos | apply Hstable].
Defined.

(** X11 at a thread without runs. *)
Lemma history_without_runs_sample :
  get_thread_history_tool plain_str unordered nothing_found
    (VStr "th") (VStr "proj") []
  = ([history_call plain_str (VStr "th") (VStr "proj")],
     inr (error_payload "No runs found for thread th in project proj")).
Proof.
  apply (history_without_runs plain_str unordered nothing_found
           (VStr "th") (VStr "proj") (VList []));
    reflexivity.
Defined.

(** X12 at a run whose outputs have a "message" and no "choices". *)
Lemma history_is_inputs_then_output_sample :
  get_thread_history_tool plain_str unordered direct_thread
    (VStr "th") (VStr "proj") []
  = ([history_call plain_str (VStr "th") (VStr "proj")],
     inr (VDict [("result",
                  VList [message "system" "be brief"; message "user" "hello";
                         message "assistant" "hi"])])).
Proof.
  apply (history_is_inputs_then_output plain_str unordered direct_thread
           (VStr "th") (VStr "proj") (VList [older_run; direct_run])
           direct_run (message "assistant" "hi") [older_run; direct_run]
           [message "system" "be brief"; message "user" "hello"]).
  - reflexivity.
  - reflexivity.
  - exists [older_run]. reflexivity.
  - right. eexists. split; reflexivity.
  - eexists. split; [reflexivity|]. right. split; reflexivity.
Defined.

(** X13 at a single run without a start time. *)
Lemma history_requires_start_times_sample :
  exists e,
    get_thread_history_tool plain_str unordered timeless_thread
      (VStr "th") (VStr "proj") []
    = ([history_call plain_str (VStr "th") (VStr "proj")],
       inr (error_payload ("Error fetching thread history: " ++ exn_str e))).
Proof.
  apply (history_requires_start_times plain_str unordered timeless_thread
           (VStr "th") (VStr "proj") (VList [timeless_run]) timeless_run
           [timeless_run]).
  - reflexivity.
  - reflexivity.
  - left. reflexivity.
  - eexists. reflexivity.
Defined.

(** X14 at a name with two slashes, which stands for itself. *)
Lemma project_name_is_unqualified_sample :
  get_project_runs_stats_tool stats_client (VStr "acme/team/widgets") VNone []
  = ([stats_call (VList [VStr "acme/team/widgets"]) VNone],
     inr (VDict [("run_count", VInt 3); ("error_rate", VInt 0);
                 ("project_name", VStr "acme/team/widgets")])).
Proof.
  apply (project_name_is_unqualified stats_client "acme/team/widgets" VNone
           sample_stats);
    [discriminate | discriminate | reflexivity].
Defined.

(** X15 at the sample statistics. *)
Lemma statistics_are_passed_on_sample :
  passes_statistics_on stats_client
    (Success (VDict [("run_count", VInt 3); ("error_rate", VInt 0);
                     ("project_name", VStr "widgets")])).
Proof.
  apply (statistics_are_passed_on stats_client (VStr "acme/widgets") VNone
           [] [stats_call (VList [VStr "widgets"]) VNone]).
  reflexivity.
Defined.

(** X18 at a dataset whose creation time is text. *)
Lemma bad_timestamp_sample :
  exists e,
    list_datasets_tool text_dated_client VNone VNone VNone VNone VNone
      (VInt 20) []
    = ([Call "list_datasets" [] [("limit", VInt 20)]],
       inr (error_payload ("Error fetching datasets: " ++ exn_str e))).
Proof.
  apply (proj1 (bad_timestamp_fails_the_listing plain_str unordered
                  text_dated_client)
           VNone VNone VNone VNone VNone (VInt 20)
           (VList [sample_dataset; text_dated]) [sample_dataset; text_dated]
           text_dated).
  - reflexivity.
  - reflexivity.
  - right. left. reflexivity.
  - exists "created_at". split; [now left | exact I].
Defined.

(** X19 at the sample trace. *)
Lemma trace_record_shape_sample :
  trace_record plain_str one_trace (VStr "proj") VNone
    (Success (VDict
       [("trace_id", VStr "T"); ("run_type", VStr "chain"); ("id", VStr "T");
        ("error", VNone); ("inputs", VDict [("question", VStr "why")]);
        ("outputs", VDict [("answer", VStr "because")]);
        ("total_tokens", VInt 42); ("total_cost", VStr "None");
        ("feedback_stats", VNone); ("app_path", VStr "/o/1/projects/p/2");
        ("thread_id", VNone)])).
Proof.
  apply (trace_record_shape plain_str one_trace (VStr "proj") VNone
           [] [trace_call (VStr "proj") VNone]).
  reflexivity.
Defined.

(** X20 at the three listed runs. *)
Lemma run_record_shape_sample :
  exists v,
    fetch_run_tool plain_str unordered three_runs (VStr "R") []
    = ([read_call (VStr "R"); children_call plain_str root_run], inr v)
    /\ run_record (Success v).
Proof.
  eexists. split; [reflexivity|].
  apply (run_record_shape plain_str unordered three_runs (VStr "R")
           [] [read_call (VStr "R"); children_call plain_str root_run]).
  reflexivity.
Defined.

(** X22 at two runs that started at noon. *)
Lemma first_of_the_most_recent_sample :
  latest_of unordered [older_run; noon_first; noon_second] noon_first.
Proof.
  apply (first_of_the_most_recent unordered [older_run] [noon_second]
           noon_first (Datetime 2024 5 17 12 30 0 0)).
  - reflexivity.
  - repeat constructor. eexists. split; reflexivity.
  - repeat constructor. eexists. split; reflexivity.
Defined.

(** X23 at a service that answers 403. *)
Lemma list_rules_status_sample :
  list_rules plain_str forbidden (VStr "key") VNone []
  = ([Call "requests.get"
        [VStr "https://api.smith.langchain.com/api/v1/runs/rules"]
        [("headers", VDict [("X-API-Key", VStr "key")]);
         ("params", VDict []);
         ("timeout", VInt 30)]],
     inl (Raised "List rules failed: 403 Forbidden")).
Proof.
  apply (proj1 (list_rules_checks_the_status plain_str forbidden (VStr "key")
                  VNone (VDict []) forbidden_response (VInt 403) []
                  (or_intror (conj eq_refl eq_refl)) eq_refl eq_refl)
           eq_refl (VStr "Forbidden") eq_refl).
Defined.

(** X24 at a service without rules, and at one with two. *)
Lemma get_rule_by_id_sample :
  get_rule_by_id plain_str plain_dumps no_rules (VStr "key") (VStr "abc123") []
  = ([rules_request (VStr "key") (by_id (VStr "abc123"));
      Call "json" [ok_response] [];
      printed "No rule found with id: abc123"],
     inr VNone)
  /\ get_rule_by_id plain_str plain_dumps two_rules (VStr "key") (VStr "r-1") []
     = ([rules_request (VStr "key") (by_id (VStr "r-1"));
         Call "json" [ok_response] [];
         printed ("Rule details:" ++ newline ++ "{}")],
        inr (VDict rule_one)).
Proof.
  split.
  - apply (proj1 (get_rule_by_id_outcomes plain_str plain_dumps no_rules
                    (VStr "key") (VStr "abc123") [])
             ok_response (VList [])).
    + repeat split; reflexivity.
    + reflexivity.
  - apply (proj1 (proj2 (get_rule_by_id_outcomes plain_str plain_dumps
                           two_rules (VStr "key") (VStr "r-1") []))
             ok_response (VDict rule_one) [VDict rule_two] "{}").
    + repeat split; reflexivity.
    + reflexivity.
Defined.

(** X25 at a service without rules. *)
Lemma rules_main_sample :
  rules_main plain_str plain_dumps no_rules (VStr "key") []
  = ([printed "=== All rules (id :: name) ===";
      rules_request (VStr "key") by_name; Call "json" [ok_response] []],
     inl (Raised "name 'r' is not defined")).
Proof.
  apply (proj1 (rules_main_looks_up_the_last_rule plain_str plain_dumps
                  no_rules (VStr "key") ok_response)).
  repeat split; reflexivity.
Defined.

(** X26 at results with a success, a count and an error. *)
Lemma summary_counts_sample :
  success_count
    [("create", success_only); ("list", VDict [("count", VInt 0)]);
     ("error", VStr "failed")] = 1
  /\ total_count
       [("create", success_only); ("list", VDict [("count", VInt 0)]);
        ("error", VStr "failed")] = 1.
Proof.
  destruct (summary_counts
              [("create", success_only); ("list", VDict [("count", VInt 0)]);
               ("error", VStr "failed")]) as [_ Heq].
  split; [reflexivity|]. rewrite <- Heq; [reflexivity|].
  repeat constructor; intros H; first [reflexivity | discriminate H].
Defined.

(** X27 at a service on which reading the dataset fails: the dataset was
    created and is not deleted. *)
Lemma dataset_test_outcome_sample :
  exists log d,
    test_datasets_operations plain_str unreadable_service "0123abcd4567"
      (VStr "kv") (at_hour 13) []
    = (log, inr (VDict [("datasets", VDict d)]))
    /\ Dict.keys d = ["list_existing"; "create"; "error"]
    /\ called "create_dataset" log = true
    /\ called "delete_dataset" log = false.
Proof.
  destruct (dataset_test_outcome plain_str unreadable_service "0123abcd4567"
              (VStr "kv") (at_hour 13))
    as (log & d & Hrun & _ & Hleak & _).
  exists log, d. split; [exact Hrun|].
  vm_compute in Hrun. inversion Hrun. subst.
  split; [reflexivity|]. split; [reflexivity|].
  apply Hleak. reflexivity.
Defined.

(** X28 at a service on which every step succeeds. *)
Lemma dataset_test_runs_all_steps_sample :
  exists log d,
    test_datasets_operations plain_str dataset_service "0123abcd4567"
      (VStr "kv") (at_hour 13) []
    = (log, inr (VDict [("datasets", VDict d)]))
    /\ Dict.keys d = dataset_test_steps
    /\ methods_called log = dataset_test_methods.
Proof.
  destruct (dataset_test_paths plain_str dataset_service "0123abcd4567"
              (VStr "kv") (at_hour 13))
    as (log & d & Hrun & _).
  exists log, d. split; [exact Hrun|].
  apply (dataset_test_runs_all_steps plain_str dataset_service "0123abcd4567"
           (VStr "kv") (at_hour 13) log d Hrun).
  vm_compute in Hrun. inversion Hrun. reflexivity.
Defined.
